(** * Document-analysis response pipeline of the intake-form OCR assistant

    A shallow embedding of [azure-utils] (validators, endpoint normaliser,
    structured extractor, error translator) and of the analysis route
    ([analyzeDocument], [extractTextFromAnalysisResult],
    [formatTextWithGemma] and the [POST] handler), then of the hook that
    calls the route ([processDocument]).

    Conventions of the embedding.
    - A JavaScript string is the Rocq [string] of its UTF-8 bytes.
    - A JavaScript number is an integer [Z]; it stands for a safe integer
      (below 2^53 in magnitude), which JavaScript prints with all its
      digits.  Fractional numbers are not part of the embedding, and a
      statement that prints a number holds for the safe integers only.
    - Values are those that [JSON.parse] produces, plus [undefined].  The
      properties of an object are kept in enumeration order, with unique keys.
    - Code that can throw lives in the result type [res]; code that also talks
      to the console, the timer or the transport lives in [M], which threads
      the trace of events. *)

From Stdlib Require Import ZArith List Ascii String Decimal DecimalString Lia.
From stdpp Require Import base tactics option list strings.

Open Scope Z_scope.

Set Warnings "-register-all".

(** ** Characters and strings *)

Definition chr (n : nat) : ascii := ascii_of_nat n.
Definition str1 (n : nat) : string := String (chr n) EmptyString.

Definition LF : string := str1 10.
Definition DQUOTE : string := str1 34.
Definition BACKSLASH : string := str1 92.

Definition code (a : ascii) : nat := nat_of_ascii a.

Fixpoint bytes (s : string) : list ascii :=
  match s with
  | EmptyString => []
  | String a r => a :: bytes r
  end.

Fixpoint of_bytes (l : list ascii) : string :=
  match l with
  | [] => EmptyString
  | a :: r => String a (of_bytes r)
  end.

(** [String.prototype.endsWith] and [String.prototype.includes]. *)
Definition startsWith (s p : string) : bool := String.prefix p s.

Definition endsWith (s p : string) : bool :=
  String.prefix (of_bytes (rev (bytes p))) (of_bytes (rev (bytes s))).

Fixpoint includes (s p : string) : bool :=
  String.prefix p s ||
  match s with
  | EmptyString => false
  | String _ r => includes r p
  end.

(** [s.slice(0, -1)]: the string without its last code unit.  The only use
    in the source follows [endsWith('/')], so the last unit is one byte. *)
Definition drop_last (s : string) : string :=
  of_bytes (removelast (bytes s)).

(** Length in bytes of the white space or line terminator code point that
    starts the byte list, [0%nat] when there is none.  The set is the one of
    [String.prototype.trim]: TAB, LF, VT, FF, CR, SP, U+00A0, U+1680,
    U+2000..U+200A, U+2028, U+2029, U+202F, U+205F, U+3000, U+FEFF. *)
Definition ws_head (l : list nat) : nat :=
  match l with
  | 9 :: _ | 10 :: _ | 11 :: _ | 12 :: _ | 13 :: _ | 32 :: _ => 1
  | 194 :: 160 :: _ => 2
  | 225 :: 154 :: 128 :: _ => 3
  | 226 :: 128 :: b :: _ =>
      if ((128 <=? b) && (b <=? 138))%nat || (b =? 168)%nat || (b =? 169)%nat
         || (b =? 175)%nat
      then 3 else 0
  | 226 :: 129 :: 159 :: _ => 3
  | 227 :: 128 :: 128 :: _ => 3
  | 239 :: 187 :: 191 :: _ => 3
  | _ => 0
  end%nat.

(** The same, for the code point that ends the list, given the list reversed. *)
Definition ws_last (l : list nat) : nat :=
  match l with
  | 9 :: _ | 10 :: _ | 11 :: _ | 12 :: _ | 13 :: _ | 32 :: _ => 1
  | 160 :: 194 :: _ => 2
  | 128 :: 154 :: 225 :: _ => 3
  | b :: 128 :: 226 :: _ =>
      if ((128 <=? b) && (b <=? 138))%nat || (b =? 168)%nat || (b =? 169)%nat
         || (b =? 175)%nat
      then 3 else 0
  | 159 :: 129 :: 226 :: _ => 3
  | 128 :: 128 :: 227 :: _ => 3
  | 191 :: 187 :: 239 :: _ => 3
  | _ => 0
  end%nat.

Fixpoint strip (head : list nat -> nat) (fuel : nat) (l : list nat) : list nat :=
  match fuel with
  | O => l
  | S fuel' =>
      match head l with
      | O => l
      | n => strip head fuel' (drop n l)
      end
  end.

(** [String.prototype.trim]. *)
Definition trim (s : string) : string :=
  let l := map code (bytes s) in
  let l1 := strip ws_head (length l) l in
  let l2 := rev (strip ws_last (length l1) (rev l1)) in
  of_bytes (map chr l2).

(** Decimal rendering of a safe integer ([Number::toString]); from 2^53 on
    JavaScript prints the shortest digits that read back as the same number,
    which this rendering does not follow. *)
Definition string_of_Z (z : Z) : string :=
  NilZero.string_of_int (Z.to_int z).

(** Code points of a string, as the string iterator yields them: a byte that
    is not a UTF-8 continuation byte starts a new code point. *)
Definition is_continuation (a : ascii) : bool :=
  ((128 <=? code a) && (code a <? 192))%nat.

Fixpoint code_points_aux (cur : list ascii) (l : list ascii) : list string :=
  match l with
  | [] => match cur with [] => [] | _ => [of_bytes (rev cur)] end
  | a :: r =>
      if is_continuation a then code_points_aux (a :: cur) r
      else match cur with
           | [] => code_points_aux [a] r
           | _ => of_bytes (rev cur) :: code_points_aux [a] r
           end
  end.

Definition code_points (s : string) : list string :=
  code_points_aux [] (bytes s).


(** ** Values, exceptions and results *)

Inductive value : Type :=
| VUndef
| VNull
| VBool (b : bool)
| VNum (z : Z)
| VStr (s : string)
| VArr (elems : list value)
| VObj (props : list (string * value)).

(** What a [throw] carries.  [Error m] is [new Error(m)]; the others are
    raised by the runtime ([TypeError], [RangeError]), by [Response.json]
    ([SyntaxError]) or by [fetch] ([NetworkError]). *)
Inductive exn : Type :=
| Error (message : string)
| TypeError
| RangeError
| SyntaxError
| NetworkError.

(** Outcome of a computation.  [Unmodelled] marks a run that leaves the
    embedding.  It happens in three places of the text extractor: a string
    or an array used as a row or column index, a string or an array compared
    with [0] as a length, and a value other than an array read by position.
    JavaScript resolves these through string-to-number conversion and the
    built-in prototype chain, which are not embedded.  It also happens in
    the handler, for a request field that is present without being a
    string. *)
Inductive res (A : Type) : Type :=
| Ret (a : A)
| Throw (e : exn)
| Unmodelled.

Arguments Ret {A} a.
Arguments Throw {A} e.
Arguments Unmodelled {A}.

#[global] Instance res_ret : MRet res := fun A a => Ret a.

#[global] Instance res_bind : MBind res := fun A B f m =>
  match m with
  | Ret a => f a
  | Throw e => Throw e
  | Unmodelled => Unmodelled
  end.

(** [try { body } catch { handler }] *)
Definition try_catch {A : Type} (body : res A) (handler : exn -> res A) : res A :=
  match body with
  | Ret a => Ret a
  | Throw e => handler e
  | Unmodelled => Unmodelled
  end.

Fixpoint foldM {A B : Type} (f : A -> B -> res A) (a : A) (l : list B) : res A :=
  match l with
  | [] => Ret a
  | x :: r => a' ← f a x; foldM f a' r
  end.

Fixpoint mapM {A B : Type} (f : A -> res B) (l : list A) : res (list B) :=
  match l with
  | [] => Ret []
  | x :: r => y ← f x; ys ← mapM f r; Ret (y :: ys)
  end.

(** ** The operations of the language that the source uses *)

(** Truthiness ([ToBoolean]). *)
Definition truthy (v : value) : bool :=
  match v with
  | VUndef | VNull => false
  | VBool b => b
  | VNum z => negb (z =? 0)
  | VStr s => negb (String.eqb s "")
  | VArr _ | VObj _ => true
  end.

(** [a || b] *)
Definition or_else (a b : value) : value := if truthy a then a else b.

Fixpoint lookup_prop (props : list (string * value)) (k : string) : value :=
  match props with
  | [] => VUndef
  | (k', v) :: r => if String.eqb k' k then v else lookup_prop r k
  end.

Definition has_own (props : list (string * value)) (k : string) : bool :=
  existsb (fun p => String.eqb (fst p) k) props.

(** [v.k] for the property names that the source reads.  None of them is a
    property of a built-in prototype, so only an object can hold one; reading
    from [undefined] or [null] throws. *)
Definition get (v : value) (k : string) : res value :=
  match v with
  | VUndef | VNull => Throw TypeError
  | VObj props => Ret (lookup_prop props k)
  | _ => Ret VUndef
  end.

(** [v?.k] *)
Definition get_opt (v : value) (k : string) : res value :=
  match v with
  | VUndef | VNull => Ret VUndef
  | _ => get v k
  end.

(** ['k' in v] for an object or array [v] and a name that no prototype has. *)
Definition has_property (v : value) (k : string) : bool :=
  match v with
  | VObj props => has_own props k
  | _ => false
  end.

Inductive type_tag : Type :=
| TUndefined | TObject | TBoolean | TNumber | TString.

Definition typeof (v : value) : type_tag :=
  match v with
  | VUndef => TUndefined
  | VNull | VArr _ | VObj _ => TObject
  | VBool _ => TBoolean
  | VNum _ => TNumber
  | VStr _ => TString
  end.

Definition type_tag_eqb (a b : type_tag) : bool :=
  match a, b with
  | TUndefined, TUndefined | TObject, TObject | TBoolean, TBoolean
  | TNumber, TNumber | TString, TString => true
  | _, _ => false
  end.

(** Strict equality with a string literal: [v === 'lit']. *)
Definition strict_eq_str (v : value) (lit : string) : bool :=
  match v with
  | VStr s => String.eqb s lit
  | _ => false
  end.

(** [ToString], as a template literal applies it.  An object parsed from
    JSON has no callable property of its own: with an own [toString]
    property the conversion finds no usable method and throws; without one
    it inherits [Object.prototype.toString].  An array joins its elements
    with commas, [undefined] and [null] giving the empty string. *)
Fixpoint to_string (v : value) : res string :=
  match v with
  | VUndef => Ret "undefined"
  | VNull => Ret "null"
  | VBool b => Ret (if b then "true" else "false")
  | VNum z => Ret (string_of_Z z)
  | VStr s => Ret s
  | VArr l =>
      (fix join (l : list value) : res string :=
         match l with
         | [] => Ret ""
         | x :: r =>
             s ← match x with
                 | VUndef | VNull => Ret ""
                 | _ => to_string x
                 end;
             match r with
             | [] => Ret s
             | _ => t ← join r; Ret (s +:+ "," +:+ t)
             end
         end) l
  | VObj props =>
      if has_own props "toString" then Throw TypeError
      else Ret "[object Object]"
  end.

(** [`${v}`] *)
Definition interpolate (v : value) : res string := to_string v.

(** [Array.prototype.join] *)
Definition join_elem (x : value) : res string :=
  match x with
  | VUndef | VNull => Ret ""
  | _ => to_string x
  end.

Fixpoint array_join (sep : string) (l : list value) : res string :=
  match l with
  | [] => Ret ""
  | x :: r =>
      s ← join_elem x;
      match r with
      | [] => Ret s
      | _ => t ← array_join sep r; Ret (s +:+ sep +:+ t)
      end
  end.

(** The iteration of [for (const x of v)]: arrays yield their elements,
    strings their code points, anything else is not iterable. *)
Definition iterate (v : value) : res (list value) :=
  match v with
  | VArr l => Ret l
  | VStr s => Ret (map VStr (code_points s))
  | _ => Throw TypeError
  end.

(** [JSON.stringify]: the escape of one byte of a string. *)
Definition hex_digit (n : nat) : ascii :=
  chr (if (n <? 10)%nat then 48 + n else 87 + n)%nat.

Definition quote_byte (a : ascii) : string :=
  let n := code a in
  if (n =? 8)%nat then BACKSLASH +:+ "b"
  else if (n =? 9)%nat then BACKSLASH +:+ "t"
  else if (n =? 10)%nat then BACKSLASH +:+ "n"
  else if (n =? 12)%nat then BACKSLASH +:+ "f"
  else if (n =? 13)%nat then BACKSLASH +:+ "r"
  else if (n =? 34)%nat then BACKSLASH +:+ DQUOTE
  else if (n =? 92)%nat then BACKSLASH +:+ BACKSLASH
  else if (n <? 32)%nat then
    BACKSLASH +:+ "u00" +:+
    String (hex_digit (n / 16)) (String (hex_digit (n mod 16)) EmptyString)
  else String a EmptyString.

Definition quote (s : string) : string :=
  DQUOTE +:+ String.concat "" (map quote_byte (bytes s)) +:+ DQUOTE.

(** [JSON.stringify(v)]; [None] is the [undefined] it returns for
    [undefined].  Inside an array [undefined] prints as [null], inside an
    object the property is left out. *)
Fixpoint stringify (v : value) : option string :=
  match v with
  | VUndef => None
  | VNull => Some "null"
  | VBool b => Some (if b then "true" else "false")
  | VNum z => Some (string_of_Z z)
  | VStr s => Some (quote s)
  | VArr l =>
      Some ("[" +:+
            String.concat ","
              ((fix items (l : list value) : list string :=
                  match l with
                  | [] => []
                  | x :: r => default "null" (stringify x) :: items r
                  end) l) +:+ "]")
  | VObj props =>
      Some ("{" +:+
            String.concat ","
              ((fix members (l : list (string * value)) : list string :=
                  match l with
                  | [] => []
                  | (k, x) :: r =>
                      match stringify x with
                      | Some s => (quote k +:+ ":" +:+ s) :: members r
                      | None => members r
                      end
                  end) props) +:+ "}")
  end.

(** [`${JSON.stringify(v)}`] *)
Definition stringify_text (v : value) : string :=
  default "undefined" (stringify v).

(** ** Effects: the trace of a run *)

Inductive http_method : Type := GET | POST.

Record Request : Type := mkRequest {
  req_url : string;
  req_method : http_method;
  req_headers : list (string * string);
  req_body : option string
}.

(** What the source reads of a [Response]: the status, the status text, the
    [Operation-Location] header ([None] when [headers.get] gives [null]) and
    the body as [json()] parses it ([None] when parsing fails). *)
Record Response : Type := mkResponse {
  status : Z;
  statusText : string;
  operationLocation : option string;
  json_body : option value
}.

(** [response.ok] *)
Definition ok (r : Response) : bool := (200 <=? status r) && (status r <=? 299).

(** A [fetch] resolves with a response or rejects. *)
Inductive fetched : Type :=
| Responded (r : Response)
| Rejected.

Inductive callee : Type := TextExtraction | StructuredExtraction.

Inductive event : Type :=
| EvDelay (ms : Z)
| EvFetch (req : Request)
| EvWarn (message : string)
| EvError (label : string) (e : option exn)
| EvCall (f : callee).

(** [EvCall] marks the entry into one of the two extractors; the other
    events are the calls to the timer, the transport and the console. *)

Definition M (A : Type) : Type := list event -> res A * list event.

#[global] Instance M_ret : MRet M := fun A a tr => (Ret a, tr).

#[global] Instance M_bind : MBind M := fun A B f m tr =>
  match m tr with
  | (Ret a, tr') => f a tr'
  | (Throw e, tr') => (Throw e, tr')
  | (Unmodelled, tr') => (Unmodelled, tr')
  end.

Definition lift {A : Type} (r : res A) : M A := fun tr => (r, tr).
Definition throw {A : Type} (e : exn) : M A := lift (Throw e).
Definition emit (e : event) : M unit := fun tr => (Ret tt, tr ++ [e]).

Definition try_catchM {A : Type} (body : M A) (handler : exn -> M A) : M A :=
  fun tr =>
    match body tr with
    | (Ret a, tr') => (Ret a, tr')
    | (Throw e, tr') => handler e tr'
    | (Unmodelled, tr') => (Unmodelled, tr')
    end.

Definition console_warn (message : string) : M unit := emit (EvWarn message).
Definition console_error (label : string) (e : option exn) : M unit :=
  emit (EvError label e).

(** [await new Promise(resolve => setTimeout(resolve, ms))] *)
Definition delay (ms : Z) : M unit := emit (EvDelay ms).

(** ** azure-utils: the validators *)

Definition supportedTypes : list string :=
  ["application/pdf"; "image/jpeg"; "image/jpg"; "image/png"].

(** [Array.prototype.includes] on an array of strings. *)
Definition array_includes (l : list string) (x : string) : bool :=
  existsb (String.eqb x) l.

Definition validateFileType (fileType : string) : bool :=
  array_includes supportedTypes fileType.

(** The fragment of regular expressions that the source uses: anchors,
    character classes given by ranges and counted repetition.  Matching is
    on code units; a class of ASCII ranges accepts no byte of a multi-byte
    character, so matching on the UTF-8 bytes accepts the same strings. *)
Inductive regex : Type :=
| RStart
| REnd
| RClass (ranges : list (ascii * ascii))
| RRepeat (n : nat) (r : regex).

Definition in_range (a : ascii) (rg : ascii * ascii) : bool :=
  ((code (fst rg) <=? code a) && (code a <=? code (snd rg)))%nat.

(** One step of the matcher: the position and the rest of the input after
    the item has matched at that position. *)
Fixpoint match_item (r : regex) (pos : nat) (input : list ascii)
  : option (nat * list ascii) :=
  match r with
  | RStart => if (pos =? 0)%nat then Some (pos, input) else None
  | REnd => match input with [] => Some (pos, input) | _ => None end
  | RClass ranges =>
      match input with
      | a :: rest => if existsb (in_range a) ranges then Some (S pos, rest) else None
      | [] => None
      end
  | RRepeat n r' =>
      (fix times (n : nat) (pos : nat) (input : list ascii) :=
         match n with
         | O => Some (pos, input)
         | S n' =>
             match match_item r' pos input with
             | Some (pos', input') => times n' pos' input'
             | None => None
             end
         end) n pos input
  end.

Fixpoint match_seq (items : list regex) (pos : nat) (input : list ascii) : bool :=
  match items with
  | [] => true
  | r :: rest =>
      match match_item r pos input with
      | Some (pos', input') => match_seq rest pos' input'
      | None => false
      end
  end.

(** [RegExp.prototype.test]: a match may start at any index. *)
Fixpoint test_from (items : list regex) (pos : nat) (input : list ascii) : bool :=
  match_seq items pos input ||
  match input with
  | [] => false
  | _ :: rest => test_from items (S pos) rest
  end.

Definition regex_test (items : list regex) (s : string) : bool :=
  test_from items 0 (bytes s).

(** [[0-9a-fA-F]] *)
Definition hex_class : regex :=
  RClass [("0"%char, "9"%char); ("a"%char, "f"%char); ("A"%char, "F"%char)].

(** [/^[0-9a-fA-F]{32}$/] *)
Definition apiKeyRegex : list regex := [RStart; RRepeat 32 hex_class; REnd].

Definition validateApiKey (apiKey : string) : bool :=
  if negb (truthy (VStr apiKey)) then false
  else regex_test apiKeyRegex apiKey.

(** ** azure-utils: extractStructuredData *)

(** [v.map(f)]: only an array has a callable [map]. *)
Definition array_map (v : value) (f : value -> res value) : res (list value) :=
  match v with
  | VArr l => mapM f l
  | _ => Throw TypeError
  end.

Definition structured_line (line : value) : res value :=
  content ← get line "content";
  boundingBox ← get line "boundingBox";
  Ret (VObj [("content", content); ("boundingBox", boundingBox)]).

Definition structured_page (page : value) : res value :=
  pageNumber ← get page "pageNumber";
  width ← get page "width";
  height ← get page "height";
  unit ← get page "unit";
  ls ← get page "lines";
  lines ← array_map (or_else ls (VArr [])) structured_line;
  Ret (VObj [("pageNumber", pageNumber); ("width", width); ("height", height);
             ("unit", unit); ("lines", VArr lines)]).

Definition structured_cell (cell : value) : res value :=
  rowIndex ← get cell "rowIndex";
  columnIndex ← get cell "columnIndex";
  rowSpan ← get cell "rowSpan";
  columnSpan ← get cell "columnSpan";
  content ← get cell "content";
  boundingBox ← get cell "boundingBox";
  Ret (VObj [("rowIndex", rowIndex); ("columnIndex", columnIndex);
             ("rowSpan", or_else rowSpan (VNum 1));
             ("columnSpan", or_else columnSpan (VNum 1));
             ("content", content); ("boundingBox", boundingBox)]).

Definition structured_table (table : value) : res value :=
  rowCount ← get table "rowCount";
  columnCount ← get table "columnCount";
  cs ← get table "cells";
  cells ← iterate (or_else cs (VArr []));
  out ← mapM structured_cell cells;
  Ret (VObj [("rowCount", rowCount); ("columnCount", columnCount);
             ("cells", VArr out)]).

(** [(pair.key as Record<string, unknown>)?.content || ''] *)
Definition structured_key (pair : value) : res value :=
  k ← get pair "key";
  kc ← get_opt k "content";
  Ret (or_else kc (VStr "")).

(** [(pair.value as Record<string, unknown>)?.content || ''] *)
Definition structured_value (pair : value) : res value :=
  v ← get pair "value";
  vc ← get_opt v "content";
  Ret (or_else vc (VStr "")).

Definition structured_pair (pair : value) : res value :=
  key ← structured_key pair;
  val ← structured_value pair;
  Ret (VObj [("key", key); ("value", val)]).

(** The body of the [try] block. *)
Definition structured_body (analysisResult : value) : res value :=
  analyzeResult ← get analysisResult "analyzeResult";
  p ← get_opt analyzeResult "pages";
  pages ← iterate (or_else p (VArr []));
  pagesOut ← mapM structured_page pages;
  t ← get_opt analyzeResult "tables";
  tables ← iterate (or_else t (VArr []));
  tablesOut ← mapM structured_table tables;
  kv ← get_opt analyzeResult "keyValuePairs";
  keyValuePairs ← iterate (or_else kv (VArr []));
  pairsOut ← mapM structured_pair keyValuePairs;
  Ret (VObj [("pages", VArr pagesOut); ("tables", VArr tablesOut);
             ("keyValuePairs", VArr pairsOut)]).

Definition structured_error_label : string := "構造化データ抽出エラーが発生しました".

Definition extractStructuredData (analysisResult : value) : M value :=
  emit (EvCall StructuredExtraction);;
  try_catchM
    (lift (structured_body analysisResult))
    (fun _ =>
       console_error structured_error_label None;;
       mret VNull).

(** ** azure-utils: extractAzureErrorInfo *)

Definition is_null (v : value) : bool :=
  match v with VNull => true | _ => false end.

Definition service : string := "Azure APIエラー".

Definition message_401 : string :=
  "Azure APIの認証に失敗しました。APIキーを確認してください。".
Definition message_403 : string :=
  "Azure APIへのアクセスが拒否されました。APIキーの権限を確認してください。".
Definition message_404 : string :=
  "Azure APIのエンドポイントが見つかりません。エンドポイントURLを確認してください。".
Definition message_429 : string :=
  "Azure APIのレート制限を超えました。しばらく待ってから再試行してください。".

Definition extractAzureErrorInfo (response : Response) (responseBody : value)
  : res string :=
  try_catch
    (if status response =? 401 then Ret message_401
     else if status response =? 403 then Ret message_403
     else if status response =? 404 then Ret message_404
     else if status response =? 429 then Ret message_429
     else
       guard ← (if truthy responseBody then get responseBody "error"
                else Ret responseBody);
       if truthy guard then
         error ← get responseBody "error";
         if type_tag_eqb (typeof error) TObject && negb (is_null error)
            && has_property error "code" && has_property error "message"
         then
           c ← get error "code";
           cs ← interpolate c;
           m ← get error "message";
           ms ← interpolate m;
           Ret (service +:+ " (" +:+ cs +:+ "): " +:+ ms)
         else if type_tag_eqb (typeof error) TString then
           s ← interpolate error;
           Ret (service +:+ ": " +:+ s)
         else
           Ret (service +:+ ": " +:+ stringify_text error)
       else
         Ret (service +:+ " (" +:+ string_of_Z (status response) +:+ "): "
              +:+ statusText response))
    (fun _ => Ret (service +:+ " (" +:+ string_of_Z (status response) +:+ ")")).

(** ** route: extractTextFromAnalysisResult *)

(** A JavaScript array as the list of its elements, a hole reading as
    [undefined].  A length is at most [2^32 - 1] and an array index at most
    [2^32 - 2]. *)
Definition MAX_LENGTH : Z := 2 ^ 32 - 1.

(** [Array(n).fill(x)].  A number must be a valid length, any other value
    becomes the only element of the new array. *)
Definition new_filled (n : value) (x : value) : res (list value) :=
  match n with
  | VNum z =>
      if (0 <=? z) && (z <=? MAX_LENGTH) then Ret (replicate (Z.to_nat z) x)
      else Throw RangeError
  | _ => Ret [x]
  end.

(** [Array(rowCount).fill(null).map(() => Array(columnCount).fill(''))] *)
Definition new_grid (rowCount columnCount : value) : res (list (list value)) :=
  rows ← new_filled rowCount VNull;
  mapM (fun _ => new_filled columnCount (VStr "")) rows.

(** [tableData[rowIndex]], as the target of an assignment: the position of
    the row, or the [TypeError] of assigning into [undefined]. *)
Definition row_at (tableData : list (list value)) (rowIndex : value) : res nat :=
  match rowIndex with
  | VNum r =>
      if (0 <=? r) && (r <? Z.of_nat (length tableData)) then Ret (Z.to_nat r)
      else Throw TypeError
  | VStr _ | VArr _ => Unmodelled
  | _ => Throw TypeError
  end.

(** [row[columnIndex] = x].  An array index inside the row overwrites, one
    beyond its end extends the row over holes; any other key becomes an
    ordinary property, which neither [join] nor iteration sees. *)
Definition store (row : list value) (columnIndex : value) (x : value)
  : res (list value) :=
  match columnIndex with
  | VNum c =>
      if (0 <=? c) && (c <? MAX_LENGTH) then
        let i := Z.to_nat c in
        Ret (if (i <? length row)%nat then <[i := x]> row
             else row ++ replicate (i - length row) VUndef ++ [x])
      else Ret row
  | VStr _ | VArr _ => Unmodelled
  | VObj props => if has_own props "toString" then Throw TypeError else Ret row
  | _ => Ret row
  end.

(** [tableData[rowIndex][columnIndex] = cell.content || ''] *)
Definition place_cell (tableData : list (list value)) (cell : value)
  : res (list (list value)) :=
  rowIndex ← get cell "rowIndex";
  columnIndex ← get cell "columnIndex";
  r ← row_at tableData rowIndex;
  content ← get cell "content";
  row ← store (default [] (tableData !! r)) columnIndex (or_else content (VStr ""));
  Ret (<[r := row]> tableData).

(** [for (const row of tableData) text += row.join(' | ') + '\n'] *)
Definition render_row (text : string) (row : list value) : res string :=
  s ← array_join " | " row;
  Ret (text +:+ s +:+ LF).

(** The grid of one table, after every cell is placed. *)
Definition table_grid (table : value) : res (list (list value)) :=
  cs ← get table "cells";
  rc ← get table "rowCount";
  cc ← get table "columnCount";
  tableData ← new_grid (or_else rc (VNum 0)) (or_else cc (VNum 0));
  cells ← iterate (or_else cs (VArr []));
  foldM place_cell tableData cells.

(** [`テーブル ${i + 1}:\n`] *)
Definition table_header (i : Z) : string :=
  "テーブル " +:+ string_of_Z (i + 1) +:+ ":" +:+ LF.

(** The body of the loop over the tables; [i] is the loop counter. *)
Definition table_step (acc : string * Z) (table : value) : res (string * Z) :=
  let (text, i) := acc in
  let text := text +:+ table_header i in
  tableData ← table_grid table;
  text ← foldM render_row text tableData;
  Ret (text +:+ LF, i + 1).

Definition line_step (text : string) (line : value) : res string :=
  content ← get line "content";
  s ← interpolate content;
  Ret (text +:+ s +:+ LF).

Definition page_step (text : string) (page : value) : res string :=
  pageNumber ← get page "pageNumber";
  pn ← interpolate pageNumber;
  let text := text +:+ "===== ページ " +:+ pn +:+ " =====" +:+ LF +:+ LF in
  ls ← get page "lines";
  lines ← iterate (or_else ls (VArr []));
  text ← foldM line_step text lines;
  Ret (text +:+ LF).

Definition placeholder : string := "不明なフィールド".

(** [((pair.key as Record<string, unknown>)?.content as string) || '不明なフィールド'] *)
Definition text_key (pair : value) : res value :=
  k ← get pair "key";
  kc ← get_opt k "content";
  Ret (or_else kc (VStr placeholder)).

(** [((pair.value as Record<string, unknown>)?.content as string) || ''] *)
Definition text_value (pair : value) : res value :=
  v ← get pair "value";
  vc ← get_opt v "content";
  Ret (or_else vc (VStr "")).

Definition pair_step (text : string) (pair : value) : res string :=
  key ← text_key pair;
  val ← text_value pair;
  ks ← interpolate key;
  vs ← interpolate val;
  Ret (text +:+ ks +:+ ": " +:+ vs +:+ LF).

(** Number of UTF-16 code units of a string: one for each code point, and
    one more for each code point outside the basic plane (four bytes). *)
Definition utf16_length (s : string) : Z :=
  Z.of_nat (length (List.filter (fun a => negb (is_continuation a)) (bytes s))
            + length (List.filter (fun a => (240 <=? code a)%nat) (bytes s))).

(** [v.length] *)
Definition length_of (v : value) : res value :=
  match v with
  | VUndef | VNull => Throw TypeError
  | VArr l => Ret (VNum (Z.of_nat (length l)))
  | VStr s => Ret (VNum (utf16_length s))
  | VObj props => Ret (lookup_prop props "length")
  | _ => Ret VUndef
  end.

(** [v > 0].  An object converts through [valueOf] and [toString]: to [NaN],
    or not at all when it has a [toString] property of its own. *)
Definition gt_zero (v : value) : res bool :=
  match v with
  | VUndef | VNull => Ret false
  | VBool b => Ret b
  | VNum z => Ret (0 <? z)
  | VStr _ | VArr _ => Unmodelled
  | VObj props => if has_own props "toString" then Throw TypeError else Ret false
  end.

(** [v[0], ..., v[v.length - 1]] for a [v] whose length is positive. *)
Definition indexed (v : value) : res (list value) :=
  match v with
  | VArr l => Ret l
  | _ => Unmodelled
  end.

Definition fallback_text : string := "結果からテキストを抽出できませんでした".

Definition text_error_label : string := "テキスト抽出エラー:".

(** The body of the [try] block. *)
Definition text_body (result : value) : res string :=
  analyzeResult ← get result "analyzeResult";
  p ← get_opt analyzeResult "pages";
  pages ← iterate (or_else p (VArr []));
  text ← foldM page_step "" pages;
  t ← get_opt analyzeResult "tables";
  let tables := or_else t (VArr []) in
  n ← length_of tables;
  some ← gt_zero n;
  text ← (if (some : bool) then
            let text := text +:+ "===== テーブル =====" +:+ LF +:+ LF in
            elems ← indexed tables;
            acc ← foldM table_step (text, 0) elems;
            Ret (fst acc)
          else Ret text);
  kv ← get_opt analyzeResult "keyValuePairs";
  let keyValuePairs := or_else kv (VArr []) in
  n ← length_of keyValuePairs;
  some ← gt_zero n;
  text ← (if (some : bool) then
            let text := text +:+ "===== フォームフィールド =====" +:+ LF +:+ LF in
            pairs ← iterate keyValuePairs;
            text ← foldM pair_step text pairs;
            Ret (text +:+ LF)
          else Ret text);
  Ret (trim text).

Definition extractTextFromAnalysisResult (result : value) : M string :=
  emit (EvCall TextExtraction);;
  try_catchM
    (lift (text_body result))
    (fun error =>
       console_error text_error_label (Some error);;
       mret fallback_text).

(** ** The messages of the route and of the normaliser *)

Definition endpoint_missing_message : string :=
  "Azure エンドポイントが指定されていません".
Definition endpoint_invalid_message : string :=
  "無効なAzureエンドポイントURLです".
Definition domain_warning : string :=
  "エンドポイントが標準的なAzure Cognitive Servicesのドメインではありません".
Definition unsupported_type_message : string :=
  "サポートされていないファイル形式です".
Definition invalid_key_message : string := "無効なAPIキーです".
Definition missing_location_message : string :=
  "Operation-Locationヘッダーが見つかりません".
Definition timeout_message : string :=
  "タイムアウト: ドキュメント分析の完了を待機できませんでした".
Definition route_error_label : string := "Azure Document Intelligence APIエラー:".

(** What reaches [humanizeErrorMessage]: an [Error] instance, which is all
    that the route ever catches, or a value that is JSON data. *)
Inductive caught : Type :=
| Instance (e : exn)
| Plain (v : value).

Definition unknown_error_message : string := "不明なエラーが発生しました".

(** ** What the platform provides *)

Record URL : Type := mkURL { hostname : string }.

Inductive analysis : Type :=
| Success (content : string) (structuredData : value)
| Failure (error : string).

Definition maxAttempts : nat := 10.

Definition is_fetch (e : event) : bool :=
  match e with EvFetch _ => true | _ => false end.

Definition fetch_count (tr : list event) : nat := length (List.filter is_fetch tr).

Section Platform.

(** The WHATWG URL parser behind [new URL]: [None] when it throws. *)
Variable parse_url : string -> option URL.

(** The remote service: the outcome of the [n]-th [fetch] of a run. *)
Variable transport : nat -> Request -> fetched.

(** The [message] that the runtime gives to the errors it raises itself. *)
Variable runtime_message : exn -> string.

Definition new_URL (s : string) : M URL :=
  match parse_url s with
  | Some u => mret u
  | None => throw TypeError
  end.

(** *** azure-utils: normalizeAzureEndpoint *)

Definition normalizeAzureEndpoint (endpoint : string) : M string :=
  if negb (truthy (VStr endpoint)) then
    throw (Error endpoint_missing_message)
  else
    try_catchM
      (url ← new_URL endpoint;
       (if negb (includes (hostname url) "cognitiveservices.azure.com") then
          console_warn domain_warning
        else mret tt);;
       let normalizedEndpoint :=
         if endsWith endpoint "/" then drop_last endpoint else endpoint in
       mret normalizedEndpoint)
      (fun _ => throw (Error endpoint_invalid_message)).

(** *** azure-utils: humanizeErrorMessage *)

(** [errorObj.message] of an [Error] instance. *)
Definition message_of (e : exn) : string :=
  match e with
  | Error message => message
  | _ => runtime_message e
  end.

Definition humanizeErrorMessage (errorObj : caught) : res string :=
  match errorObj with
  | Instance e => Ret (message_of e)
  | Plain v =>
      if negb (truthy v) then Ret unknown_error_message
      else if type_tag_eqb (typeof v) TString then
        match v with VStr s => Ret s | _ => Ret "" end
      else if type_tag_eqb (typeof v) TObject && negb (is_null v)
              && has_property v "message"
      then m ← get v "message"; to_string m
      else Ret (stringify_text v)
  end.

(** *** route: analyzeDocument *)

Definition fetch (req : Request) : M Response :=
  fun tr =>
    match transport (fetch_count tr) req with
    | Responded r => (Ret r, tr ++ [EvFetch req])
    | Rejected => (Throw NetworkError, tr ++ [EvFetch req])
    end.

(** [await response.json()] *)
Definition response_json (r : Response) : M value :=
  match json_body r with
  | Some v => mret v
  | None => throw SyntaxError
  end.

(** [let errorBody = {}; try { errorBody = await response.json(); } catch {}] *)
Definition error_body (r : Response) : value :=
  match json_body r with
  | Some v => v
  | None => VObj []
  end.

(** The branch taken on [!response.ok]. *)
Definition raise_translated {A : Type} (r : Response) : M A :=
  errorMessage ← lift (extractAzureErrorInfo r (error_body r));
  throw (Error errorMessage).

Definition poll_request (operationLocation apiKey : string) : Request :=
  mkRequest operationLocation GET [("Ocp-Apim-Subscription-Key", apiKey)] None.

(** The [while (attempts < maxAttempts)] loop, by recursion on the attempts
    that remain; the result is [analysisResult], [null] when the loop ends
    without a success. *)
Fixpoint poll (remaining : nat) (operationLocation apiKey : string) : M value :=
  match remaining with
  | O => mret VNull
  | S remaining' =>
      delay 1000;;
      statusResponse ← fetch (poll_request operationLocation apiKey);
      if negb (ok statusResponse) then raise_translated statusResponse
      else
        statusResult ← response_json statusResponse;
        st ← lift (get statusResult "status");
        if strict_eq_str st "succeeded" then mret statusResult
        else if strict_eq_str st "failed" then
          errors ← lift (get statusResult "errors");
          throw (Error ("分析に失敗しました: " +:+ stringify_text errors))
        else poll remaining' operationLocation apiKey
  end.

Definition submit_request (apiUrl apiKey fileBase64 : string) : Request :=
  mkRequest apiUrl POST
    [("Content-Type", "application/json"); ("Ocp-Apim-Subscription-Key", apiKey)]
    (Some (stringify_text (VObj [("base64Source", VStr fileBase64)]))).

(** [`${baseEndpoint}/documentintelligence/documentModels/${modelId}:analyze?api-version=2023-07-31`] *)
Definition analyze_url (baseEndpoint modelId : string) : string :=
  baseEndpoint +:+ "/documentintelligence/documentModels/" +:+ modelId
  +:+ ":analyze?api-version=2023-07-31".

(** [if (!modelId || modelId.trim() === '') modelId = 'prebuilt-layout'] *)
Definition effective_model (modelId : string) : string :=
  if negb (truthy (VStr modelId)) || String.eqb (trim modelId) ""
  then "prebuilt-layout" else modelId.

(** What follows the loop: the timeout check and the two extractions. *)
Definition conclude (analysisResult : value) : M analysis :=
  (if negb (truthy analysisResult) then throw (Error timeout_message)
   else mret tt);;
  extractedText ← extractTextFromAnalysisResult analysisResult;
  structuredData ← extractStructuredData analysisResult;
  mret (Success extractedText structuredData).

(** The [catch] block of the function. *)
Definition report (error : exn) : M analysis :=
  console_error route_error_label (Some error);;
  message ← lift (humanizeErrorMessage (Instance error));
  mret (Failure message).

Definition analyzeDocument
  (fileBase64 fileName fileType apiKey endpoint modelId : string) : M analysis :=
  try_catchM
    ((if negb (validateFileType fileType) then
        throw (Error unsupported_type_message)
      else mret tt);;
     (if negb (validateApiKey apiKey) then
        throw (Error invalid_key_message)
      else mret tt);;
     let modelId := effective_model modelId in
     baseEndpoint ← normalizeAzureEndpoint endpoint;
     let apiUrl := analyze_url baseEndpoint modelId in
     response ← fetch (submit_request apiUrl apiKey fileBase64);
     if negb (ok response) then raise_translated response
     else
       response_json response;;
       match operationLocation response with
       | None => throw (Error missing_location_message)
       | Some location =>
           if negb (truthy (VStr location)) then
             throw (Error missing_location_message)
           else
             analysisResult ← poll maxAttempts location apiKey;
             conclude analysisResult
       end)
    report.

End Platform.


(** ** route: formatTextWithGemma *)

(** Splitting a string at separators.  [head l] is the length in bytes of
    the separator that starts [l], [0%nat] when none does; [skip] bytes of a
    separator are still to be passed over, [cur] holds the piece read so
    far, last byte first. *)
Fixpoint split_aux (head : list ascii -> nat) (skip : nat) (cur : list ascii)
         (l : list ascii) : list string :=
  match l with
  | [] => [of_bytes (rev cur)]
  | a :: r =>
      match skip with
      | S k => split_aux head k cur r
      | O =>
          match head l with
          | O => split_aux head 0 (a :: cur) r
          | S k => of_bytes (rev cur) :: split_aux head k [] r
          end
      end
  end.

Definition split (head : list ascii -> nat) (s : string) : list string :=
  split_aux head 0 [] (bytes s).

(** The separator of [text.split('\n')]. *)
Definition newline_head (l : list ascii) : nat :=
  match l with
  | a :: _ => if (code a =? 10)%nat then 1%nat else 0%nat
  | [] => 0%nat
  end.

(** The separator of [line.split(/[：:]/)]: the colon, or the full-width
    colon U+FF1A, whose bytes are EF BC 9A. *)
Definition colon_head (l : list ascii) : nat :=
  match l with
  | a :: r =>
      if (code a =? 58)%nat then 1%nat
      else
        match r with
        | b :: c :: _ =>
            if ((code a =? 239) && (code b =? 188) && (code c =? 154))%nat
            then 3%nat else 0%nat
        | _ => 0%nat
        end
  | [] => 0%nat
  end.

Definition format_header : string := "【問診票情報】" +:+ LF.

Definition format_footer : string :=
  LF +:+ "【カルテ用メモ】" +:+ LF
  +:+ "上記問診票の内容から、以下の点に注意して診察を行うこと。" +:+ LF
  +:+ "※このセクションは実際のGemma LLMによる生成で置き換えられます。" +:+ LF.

(** The test that makes the loop skip a line: a section delimiter of the
    extractor, or a blank line. *)
Definition skipped_line (line : string) : bool :=
  startsWith line "===== ページ" || startsWith line "===== テーブル"
  || startsWith line "===== フォームフィールド" || String.eqb (trim line) "".

(** The line as a bullet [`・${key}: ${value}\n`], when it splits into a key
    and a value that are both non-empty once trimmed. *)
Definition bullet (line : string) : option string :=
  if includes line "：" || includes line ":" then
    let parts := split colon_head line in
    if (2 <=? length parts)%nat then
      let key := trim (hd "" parts) in
      let value := trim (String.concat ":" (tl parts)) in
      if truthy (VStr key) && truthy (VStr value)
      then Some ("・" +:+ key +:+ ": " +:+ value +:+ LF)
      else None
    else None
  else None.

(** The body of the loop over the lines. *)
Definition format_line (formattedText line : string) : string :=
  if skipped_line line then formattedText
  else
    match bullet line with
    | Some b => formattedText +:+ b
    | None =>
        if truthy (VStr (trim line)) then formattedText +:+ line +:+ LF
        else formattedText
    end.

Definition formatTextWithGemma (text : string) : string :=
  let lines := split newline_head text in
  let formattedText := fold_left format_line lines format_header in
  formattedText +:+ format_footer.

(** ** route: POST *)

(** What [NextResponse.json(payload, { status })] carries. *)
Record HttpResponse : Type := mkHttpResponse {
  http_status : Z;
  payload : value
}.

Definition missing_file_message : string := "ファイル情報が不足しています".
Definition missing_credentials_message : string :=
  "Azure APIキーとエンドポイントが必要です".
Definition handler_error_label : string := "APIエラー:".
Definition default_model : string := "prebuilt-layout".

Definition error_response (st : Z) (message : string) : HttpResponse :=
  mkHttpResponse st (VObj [("error", VStr message)]).

(** A request field handed to a parameter of type [string].  A field that
    passed the presence checks without being a string leaves the embedding. *)
Definition as_text (v : value) : M string :=
  match v with
  | VStr s => mret s
  | _ => lift Unmodelled
  end.

Section Handler.

Variable parse_url : string -> option URL.
Variable transport : nat -> Request -> fetched.
Variable runtime_message : exn -> string.

(** The exported [POST] of the route; the name is taken here by the HTTP
    method.  [request_body] is what [request.json()] resolves with, [None]
    when it rejects. *)
Definition POST_handler (request_body : option value) : M HttpResponse :=
  try_catchM
    (body ← match request_body with
            | Some v => mret v
            | None => throw SyntaxError
            end;
     fileBase64 ← lift (get body "fileBase64");
     fileName ← lift (get body "fileName");
     fileType ← lift (get body "fileType");
     azureApiKey ← lift (get body "azureApiKey");
     azureEndpoint ← lift (get body "azureEndpoint");
     modelId ← lift (get body "modelId");
     gemmaModelPath ← lift (get body "gemmaModelPath");
     if negb (truthy fileBase64) || negb (truthy fileName) || negb (truthy fileType)
     then mret (error_response 400 missing_file_message)
     else if negb (truthy azureApiKey) || negb (truthy azureEndpoint)
     then mret (error_response 400 missing_credentials_message)
     else
       base64 ← as_text fileBase64;
       name ← as_text fileName;
       type ← as_text fileType;
       key ← as_text azureApiKey;
       endpoint ← as_text azureEndpoint;
       model ← as_text (or_else modelId (VStr default_model));
       analysisResult ←
         analyzeDocument parse_url transport runtime_message
           base64 name type key endpoint model;
       match analysisResult with
       | Failure error => mret (error_response 500 error)
       | Success extractedText _ =>
           let formattedContent :=
             if truthy gemmaModelPath && truthy (VStr extractedText)
             then VStr (formatTextWithGemma extractedText)
             else VNull in
           mret (mkHttpResponse 200
                   (VObj [("content", VStr extractedText);
                          ("formattedContent", formattedContent)]))
       end)
    (fun error =>
       console_error handler_error_label (Some error);;
       message ← lift (humanizeErrorMessage runtime_message (Instance error));
       mret (error_response 500 message)).

End Handler.

(** ** hooks/useDocumentProcessing: processDocument *)

(** What the hook reads of a [File]. *)
Record File : Type := mkFile {
  file_name : string;
  file_type : string
}.

(** How [FileReader.readAsDataURL] ends: with the [load] event, when
    [reader.result] holds [result], or with the [error] event. *)
Inductive reading : Type :=
| Loaded (result : value)
| Failed.

(** What a [catch] of the hook receives: an [Error] instance, or the event
    that [reader.onerror] rejects with. *)
Inductive thrown : Type :=
| Raised (e : exn)
| ErrorEvent.

(** The calls of a run of the hook, in order: to the two state setters, to
    [fetch] and to [console.error]. *)
Inductive hook_event : Type :=
| SetIsProcessing (b : bool)
| SetResult (v : value)
| ApiFetch (req : Request)
| HookError (label : string) (t : thrown).

Inductive outcome (A : Type) : Type :=
| Done (a : A)
| Raise (t : thrown)
| Beyond.

Arguments Done {A} a.
Arguments Raise {A} t.
Arguments Beyond {A}.

Definition Hook (A : Type) : Type := list hook_event -> outcome A * list hook_event.

#[global] Instance Hook_ret : MRet Hook := fun A a tr => (Done a, tr).

#[global] Instance Hook_bind : MBind Hook := fun A B f m tr =>
  match m tr with
  | (Done a, tr') => f a tr'
  | (Raise t, tr') => (Raise t, tr')
  | (Beyond, tr') => (Beyond, tr')
  end.

Definition of_res {A : Type} (r : res A) : Hook A :=
  fun tr =>
    (match r with
     | Ret a => Done a
     | Throw e => Raise (Raised e)
     | Unmodelled => Beyond
     end, tr).

Definition raise {A : Type} (t : thrown) : Hook A := fun tr => (Raise t, tr).

Definition call (e : hook_event) : Hook unit := fun tr => (Done tt, tr ++ [e]).

(** [try { body } catch (error) { handler } finally { finalizer }] *)
Definition try_catch_finally {A : Type} (body : Hook A) (handler : thrown -> Hook A)
           (finalizer : Hook unit) : Hook A :=
  fun tr =>
    let (o, tr1) :=
      match body tr with
      | (Raise t, tr') => handler t tr'
      | other => other
      end in
    match o with
    | Beyond => (Beyond, tr1)
    | _ =>
        match finalizer tr1 with
        | (Done _, tr2) => (o, tr2)
        | (Raise t, tr2) => (Raise t, tr2)
        | (Beyond, tr2) => (Beyond, tr2)
        end
    end.

(** The separator of [reader.result.split(',')]. *)
Definition comma_head (l : list ascii) : nat :=
  match l with
  | a :: _ => if (code a =? 44)%nat then 1%nat else 0%nat
  | [] => 0%nat
  end.

(** [parts[1]] *)
Definition second (parts : list string) : value :=
  match parts with
  | _ :: p :: _ => VStr p
  | _ => VUndef
  end.

Definition read_failure_message : string := "ファイルの読み込みに失敗しました".
Definition extraction_failed_message : string := "テキストの抽出に失敗しました".
Definition hook_error_label : string := "ドキュメント処理エラー:".
Definition api_route : string := "/api/process-document".

(** [String(error)] of the event that [reader.onerror] passes on. *)
Definition error_event_text : string := "[object ProgressEvent]".

Section Browser.

(** [FileReader]: the end of the read that [readAsDataURL] starts. *)
Variable read_as_data_url : File -> reading.

(** The route, as [fetch] reaches it. *)
Variable api : Request -> fetched.

(** [processText] of [useGemma], applied to the content and the model path;
    it catches whatever it raises and resolves with a string or [null]. *)
Variable processText : value -> value -> value.

Variable runtime_message : exn -> string.

Definition fileToBase64 (file : File) : Hook value :=
  match read_as_data_url file with
  | Loaded result =>
      match result with
      | VStr s =>
          let base64 := second (split comma_head s) in
          mret base64
      | _ => raise (Raised (Error read_failure_message))
      end
  | Failed => raise ErrorEvent
  end.

Definition api_request (fileBase64 : value) (file : File)
           (azureApiKey azureEndpoint modelId : string) (gemmaModelPath : value)
  : Request :=
  mkRequest api_route POST [("Content-Type", "application/json")]
    (Some (stringify_text
             (VObj [("fileBase64", fileBase64);
                    ("fileName", VStr (file_name file));
                    ("fileType", VStr (file_type file));
                    ("azureApiKey", VStr azureApiKey);
                    ("azureEndpoint", VStr azureEndpoint);
                    ("modelId", VStr modelId);
                    ("gemmaModelPath", gemmaModelPath)]))).

Definition api_fetch (req : Request) : Hook Response :=
  fun tr =>
    match api req with
    | Responded r => (Done r, tr ++ [ApiFetch req])
    | Rejected => (Raise (Raised NetworkError), tr ++ [ApiFetch req])
    end.

(** [await response.json()] *)
Definition api_json (r : Response) : Hook value :=
  match json_body r with
  | Some v => mret v
  | None => raise (Raised SyntaxError)
  end.

(** [error instanceof Error ? error.message : String(error)] *)
Definition shown_error (error : thrown) : string :=
  match error with
  | Raised e => message_of runtime_message e
  | ErrorEvent => error_event_text
  end.

(** The branch taken on [!response.ok]. *)
Definition refuse {A : Type} (response : Response) : Hook A :=
  errorData ← api_json response;
  e ← of_res (get errorData "error");
  message ← of_res (to_string
                      (or_else e (VStr ("APIエラー: "
                                        +:+ string_of_Z (status response)))));
  raise (Raised (Error message)).

(** What follows [const apiResult = await response.json()]. *)
Definition publish (apiResult gemmaModelPath : value) : Hook unit :=
  content ← of_res (get apiResult "content");
  if truthy content then
    formattedContent ← of_res (get apiResult "formattedContent");
    let formattedContent :=
      if negb (truthy formattedContent) && truthy gemmaModelPath
      then processText content gemmaModelPath
      else formattedContent in
    call (SetResult (VObj [("content", content);
                           ("formattedContent", or_else formattedContent VUndef)]))
  else raise (Raised (Error extraction_failed_message)).

(** The [catch] block of the function. *)
Definition report_failure (error : thrown) : Hook unit :=
  call (HookError hook_error_label error);;
  call (SetResult (VObj [("error", VStr (shown_error error))])).

Definition processDocument (file : File) (azureApiKey azureEndpoint modelId : string)
           (gemmaModelPath : value) : Hook unit :=
  try_catch_finally
    (call (SetIsProcessing true);;
     call (SetResult VNull);;
     fileBase64 ← fileToBase64 file;
     response ← api_fetch (api_request fileBase64 file azureApiKey azureEndpoint
                             modelId gemmaModelPath);
     (if negb (ok response) then refuse response else mret tt);;
     apiResult ← api_json response;
     publish apiResult gemmaModelPath)
    report_failure
    (call (SetIsProcessing false)).

End Browser.


(** * The properties, in the specification's words *)

(** ** Validators *)

Definition hex_digits : list ascii := bytes "0123456789abcdefABCDEF".

Definition is_hex_digit (a : ascii) : bool := existsb (Ascii.eqb a) hex_digits.

(** Exactly 32 hexadecimal characters. *)
Definition key_shape (key : string) : Prop :=
  length (bytes key) = 32%nat /\ Forall (fun a => is_hex_digit a = true) (bytes key).

(** ** Error translation *)

(** The fixed message of a status code that has one. *)
Definition status_message (st : Z) : option string :=
  if st =? 401 then Some message_401
  else if st =? 403 then Some message_403
  else if st =? 404 then Some message_404
  else if st =? 429 then Some message_429
  else None.

(** The error that the response body carries, if it carries one. *)
Definition body_error (body : value) : option value :=
  match body with
  | VObj props =>
      if has_own props "error" then Some (lookup_prop props "error") else None
  | _ => None
  end.

(** An object error with both a code and a message field. *)
Definition structured_error (e : value) : option (value * value) :=
  match e with
  | VObj props =>
      if has_own props "code" && has_own props "message"
      then Some (lookup_prop props "code", lookup_prop props "message")
      else None
  | _ => None
  end.

Definition status_only (r : Response) : string :=
  service +:+ " (" +:+ string_of_Z (status r) +:+ ")".

Definition status_fallback (r : Response) : string :=
  service +:+ " (" +:+ string_of_Z (status r) +:+ "): " +:+ statusText r.

(** ["{service} error ({code}): {message}"], or the status-only message when
    the code or the message cannot be turned into a string. *)
Definition formatted_error (r : Response) (c m : value) : string :=
  match to_string c, to_string m with
  | Ret cs, Ret ms => service +:+ " (" +:+ cs +:+ "): " +:+ ms
  | _, _ => status_only r
  end.

(** What is made of an error that counts as present. *)
Definition error_message (r : Response) (e : value) : string :=
  match structured_error e with
  | Some (c, m) => formatted_error r c m
  | None =>
      match e with
      | VStr s => service +:+ ": " +:+ s
      | _ => service +:+ ": " +:+ stringify_text e
      end
  end.

(** The priority chain as the specification words it: every error that the
    body carries is translated. *)
Definition translation_as_stated (r : Response) (body : value) : string :=
  match status_message (status r) with
  | Some m => m
  | None =>
      match body_error body with
      | Some e => error_message r e
      | None => status_fallback r
      end
  end.

(** The chain as the code runs it: an error that is falsy ([null], [false],
    [0], the empty string) counts as no error. *)
Definition translation (r : Response) (body : value) : string :=
  match status_message (status r) with
  | Some m => m
  | None =>
      match body_error body with
      | Some e => if truthy e then error_message r e else status_fallback r
      | None => status_fallback r
      end
  end.

Definition server_error : Response :=
  mkResponse 500 "Internal Server Error" None None.

(** ** Documents used as concrete inputs *)

Definition sparse_cell (r c : Z) (s : string) : value :=
  VObj [("rowIndex", VNum r); ("columnIndex", VNum c); ("content", VStr s)].

Definition table_of (rows cols : Z) (cells : list value) : value :=
  VObj [("rowCount", VNum rows); ("columnCount", VNum cols); ("cells", VArr cells)].

Definition document_of (fields : list (string * value)) : value :=
  VObj [("status", VStr "succeeded"); ("analyzeResult", VObj fields)].

(** The table of the specification: 2 x 2 with cells (0,0,"A") and (1,1,"B"). *)
Definition two_by_two : value :=
  table_of 2 2 [sparse_cell 0 0 "A"; sparse_cell 1 1 "B"].

(** A cell in row 2 of a table of two rows. *)
Definition bad_row_document : value :=
  document_of [("tables", VArr [table_of 2 2 [sparse_cell 0 0 "A"; sparse_cell 2 1 "B"]])].

(** A page list that holds [null]. *)
Definition null_page_document : value :=
  document_of [("pages", VArr [VNull])].

(** A pair with an empty key and no value. *)
Definition empty_key_pair : value :=
  VObj [("key", VObj [("content", VStr "")])].

Definition empty_key_document : value :=
  document_of [("keyValuePairs", VArr [empty_key_pair])].

(** ** Outcomes *)

(** The run stays inside the embedding. *)
Definition modelled {A : Type} (r : res A) : Prop := r <> Unmodelled.

(** The run ends with an exception. *)
Definition throws {A : Type} (r : res A) : Prop := exists e, r = Throw e.

(** ** Table reconstruction *)

(** A sparse cell: row index, column index and content. *)
Definition sparse : Type := Z * Z * string.

Definition at_position (r c : Z) (x : sparse) : bool :=
  (x.1.1 =? r) && (x.1.2 =? c).

(** The content of a grid position: the last cell of the list written
    there, the empty string when there is none. *)
Definition last_write (cells : list sparse) (r c : Z) : string :=
  match find (at_position r c) (rev cells) with
  | Some x => x.2
  | None => ""
  end.

(** The dense grid of [rows] x [cols] positions. *)
Definition dense_grid (rows cols : Z) (cells : list sparse) : list (list string) :=
  (fun r => (fun c => last_write cells r c) <$> seqZ 0 cols) <$> seqZ 0 rows.

(** Each row joined by [" | "], one row to a line. *)
Fixpoint render_grid (g : list (list string)) : string :=
  match g with
  | [] => ""
  | row :: rest => String.concat " | " row +:+ LF +:+ render_grid rest
  end.

Definition in_grid (rows cols : Z) (x : sparse) : Prop :=
  0 <= x.1.1 < rows /\ 0 <= x.1.2 < cols.

(** The value [cell] is the sparse cell [x]: numeric indices, and a content
    that is the string of [x], absent when that string is empty. *)
Definition cell_is (cell : value) (x : sparse) : Prop :=
  get cell "rowIndex" = Ret (VNum x.1.1)
  /\ get cell "columnIndex" = Ret (VNum x.1.2)
  /\ exists cv, get cell "content" = Ret cv /\ or_else cv (VStr "") = VStr x.2.

(** A grid of strings as the extractor holds it. *)
Definition as_values (g : list (list string)) : list (list value) :=
  (fun row : list string => VStr <$> row) <$> g.

(** One write into a grid of strings. *)
Definition write (g : list (list string)) (x : sparse) : list (list string) :=
  match g !! Z.to_nat x.1.1 with
  | Some row => <[Z.to_nat x.1.1 := <[Z.to_nat x.1.2 := x.2]> row]> g
  | None => g
  end.

Definition shaped {A : Type} (r c : nat) (g : list (list A)) : Prop :=
  length g = r /\ Forall (fun row => length row = c) g.

Definition at_grid {A : Type} (g : list (list A)) (i j : nat) : option A :=
  match g !! i with
  | Some row => row !! j
  | None => None
  end.

(** ** Cells outside the grid *)








(** ** Endpoint normalisation *)

(** The error of the specification's taxonomy; the source has one message
    for a missing endpoint and one for an endpoint that does not parse. *)
Definition InvalidEndpoint (e : exn) : Prop :=
  e = Error endpoint_missing_message \/ e = Error endpoint_invalid_message.

(** What lies before the first ["/"] of a string. *)
Fixpoint until_slash (s : string) : string :=
  match s with
  | EmptyString => EmptyString
  | String a r => if Ascii.eqb a "/" then EmptyString else String a (until_slash r)
  end.

(** A stand-in for the URL parser on the example inputs: it accepts the
    strings that start with ["https://"] and reads the host up to the next
    ["/"]. *)
Definition https_only (s : string) : option URL :=
  if String.prefix "https://" s
  then Some (mkURL (until_slash (String.substring 8 (String.length s - 8) s)))
  else None.

Definition example_endpoint : string := "https://x.cognitiveservices.azure.com/".

(** ** The polling protocol *)

Definition is_delay (e : event) : bool :=
  match e with EvDelay _ => true | _ => false end.

Definition is_call (f : callee) (e : event) : bool :=
  match e, f with
  | EvCall TextExtraction, TextExtraction => true
  | EvCall StructuredExtraction, StructuredExtraction => true
  | _, _ => false
  end.

(** The calls to the timer and to the transport, in order. *)
Definition timer_and_transport (tr : list event) : list event :=
  List.filter (fun e => is_delay e || is_fetch e) tr.

(** How often an extractor was entered. *)
Definition calls (f : callee) (tr : list event) : nat :=
  length (List.filter (is_call f) tr).

(** [k] poll attempts: each one fixed delay, then one GET. *)
Definition poll_events (location apiKey : string) (k : nat) : list event :=
  concat (replicate k [EvDelay 1000; EvFetch (poll_request location apiKey)]).

(** A poll response whose status is neither ["succeeded"] nor ["failed"]. *)
Definition non_terminal (r : Response) : Prop :=
  ok r = true
  /\ exists body st, json_body r = Some body /\ get body "status" = Ret st
                     /\ strict_eq_str st "succeeded" = false
                     /\ strict_eq_str st "failed" = false.

(** A poll response with status ["succeeded"] and payload [body]. *)
Definition succeeded (r : Response) (body : value) : Prop :=
  ok r = true /\ json_body r = Some body
  /\ get body "status" = Ret (VStr "succeeded").

(** The submission went through and returned the handle [location]. *)
Definition submitted (parse_url : string -> option URL)
           (transport : nat -> Request -> fetched)
           (fileBase64 fileType apiKey endpoint modelId location : string) : Prop :=
  validateFileType fileType = true
  /\ validateApiKey apiKey = true
  /\ exists (base : string) (r : Response) (b : value),
       fst (normalizeAzureEndpoint parse_url endpoint []) = Ret base
       /\ transport 0%nat
            (submit_request (analyze_url base (effective_model modelId)) apiKey fileBase64)
          = Responded r
       /\ ok r = true /\ json_body r = Some b
       /\ operationLocation r = Some location /\ location <> "".

(** Scripted services for the examples: the submission is accepted, then
    poll [k] succeeds and every other poll is still running. *)
Definition accepted : Response :=
  mkResponse 202 "Accepted" (Some "https://operations.example/1") (Some (VObj [])).

Definition still_running : Response :=
  mkResponse 200 "OK" None (Some (VObj [("status", VStr "running")])).

Definition finished : Response :=
  mkResponse 200 "OK" None
    (Some (VObj [("status", VStr "succeeded"); ("analyzeResult", VObj [])])).

Definition scripted (k : nat) (n : nat) (req : Request) : fetched :=
  match n with
  | O => Responded accepted
  | _ => if (n =? k)%nat then Responded finished else Responded still_running
  end.

Definition example_key : string := "0123456789abcdef0123456789ABCDEF".

Definition no_runtime_message (e : exn) : string := "".

(** What one poll attempt decides, given the answer of the transport: go on
    to the next attempt, or leave the loop with a result. *)
Inductive attempt : Type :=
| Continue
| Stop (r : res value).

Definition attempt_outcome (answer : fetched) : attempt :=
  match answer with
  | Rejected => Stop (Throw NetworkError)
  | Responded r =>
      if negb (ok r) then Stop (Throw (Error (translation r (error_body r))))
      else
        match json_body r with
        | None => Stop (Throw SyntaxError)
        | Some body =>
            match get body "status" with
            | Ret st =>
                if strict_eq_str st "succeeded" then Stop (Ret body)
                else if strict_eq_str st "failed" then
                  Stop (errors ← get body "errors";
                        Throw (Error ("分析に失敗しました: " +:+ stringify_text errors)))
                else Continue
            | Throw e => Stop (Throw e)
            | Unmodelled => Stop Unmodelled
            end
        end
  end.

(** Events that are neither a delay nor a request. *)
Definition quiet (evs : list event) : Prop := timer_and_transport evs = [].


(** * Further properties: definitions *)

(** The validation passed and the endpoint normalised to [base], logging
    [w]. *)
Definition validated (parse_url : string -> option URL)
           (fileType apiKey endpoint base : string) (w : list event) : Prop :=
  validateFileType fileType = true
  /\ validateApiKey apiKey = true
  /\ normalizeAzureEndpoint parse_url endpoint [] = (Ret base, w).

(** The answer to the submission carries a handle: success status, a JSON
    body, and a non-empty [Operation-Location]. *)
Definition accepted_with (r : Response) (location : string) : Prop :=
  ok r = true /\ (exists b, json_body r = Some b)
  /\ operationLocation r = Some location /\ location <> "".

(** The first [k - 1] poll answers are non-terminal. *)
Definition running_before (transport : nat -> Request -> fetched)
           (location apiKey : string) (k : nat) : Prop :=
  forall j, (1 <= j < k)%nat ->
    exists r, transport j (poll_request location apiKey) = Responded r
              /\ non_terminal r.

(** Scripted services for the examples. *)
Definition unauthorized : Response := mkResponse 401 "Unauthorized" None None.

Definition no_handle : Response := mkResponse 202 "Accepted" None (Some (VObj [])).

Definition not_json : Response :=
  mkResponse 202 "Accepted" (Some "https://operations.example/1") None.

Definition failed_answer : Response :=
  mkResponse 200 "OK" None
    (Some (VObj [("status", VStr "failed");
                 ("errors", VArr [VStr "InvalidContent"])])).

Definition unavailable : Response :=
  mkResponse 503 "Service Unavailable" None (Some (VObj [("error", VStr "busy")])).

(** Every request gets the answer [r]. *)
Definition always (r : Response) (n : nat) (req : Request) : fetched := Responded r.

(** The submission is accepted, poll [k] gets [r], the other polls are
    still running. *)
Definition scripted_with (r : Response) (k : nat) (n : nat) (req : Request) : fetched :=
  match n with
  | O => Responded accepted
  | _ => if (n =? k)%nat then Responded r else Responded still_running
  end.

Definition example_submit : Request :=
  submit_request
    (analyze_url "https://x.cognitiveservices.azure.com" "prebuilt-layout")
    example_key "QUJD".

(** ** The handler *)

(** A field of the request body, as the destructuring reads it from a
    body that is neither [null] nor [undefined]. *)
Definition field (body : value) (k : string) : value :=
  match get body k with
  | Ret v => v
  | _ => VUndef
  end.

(** The complaint of the handler about a request that lacks a field. *)
Definition incomplete (body : value) : option string :=
  if negb (truthy (field body "fileBase64")) || negb (truthy (field body "fileName"))
     || negb (truthy (field body "fileType"))
  then Some missing_file_message
  else if negb (truthy (field body "azureApiKey"))
          || negb (truthy (field body "azureEndpoint"))
  then Some missing_credentials_message
  else None.

(** The two shapes of a response. *)
Definition is_error_response (resp : HttpResponse) (st : Z) : Prop :=
  exists message, resp = error_response st message.

Definition is_content_response (resp : HttpResponse) : Prop :=
  exists content formatted,
    resp = mkHttpResponse 200
             (VObj [("content", VStr content); ("formattedContent", formatted)])
    /\ (formatted = VNull \/ formatted = VStr (formatTextWithGemma content)).

(** A request with every field present, as text. *)
Definition upload (fileBase64 fileName fileType apiKey endpoint : string)
           (modelId gemmaModelPath : value) : value :=
  VObj [("fileBase64", VStr fileBase64); ("fileName", VStr fileName);
        ("fileType", VStr fileType); ("azureApiKey", VStr apiKey);
        ("azureEndpoint", VStr endpoint); ("modelId", modelId);
        ("gemmaModelPath", gemmaModelPath)].

(** ** The text of a whole document *)

(** A page: its number and the texts of its lines. *)
Definition page_text : Type := Z * list string.

(** A table: row count, column count and sparse cells. *)
Definition table_cells : Type := Z * Z * list sparse.

(** A form field: the key and the value as they are shown. *)
Definition form_field : Type := string * string.

(** The line [line] shows as [s]: the template literal converts whatever
    its [content] holds, an absent content to ["undefined"]. *)
Definition line_is (line : value) (s : string) : Prop :=
  exists cv, get line "content" = Ret cv /\ to_string cv = Ret s.

Definition page_is (page : value) (p : page_text) : Prop :=
  get page "pageNumber" = Ret (VNum p.1)
  /\ exists lv ls, get page "lines" = Ret lv /\ or_else lv (VArr []) = VArr ls
                   /\ Forall2 line_is ls p.2.

(** The table [table] has valid counts and its cells lie inside the grid. *)
Definition table_is (table : value) (t : table_cells) : Prop :=
  get table "rowCount" = Ret (VNum t.1.1)
  /\ get table "columnCount" = Ret (VNum t.1.2)
  /\ 0 <= t.1.1 <= MAX_LENGTH /\ 0 <= t.1.2 <= MAX_LENGTH
  /\ exists cv cs, get table "cells" = Ret cv /\ or_else cv (VArr []) = VArr cs
                   /\ Forall2 cell_is cs t.2 /\ Forall (in_grid t.1.1 t.1.2) t.2.

(** The pair [pair] shows as [f]: the key is the placeholder when the pair
    has no key or an empty one, the value is empty when it has none. *)
Definition pair_is (pair : value) (f : form_field) : Prop :=
  (exists k kc, get pair "key" = Ret k /\ get_opt k "content" = Ret kc
                /\ or_else kc (VStr placeholder) = VStr f.1)
  /\ (exists v vc, get pair "value" = Ret v /\ get_opt v "content" = Ret vc
                   /\ or_else vc (VStr "") = VStr f.2).

(** The analysis result [result] holds these pages, tables and pairs. *)
Definition document_is (result : value) (pages : list page_text)
           (tables : list table_cells) (fields : list form_field) : Prop :=
  exists analyze pv ps tv ts kv ks,
    get result "analyzeResult" = Ret analyze
    /\ get_opt analyze "pages" = Ret pv /\ or_else pv (VArr []) = VArr ps
    /\ Forall2 page_is ps pages
    /\ get_opt analyze "tables" = Ret tv /\ or_else tv (VArr []) = VArr ts
    /\ Forall2 table_is ts tables
    /\ get_opt analyze "keyValuePairs" = Ret kv /\ or_else kv (VArr []) = VArr ks
    /\ Forall2 pair_is ks fields.

Fixpoint render_lines (ls : list string) : string :=
  match ls with
  | [] => ""
  | s :: rest => s +:+ LF +:+ render_lines rest
  end.

Definition render_page (p : page_text) : string :=
  "===== ページ " +:+ string_of_Z p.1 +:+ " =====" +:+ LF +:+ LF
  +:+ render_lines p.2 +:+ LF.

Fixpoint render_pages (ps : list page_text) : string :=
  match ps with
  | [] => ""
  | p :: rest => render_page p +:+ render_pages rest
  end.

(** The tables, numbered from [i + 1]. *)
Fixpoint render_tables (i : Z) (ts : list table_cells) : string :=
  match ts with
  | [] => ""
  | t :: rest =>
      table_header i +:+ render_grid (dense_grid t.1.1 t.1.2 t.2) +:+ LF
      +:+ render_tables (i + 1) rest
  end.

Definition tables_section (ts : list table_cells) : string :=
  match ts with
  | [] => ""
  | _ => "===== テーブル =====" +:+ LF +:+ LF +:+ render_tables 0 ts
  end.

Fixpoint render_fields (fs : list form_field) : string :=
  match fs with
  | [] => ""
  | f :: rest => f.1 +:+ ": " +:+ f.2 +:+ LF +:+ render_fields rest
  end.

Definition fields_section (fs : list form_field) : string :=
  match fs with
  | [] => ""
  | _ => "===== フォームフィールド =====" +:+ LF +:+ LF +:+ render_fields fs +:+ LF
  end.

(** Pages, then tables, then form fields, trimmed at both ends. *)
Definition render_document (pages : list page_text) (tables : list table_cells)
           (fields : list form_field) : string :=
  trim (render_pages pages +:+ tables_section tables +:+ fields_section fields).

(** A questionnaire of one page, one table and two fields, the second
    without a key. *)
Definition questionnaire : value :=
  document_of
    [("pages",
      VArr [VObj [("pageNumber", VNum 1);
                  ("lines", VArr [VObj [("content", VStr "問診票")]; VObj []])]]);
     ("tables", VArr [two_by_two]);
     ("keyValuePairs",
      VArr [VObj [("key", VObj [("content", VStr "氏名")]);
                  ("value", VObj [("content", VStr "山田")])];
            VObj [("value", VObj [("content", VStr "38")])]])].

(** ** Malformed tables *)

(** Counts from which no grid can be made: a row count that is not a valid
    array length, or a column count that is not one while there is a row
    to fill. *)
Definition bad_size (R C : Z) : Prop :=
  (R < 0 \/ MAX_LENGTH < R)
  \/ (1 <= R /\ (C < 0 \/ MAX_LENGTH < C)).

(** A row index that names no row of any grid: a negative number, or a
    value that is neither a number nor (outside the embedding) a string or
    an array. *)
Definition no_row (rowIndex : value) : Prop :=
  match rowIndex with
  | VNum r => r < 0
  | VStr _ | VArr _ => False
  | _ => True
  end.

(** A column index that is no array index, so that the assignment makes an
    ordinary property of the row. *)
Definition no_column (columnIndex : value) : Prop :=
  match columnIndex with
  | VNum c => c < 0 \/ MAX_LENGTH <= c
  | VUndef | VNull | VBool _ => True
  | VObj props => has_own props "toString" = false
  | VStr _ | VArr _ => False
  end.

(** A 2 x 2 table with a cell that has no column index. *)
Definition stray_cell : value := VObj [("rowIndex", VNum 1); ("content", VStr "X")].

(** A document whose table has a negative row count. *)
Definition negative_rows_document : value :=
  document_of [("tables", VArr [table_of (-1) 2 []])].

(** A document whose table has a cell without row index. *)
Definition no_row_document : value :=
  document_of [("tables", VArr [table_of 2 2 [VObj [("content", VStr "A")]]])].

(** ** The formatter *)

(** The text with every full-width colon (U+FF1A, bytes EF BC 9A) replaced
    by the ASCII colon. *)
Fixpoint ascii_colons_bytes (l : list ascii) : list ascii :=
  match l with
  | [] => []
  | a :: r =>
      match r with
      | b :: c :: r' =>
          if ((code a =? 239) && (code b =? 188) && (code c =? 154))%nat
          then chr 58 :: ascii_colons_bytes r'
          else a :: ascii_colons_bytes r
      | _ => a :: ascii_colons_bytes r
      end
  end.

Definition ascii_colons (s : string) : string :=
  of_bytes (ascii_colons_bytes (bytes s)).

(** No colon of either kind. *)
Definition colon_free (s : string) : Prop :=
  includes s ":" = false /\ includes s "：" = false.

(** No line feed. *)
Definition one_line (s : string) : Prop := includes s LF = false.

(** What the formatter writes for one line of its input. *)
Definition shown (line : string) : string :=
  if skipped_line line then ""
  else match bullet line with
       | Some b => b
       | None => line +:+ LF
       end.

Fixpoint shown_lines (lines : list string) : string :=
  match lines with
  | [] => ""
  | line :: rest => shown line +:+ shown_lines rest
  end.

(** ** A successful analysis *)

(** What the two extractors make of the answer [body], and what they log. *)
Definition content_of (body : value) : string :=
  match text_body body with
  | Ret s => s
  | _ => fallback_text
  end.

Definition data_of (body : value) : value :=
  match structured_body body with
  | Ret d => d
  | _ => VNull
  end.

Definition text_log (body : value) : list event :=
  match text_body body with
  | Throw e => [EvError text_error_label (Some e)]
  | _ => []
  end.

Definition data_log (body : value) : list event :=
  match structured_body body with
  | Throw _ => [EvError structured_error_label None]
  | _ => []
  end.

(** The events of the two extractions. *)
Definition extraction_events (body : value) : list event :=
  [EvCall TextExtraction] ++ text_log body
  ++ [EvCall StructuredExtraction] ++ data_log body.

(** An answer with status ["succeeded"] whose page list holds [null]. *)
Definition garbled_answer : Response :=
  mkResponse 200 "OK" None (Some null_page_document).

(** A service that is accepted at submission and unreachable at poll [k]. *)
Definition dropped_at (k : nat) (n : nat) (req : Request) : fetched :=
  match n with
  | O => Responded accepted
  | _ => if (n =? k)%nat then Rejected else Responded still_running
  end.

(** A service that cannot be reached at all. *)
Definition unreachable (n : nat) (req : Request) : fetched := Rejected.

(** ** The hook *)

(** The calls to the two state setters. *)
Definition is_setter (e : hook_event) : bool :=
  match e with
  | SetIsProcessing _ | SetResult _ => true
  | _ => false
  end.

Definition setters (tr : list hook_event) : list hook_event :=
  List.filter is_setter tr.

Definition is_api_fetch (e : hook_event) : bool :=
  match e with
  | ApiFetch _ => true
  | _ => false
  end.

(** The two results that the hook publishes. *)
Definition error_result (message : string) : value :=
  VObj [("error", VStr message)].

Definition content_result (content formatted : value) : value :=
  VObj [("content", content); ("formattedContent", formatted)].

(** No comma. *)
Definition comma_free (s : string) : Prop := includes s "," = false.

(** The message that the hook makes up for an answer without one. *)
Definition status_text (r : Response) : string :=
  "APIエラー: " +:+ string_of_Z (status r).

(** Stand-ins for the examples. *)
Definition example_file : File := mkFile "form.pdf" "application/pdf".

Definition reads_as (s : string) (file : File) : reading := Loaded (VStr s).

Definition answers (r : Response) (req : Request) : fetched := Responded r.

Definition no_formatter (content modelPath : value) : value := VNull.

Definition bad_request : Response :=
  mkResponse 400 "Bad Request" None
    (Some (VObj [("error", VStr missing_credentials_message)])).

Definition empty_content : Response :=
  mkResponse 200 "OK" None
    (Some (VObj [("content", VStr ""); ("formattedContent", VNull)])).

Definition served : Response :=
  mkResponse 200 "OK" None
    (Some (VObj [("content", VStr "氏名: 山田"); ("formattedContent", VNull)])).

(** ** Runs that the embedding covers *)

(** Every JSON body that the service sends is one on which the text
    extractor stays inside the embedding: it uses no string or array as a
    row index, a column index or a length. *)
Definition answers_modelled (transport : nat -> Request -> fetched) : Prop :=
  forall (n : nat) (req : Request) (r : Response) (body : value),
    transport n req = Responded r -> json_body r = Some body ->
    modelled (text_body body).

(** A request field that is missing, falsy or a string. *)
Definition textual (v : value) : Prop :=
  truthy v = false \/ exists s, v = VStr s.

(** The fields that the handler passes on as strings. *)
Definition text_fields : list string :=
  ["fileBase64"; "fileName"; "fileType"; "azureApiKey"; "azureEndpoint"; "modelId"].

Definition request_in_text (body : value) : Prop :=
  Forall (fun k => textual (field body k)) text_fields.

(** Every number inside the value is a safe integer, one that JavaScript
    prints in full. *)
Fixpoint safe_numbers (v : value) : bool :=
  match v with
  | VNum z => (- 2 ^ 53 <? z) && (z <? 2 ^ 53)
  | VArr l => forallb safe_numbers l
  | VObj props => forallb (fun p => safe_numbers (snd p)) props
  | _ => true
  end.


(** * Proofs *)

Lemma bytes_of_bytes s : of_bytes (bytes s) = s.
Proof. induction s; simpl; congruence. Qed.

(** ** Validators *)

(** C8: [validateFileType] accepts exactly the four MIME strings of the
    allow-list.  It is a pure function: it has no effect to speak of. *)
Theorem validateFileType_allow_list (mime : string) :
  validateFileType mime = true <->
  mime = "application/pdf" \/ mime = "image/jpeg" \/ mime = "image/jpg" \/ mime = "image/png".
Proof.
  unfold validateFileType, array_includes, supportedTypes. simpl.
  rewrite !orb_true_iff, !String.eqb_eq. intuition congruence.
Qed.

Lemma hex_class_spec (a : ascii) :
  existsb (in_range a) [("0"%char, "9"%char); ("a"%char, "f"%char); ("A"%char, "F"%char)]
  = is_hex_digit a.
Proof. destruct a as [[] [] [] [] [] [] [] []]; reflexivity. Qed.

Lemma repeat_step (n : nat) (r : regex) pos l :
  match_item (RRepeat (S n) r) pos l =
  match match_item r pos l with
  | Some (pos', l') => match_item (RRepeat n r) pos' l'
  | None => None
  end.
Proof. reflexivity. Qed.

Lemma repeat_class (n : nat) : forall pos l,
  match_item (RRepeat n hex_class) pos l =
  if forallb is_hex_digit (firstn n l) && (n <=? length l)%nat
  then Some ((pos + n)%nat, skipn n l) else None.
Proof.
  induction n as [|n IH]; intros pos l.
  - simpl. rewrite Nat.add_0_r. reflexivity.
  - rewrite repeat_step. destruct l as [|a l]; [reflexivity|].
    change (match_item hex_class pos (a :: l)) with
      (if existsb (in_range a) [("0"%char, "9"%char); ("a"%char, "f"%char); ("A"%char, "F"%char)]
       then Some (S pos, l) else None).
    rewrite hex_class_spec. simpl firstn. simpl forallb. simpl skipn.
    destruct (is_hex_digit a); [|reflexivity].
    rewrite IH. simpl. replace (S (pos + n))%nat with (pos + S n)%nat by lia. reflexivity.
Qed.

Lemma test_from_later (l : list ascii) : forall pos,
  (0 < pos)%nat -> test_from apiKeyRegex pos l = false.
Proof.
  induction l as [|a l IH]; intros pos Hpos; simpl.
  - destruct pos; [lia|reflexivity].
  - destruct pos; [lia|]. simpl. apply IH. lia.
Qed.

Lemma regex_test_apiKey (s : string) :
  regex_test apiKeyRegex s =
  forallb is_hex_digit (bytes s) && (length (bytes s) =? 32)%nat.
Proof.
  unfold regex_test.
  assert (Hm : match_seq apiKeyRegex 0 (bytes s) =
               forallb is_hex_digit (bytes s) && (length (bytes s) =? 32)%nat).
  { unfold apiKeyRegex. unfold match_seq.
    change (match_item RStart 0 (bytes s)) with (Some (0%nat, bytes s)).
    cbv beta iota.
    rewrite repeat_class.
    destruct (32 <=? length (bytes s))%nat eqn:Hle.
    - apply Nat.leb_le in Hle. rewrite andb_true_r.
      destruct (drop 32 (bytes s)) as [|b rest] eqn:Hd.
      + assert (Hlen : length (bytes s) = 32%nat).
        { apply (f_equal length) in Hd. rewrite length_drop in Hd. simpl in Hd. lia. }
        rewrite firstn_all2 by lia. rewrite Hlen. simpl.
        destruct (forallb is_hex_digit (bytes s)); reflexivity.
      + assert (Hlen : (length (bytes s) =? 32)%nat = false).
        { apply Nat.eqb_neq. apply (f_equal length) in Hd. rewrite length_drop in Hd.
          simpl in Hd. lia. }
        rewrite Hlen, andb_false_r.
        destruct (forallb is_hex_digit (take 32 (bytes s))); reflexivity.
    - rewrite andb_false_r.
      apply Nat.leb_gt in Hle.
      replace (length (bytes s) =? 32)%nat with false
        by (symmetry; apply Nat.eqb_neq; lia).
      rewrite andb_false_r. reflexivity. }
  destruct (bytes s) as [|a l] eqn:Hb.
  - simpl in *. reflexivity.
  - simpl test_from. rewrite test_from_later by lia. rewrite orb_false_r. exact Hm.
Qed.

(** C7: [validateApiKey] is true exactly on the strings made of 32
    hexadecimal characters; the empty string gives [false].  The function is
    total and returns a boolean: a bad key is a [false], never an error. *)
Theorem validateApiKey_hex32 :
  (forall key : string, validateApiKey key = true <-> key_shape key)
  /\ validateApiKey "" = false.
Proof.
  split; [|reflexivity].
  intros key. unfold validateApiKey, key_shape.
  destruct key as [|a key].
  - simpl. split; [discriminate|]. intros [H _]. discriminate.
  - change (negb (truthy (VStr (String a key)))) with false. cbv iota.
    rewrite regex_test_apiKey, andb_true_iff, forallb_forall, Nat.eqb_eq,
      Forall_forall.
    split; intros [H1 H2]; split; auto.
    + intros x Hx. apply H1. apply list_elem_of_In. exact Hx.
    + intros x Hx. apply H2. apply list_elem_of_In. exact Hx.
Qed.

(** ** Error translation *)

Lemma lookup_prop_absent props k :
  has_own props k = false -> lookup_prop props k = VUndef.
Proof.
  induction props as [|[k' v] props IH]; simpl; [reflexivity|].
  destruct (String.eqb k' k); simpl; [discriminate|exact IH].
Qed.

Lemma to_string_modelled : forall v : value, to_string v <> Unmodelled.
Proof.
  fix IH 1. intros [| |b|z|s|l|props]; simpl; try discriminate.
  - induction l as [|x l IHl]; [discriminate|].
    assert (Hx : match x with VUndef | VNull => Ret "" | _ => to_string x end
                 <> Unmodelled).
    { pose proof (IH x) as Hx0. destruct x; try discriminate; exact Hx0. }
    destruct (match x with VUndef | VNull => Ret "" | _ => to_string x end);
      simpl; try discriminate; try congruence.
    destruct l as [|y l]; [discriminate|].
    match goal with
    | |- context [mbind _ ?m] => destruct m eqn:Hm
    end; simpl; try discriminate. congruence.
  - destruct (has_own props "toString"); discriminate.
Qed.

Lemma extractAzureErrorInfo_translation (r : Response) (body : value) :
  extractAzureErrorInfo r body = Ret (translation r body).
Proof.
  unfold extractAzureErrorInfo, translation, status_message.
  destruct (status r =? 401); [reflexivity|].
  destruct (status r =? 403); [reflexivity|].
  destruct (status r =? 404); [reflexivity|].
  destruct (status r =? 429); [reflexivity|].
  destruct body as [| |b|z|s|l|props]; simpl;
    try reflexivity;
    try (destruct (truthy _); reflexivity).
  - destruct b; reflexivity.
  - destruct (z =? 0) eqn:E; simpl; rewrite ?E; reflexivity.
  - destruct (String.eqb s "") eqn:E; simpl; rewrite ?E; reflexivity.
  - destruct (has_own props "error") eqn:Hown.
    2:{ rewrite (lookup_prop_absent _ _ Hown). reflexivity. }
    destruct (lookup_prop props "error") as [| |b|z|s|l|eprops] eqn:He; simpl;
      try reflexivity.
    + destruct b; reflexivity.
    + destruct (z =? 0); reflexivity.
    + destruct (String.eqb s ""); reflexivity.
    + unfold error_message, structured_error, formatted_error, interpolate.
      destruct (has_own eprops "code" && has_own eprops "message"); simpl; [|reflexivity].
      pose proof (to_string_modelled (lookup_prop eprops "code")) as Hc.
      pose proof (to_string_modelled (lookup_prop eprops "message")) as Hm.
      destruct (to_string (lookup_prop eprops "code")); simpl;
        try reflexivity; try congruence.
      destruct (to_string (lookup_prop eprops "message")); simpl;
        try reflexivity; congruence.
Qed.

(** C3, as amended: the translation is the priority chain of [translation]
    and never throws.  The four status codes win over any body; otherwise an
    error that is truthy is formatted (object with code and message, the
    status-only message standing in when code or message cannot be turned
    into a string), wrapped (string) or stringified (anything else); a body
    without an error, or with a falsy one, gives the status fallback. *)
Theorem extractAzureErrorInfo_chain :
  (forall (r : Response) (body : value),
     extractAzureErrorInfo r body = Ret (translation r body))
  /\ (forall (text : string) (loc : option string) (json : option value) (body : value),
        extractAzureErrorInfo (mkResponse 401 text loc json) body = Ret message_401)
  /\ extractAzureErrorInfo server_error
       (VObj [("error", VObj [("code", VStr "X"); ("message", VStr "Y")])])
     = Ret (service +:+ " (X): Y")
  /\ extractAzureErrorInfo server_error
       (VObj [("error", VObj [("code", VObj [("toString", VNull)]); ("message", VStr "Y")])])
     = Ret (service +:+ " (500)").
Proof.
  split; [exact extractAzureErrorInfo_translation|].
  split; [intros; reflexivity|].
  split; reflexivity.
Qed.

(** C3, as stated, fails: an error that is the empty string is a string
    error, yet it is not wrapped; the status fallback is returned. *)
Lemma extractAzureErrorInfo_empty_string_error :
  body_error (VObj [("error", VStr "")]) = Some (VStr "")
  /\ translation_as_stated server_error (VObj [("error", VStr "")]) = service +:+ ": "
  /\ extractAzureErrorInfo server_error (VObj [("error", VStr "")])
     = Ret (service +:+ " (500): Internal Server Error")
  /\ extractAzureErrorInfo server_error (VObj [("error", VStr "")])
     <> Ret (translation_as_stated server_error (VObj [("error", VStr "")])).
Proof.
  split; [reflexivity|]. split; [reflexivity|]. split; [reflexivity|].
  vm_compute. discriminate.
Qed.

(** ** The extractors never throw *)

Lemma bind_modelled {A B : Type} (m : res A) (f : A -> res B) :
  modelled m -> (forall a, modelled (f a)) -> modelled (m ≫= f).
Proof.
  unfold modelled. intros Hm Hf. destruct m; simpl; [apply Hf|discriminate|congruence].
Qed.

Lemma ret_modelled {A : Type} (a : A) : modelled (Ret a).
Proof. discriminate. Qed.

Lemma mapM_modelled {A B : Type} (f : A -> res B) (l : list A) :
  (forall x, modelled (f x)) -> modelled (mapM f l).
Proof.
  intros Hf. induction l as [|x l IH]; simpl; [apply ret_modelled|].
  apply bind_modelled; [apply Hf|]. intros y.
  apply bind_modelled; [exact IH|]. intros ys. apply ret_modelled.
Qed.

Lemma get_modelled v k : modelled (get v k).
Proof. destruct v; discriminate. Qed.

Lemma get_opt_modelled v k : modelled (get_opt v k).
Proof. destruct v; discriminate. Qed.

Lemma iterate_modelled v : modelled (iterate v).
Proof. destruct v; discriminate. Qed.

Lemma array_map_modelled v f :
  (forall x, modelled (f x)) -> modelled (array_map v f).
Proof. intros Hf. destruct v; try discriminate. simpl. apply mapM_modelled, Hf. Qed.

Ltac modelled_steps :=
  repeat first
    [ apply ret_modelled
    | apply get_modelled
    | apply get_opt_modelled
    | apply iterate_modelled
    | apply bind_modelled; [|intros ?] ].

Lemma structured_line_modelled line : modelled (structured_line line).
Proof. unfold structured_line. modelled_steps. Qed.

Lemma structured_page_modelled page : modelled (structured_page page).
Proof.
  unfold structured_page. modelled_steps.
  apply array_map_modelled, structured_line_modelled.
Qed.

Lemma structured_cell_modelled cell : modelled (structured_cell cell).
Proof. unfold structured_cell. modelled_steps. Qed.

Lemma structured_table_modelled table : modelled (structured_table table).
Proof.
  unfold structured_table. modelled_steps.
  apply mapM_modelled, structured_cell_modelled.
Qed.

Lemma structured_pair_modelled pair : modelled (structured_pair pair).
Proof.
  unfold structured_pair, structured_key, structured_value. modelled_steps.
Qed.

Lemma structured_body_modelled result : modelled (structured_body result).
Proof.
  unfold structured_body. modelled_steps.
  - apply mapM_modelled, structured_page_modelled.
  - apply mapM_modelled, structured_table_modelled.
  - apply mapM_modelled, structured_pair_modelled.
Qed.

(** C4: when the body of [extractTextFromAnalysisResult] throws, the call
    returns the fixed fallback string (and logs the error); when the body of
    [extractStructuredData] throws, the call returns [null]; neither call
    ends with an exception, and the structured extractor always returns. *)
Theorem extractors_catch_everything :
  (forall (result : value) (e : exn) (tr : list event),
     text_body result = Throw e ->
     extractTextFromAnalysisResult result tr
     = (Ret fallback_text,
        (tr ++ [EvCall TextExtraction]) ++ [EvError text_error_label (Some e)]))
  /\ (forall (result : value) (e : exn) (tr : list event),
        structured_body result = Throw e ->
        extractStructuredData result tr
        = (Ret VNull,
           (tr ++ [EvCall StructuredExtraction]) ++ [EvError structured_error_label None]))
  /\ (forall (result : value) (tr : list event),
        ~ throws (fst (extractTextFromAnalysisResult result tr)))
  /\ (forall (result : value) (tr : list event),
        exists out : value, fst (extractStructuredData result tr) = Ret out).
Proof.
  repeat split.
  - intros result e tr H.
    unfold extractTextFromAnalysisResult, try_catchM, lift, emit, console_error.
    simpl. rewrite H. reflexivity.
  - intros result e tr H.
    unfold extractStructuredData, try_catchM, lift, emit, console_error.
    simpl. rewrite H. reflexivity.
  - intros result tr [e He].
    unfold extractTextFromAnalysisResult, try_catchM, lift, emit, console_error in He.
    simpl in He. destruct (text_body result); simpl in He; discriminate.
  - intros result tr.
    unfold extractStructuredData, try_catchM, lift, emit, console_error.
    simpl. pose proof (structured_body_modelled result) as Hm.
    destruct (structured_body result) as [out|e|]; simpl.
    + exists out; reflexivity.
    + exists VNull; reflexivity.
    + exfalso; apply Hm; reflexivity.
Qed.

Lemma extractors_catch_everything_witness :
  extractTextFromAnalysisResult bad_row_document []
  = (Ret fallback_text,
     [EvCall TextExtraction; EvError text_error_label (Some TypeError)])
  /\ extractStructuredData null_page_document []
     = (Ret VNull,
        [EvCall StructuredExtraction; EvError structured_error_label None]).
Proof.
  split.
  - apply (proj1 extractors_catch_everything bad_row_document TypeError []).
    vm_compute. reflexivity.
  - apply (proj1 (proj2 extractors_catch_everything) null_page_document TypeError []).
    vm_compute. reflexivity.
Defined.

(** ** Key-value pairs *)

(** C10: for a pair whose key content is absent or empty, the text
    extractor renders the placeholder label while the structured extractor
    records the empty string; a value content that is absent or empty is the
    empty string in both. *)
Theorem empty_key_disagreement :
  (forall (pair k kc : value),
     get pair "key" = Ret k -> get_opt k "content" = Ret kc ->
     kc = VUndef \/ kc = VStr "" ->
     text_key pair = Ret (VStr placeholder)
     /\ structured_key pair = Ret (VStr "")
     /\ (forall (text : string) (val : value) (vs : string),
           text_value pair = Ret val -> to_string val = Ret vs ->
           pair_step text pair = Ret (text +:+ placeholder +:+ ": " +:+ vs +:+ LF)))
  /\ (forall (pair v vc : value),
        get pair "value" = Ret v -> get_opt v "content" = Ret vc ->
        vc = VUndef \/ vc = VStr "" ->
        text_value pair = Ret (VStr "") /\ structured_value pair = Ret (VStr ""))
  /\ placeholder <> ""
  /\ fst (extractTextFromAnalysisResult empty_key_document [])
     = Ret ("===== フォームフィールド =====" +:+ LF +:+ LF +:+ placeholder +:+ ":")
  /\ fst (extractStructuredData empty_key_document [])
     = Ret (VObj [("pages", VArr []); ("tables", VArr []);
                  ("keyValuePairs", VArr [VObj [("key", VStr ""); ("value", VStr "")]])]).
Proof.
  split; [|split; [|split; [|split]]].
  - intros pair k kc Hk Hkc Hempty.
    assert (Htk : text_key pair = Ret (VStr placeholder)).
    { unfold text_key. rewrite Hk. simpl. rewrite Hkc. simpl.
      destruct Hempty as [-> | ->]; reflexivity. }
    split; [exact Htk|]. split.
    + unfold structured_key. rewrite Hk. simpl. rewrite Hkc. simpl.
      destruct Hempty as [-> | ->]; reflexivity.
    + intros text val vs Hv Hvs. unfold pair_step. rewrite Htk, Hv. simpl.
      unfold interpolate. rewrite Hvs. reflexivity.
  - intros pair v vc Hv Hvc Hempty. split.
    + unfold text_value. rewrite Hv. simpl. rewrite Hvc. simpl.
      destruct Hempty as [-> | ->]; reflexivity.
    + unfold structured_value. rewrite Hv. simpl. rewrite Hvc. simpl.
      destruct Hempty as [-> | ->]; reflexivity.
  - discriminate.
  - vm_compute. reflexivity.
  - vm_compute. reflexivity.
Qed.

Lemma empty_key_disagreement_witness :
  (text_key empty_key_pair = Ret (VStr placeholder)
   /\ structured_key empty_key_pair = Ret (VStr ""))
  /\ (text_value empty_key_pair = Ret (VStr "")
      /\ structured_value empty_key_pair = Ret (VStr "")).
Proof.
  split.
  - destruct (proj1 empty_key_disagreement empty_key_pair
                (VObj [("content", VStr "")]) (VStr "")) as (H1 & H2 & _).
    + reflexivity.
    + reflexivity.
    + right; reflexivity.
    + split; assumption.
  - apply (proj1 (proj2 empty_key_disagreement) empty_key_pair VUndef VUndef).
    + reflexivity.
    + reflexivity.
    + left; reflexivity.
Defined.

(** ** Table reconstruction *)

Lemma append_cons (x : ascii) (a b : string) :
  String x a +:+ b = String x (a +:+ b).
Proof. reflexivity. Qed.

Lemma append_assoc (a b c : string) : (a +:+ b) +:+ c = a +:+ b +:+ c.
Proof.
  induction a as [|x a IH]; [reflexivity|].
  rewrite !append_cons, IH. reflexivity.
Qed.

Lemma append_empty_r (a : string) : a +:+ "" = a.
Proof.
  induction a as [|x a IH]; [reflexivity|].
  rewrite append_cons, IH. reflexivity.
Qed.

Lemma mapM_const {A B : Type} (y : B) (l : list A) :
  mapM (fun _ => Ret y) l = Ret (replicate (length l) y).
Proof. induction l as [|x l IH]; simpl; [reflexivity|]. rewrite IH. reflexivity. Qed.

Lemma new_grid_valid (R C : Z) :
  0 <= R <= MAX_LENGTH -> 0 <= C <= MAX_LENGTH ->
  new_grid (VNum R) (VNum C)
  = Ret (as_values (replicate (Z.to_nat R) (replicate (Z.to_nat C) ""))).
Proof.
  intros HR HC. unfold new_grid, new_filled.
  replace ((0 <=? R) && (R <=? MAX_LENGTH)) with true by (symmetry; apply andb_true_iff; split; apply Z.leb_le; lia).
  replace ((0 <=? C) && (C <=? MAX_LENGTH)) with true by (symmetry; apply andb_true_iff; split; apply Z.leb_le; lia).
  simpl. rewrite mapM_const, length_replicate.
  unfold as_values. rewrite !fmap_replicate. reflexivity.
Qed.

Lemma shaped_replicate {A : Type} (r c : nat) (x : A) :
  shaped r c (replicate r (replicate c x)).
Proof.
  split; [apply length_replicate|].
  apply Forall_forall. intros row Hrow. 
  apply elem_of_replicate in Hrow as [-> _]. apply length_replicate.
Qed.

Lemma shaped_row {A : Type} (r c : nat) (g : list (list A)) i row :
  shaped r c g -> g !! i = Some row -> length row = c.
Proof.
  intros [_ Hall] Hi. rewrite Forall_forall in Hall. apply Hall.
  eapply list_elem_of_lookup_2; eauto.
Qed.

Lemma shaped_write (r c : nat) (g : list (list string)) (x : sparse) :
  shaped r c g -> shaped r c (write g x).
Proof.
  intros Hs. unfold write. destruct (g !! Z.to_nat x.1.1) as [row|] eqn:Hrow; [|exact Hs].
  pose proof (shaped_row _ _ _ _ _ Hs Hrow) as Hlen.
  destruct Hs as [Hl Hall]. split; [rewrite length_insert; exact Hl|].
  apply Forall_insert; [exact Hall|]. rewrite length_insert. exact Hlen.
Qed.

Lemma at_grid_write (r c : nat) (g : list (list string)) (x : sparse) (i j : nat) :
  shaped r c g -> in_grid (Z.of_nat r) (Z.of_nat c) x -> (i < r)%nat -> (j < c)%nat ->
  at_grid (write g x) i j
  = if at_position (Z.of_nat i) (Z.of_nat j) x then Some x.2 else at_grid g i j.
Proof.
  intros Hs [Hr Hc] Hi Hj. unfold write, at_grid, at_position.
  destruct Hs as [Hl Hall].
  destruct (g !! Z.to_nat x.1.1) as [row|] eqn:Hrow.
  2:{ apply lookup_ge_None in Hrow. lia. }
  assert (Hlen : length row = c) by (eapply shaped_row; [split|]; eauto).
  destruct (x.1.1 =? Z.of_nat i) eqn:Ei; simpl.
  - apply Z.eqb_eq in Ei. replace (Z.to_nat x.1.1) with i in * by lia.
    rewrite list_lookup_insert_eq by lia.
    destruct (x.1.2 =? Z.of_nat j) eqn:Ej.
    + apply Z.eqb_eq in Ej. replace (Z.to_nat x.1.2) with j by lia.
      apply list_lookup_insert_eq. lia.
    + apply Z.eqb_neq in Ej. rewrite Hrow.
      apply list_lookup_insert_ne. lia.
  - apply Z.eqb_neq in Ei. rewrite list_lookup_insert_ne by lia. reflexivity.
Qed.

Lemma find_snoc {A : Type} (p : A -> bool) (l : list A) (x : A) :
  find p (l ++ [x]) = match find p l with Some y => Some y | None => if p x then Some x else None end.
Proof.
  induction l as [|y l IH]; simpl; [reflexivity|].
  destruct (p y); [reflexivity|exact IH].
Qed.

Lemma fold_write (r c : nat) (xs : list sparse) : forall g : list (list string),
  shaped r c g -> Forall (in_grid (Z.of_nat r) (Z.of_nat c)) xs ->
  shaped r c (fold_left write xs g)
  /\ forall i j, (i < r)%nat -> (j < c)%nat ->
       at_grid (fold_left write xs g) i j
       = match find (at_position (Z.of_nat i) (Z.of_nat j)) (rev xs) with
         | Some x => Some x.2
         | None => at_grid g i j
         end.
Proof.
  induction xs as [|x xs IH]; intros g Hs Hin.
  - split; [exact Hs|]. intros; reflexivity.
  - inversion Hin as [|? ? Hx Hxs]; subst.
    destruct (IH (write g x) (shaped_write _ _ _ _ Hs) Hxs) as [Hs' Hat].
    split; [exact Hs'|].
    intros i j Hi Hj. simpl fold_left. rewrite (Hat i j Hi Hj).
    simpl rev. rewrite find_snoc.
    destruct (find _ (rev xs)); [reflexivity|].
    rewrite (at_grid_write r c g x i j Hs Hx Hi Hj).
    destruct (at_position (Z.of_nat i) (Z.of_nat j) x); reflexivity.
Qed.

Lemma grid_ext {A : Type} (r c : nat) (g1 g2 : list (list A)) :
  shaped r c g1 -> shaped r c g2 ->
  (forall i j, (i < r)%nat -> (j < c)%nat -> at_grid g1 i j = at_grid g2 i j) ->
  g1 = g2.
Proof.
  intros H1 H2 Hat. apply list_eq. intros i.
  destruct (g1 !! i) as [row1|] eqn:E1.
  - assert (Hi : (i < r)%nat) by (destruct H1 as [<- _]; eapply lookup_lt_Some; eauto).
    destruct (g2 !! i) as [row2|] eqn:E2.
    2:{ apply lookup_ge_None in E2. destruct H2 as [? _]. lia. }
    f_equal. apply list_eq. intros j.
    pose proof (shaped_row _ _ _ _ _ H1 E1) as L1.
    pose proof (shaped_row _ _ _ _ _ H2 E2) as L2.
    destruct (decide (j < c)%nat) as [Hj|Hj].
    + specialize (Hat i j Hi Hj). unfold at_grid in Hat. rewrite E1, E2 in Hat. exact Hat.
    + rewrite !(proj2 (lookup_ge_None _ _)) by lia. reflexivity.
  - apply lookup_ge_None in E1. symmetry. apply lookup_ge_None.
    destruct H1 as [? _], H2 as [? _]. lia.
Qed.

Lemma dense_grid_shaped (R C : Z) (xs : list sparse) :
  shaped (Z.to_nat R) (Z.to_nat C) (dense_grid R C xs).
Proof.
  unfold dense_grid. split.
  - rewrite length_fmap, length_seqZ. reflexivity.
  - apply Forall_forall. intros row Hrow. 
    apply list_elem_of_fmap in Hrow as (z & -> & _).
    rewrite length_fmap, length_seqZ. reflexivity.
Qed.

Lemma at_dense_grid (R C : Z) (xs : list sparse) (i j : nat) :
  (i < Z.to_nat R)%nat -> (j < Z.to_nat C)%nat ->
  at_grid (dense_grid R C xs) i j = Some (last_write xs (Z.of_nat i) (Z.of_nat j)).
Proof.
  intros Hi Hj. unfold at_grid, dense_grid.
  rewrite list_lookup_fmap, lookup_seqZ_lt by lia. simpl.
  rewrite list_lookup_fmap, lookup_seqZ_lt by lia. simpl.
  rewrite !Z.add_0_l. reflexivity.
Qed.

Lemma fold_write_dense (R C : Z) (xs : list sparse) :
  0 <= R -> 0 <= C -> Forall (in_grid R C) xs ->
  fold_left write xs (replicate (Z.to_nat R) (replicate (Z.to_nat C) ""))
  = dense_grid R C xs.
Proof.
  intros HR HC Hin.
  assert (Hin' : Forall (in_grid (Z.of_nat (Z.to_nat R)) (Z.of_nat (Z.to_nat C))) xs)
    by (rewrite !Z2Nat.id by lia; exact Hin).
  destruct (fold_write _ _ xs _ (shaped_replicate (Z.to_nat R) (Z.to_nat C) "") Hin')
    as [Hs Hat].
  apply (grid_ext _ _ _ _ Hs (dense_grid_shaped R C xs)).
  intros i j Hi Hj. rewrite (Hat i j Hi Hj), at_dense_grid by assumption.
  unfold last_write.
  destruct (find _ (rev xs)); [reflexivity|].
  unfold at_grid. rewrite lookup_replicate_2 by assumption.
  apply lookup_replicate_2. assumption.
Qed.

Lemma place_cell_write (r c : nat) (g : list (list string)) (cell : value) (x : sparse) :
  shaped r c g -> Z.of_nat c <= MAX_LENGTH ->
  cell_is cell x -> in_grid (Z.of_nat r) (Z.of_nat c) x ->
  place_cell (as_values g) cell = Ret (as_values (write g x)).
Proof.
  intros Hs Hmax (Hri & Hci & cv & Hcv & Hor) [Hr Hc].
  unfold place_cell. rewrite Hri, Hci. simpl.
  unfold row_at, as_values. rewrite length_fmap.
  destruct Hs as [Hl Hall].
  replace ((0 <=? x.1.1) && (x.1.1 <? Z.of_nat (length g))) with true
    by (symmetry; apply andb_true_iff; split; [apply Z.leb_le|apply Z.ltb_lt]; lia).
  simpl. rewrite Hcv. simpl. rewrite Hor.
  unfold write.
  destruct (g !! Z.to_nat x.1.1) as [row|] eqn:Hrow.
  2:{ apply lookup_ge_None in Hrow. lia. }
  assert (Hlen : length row = c) by (eapply shaped_row; [split|]; eauto).
  rewrite list_lookup_fmap, Hrow. simpl.
  unfold store.
  replace ((0 <=? x.1.2) && (x.1.2 <? MAX_LENGTH)) with true
    by (symmetry; apply andb_true_iff; split; [apply Z.leb_le|apply Z.ltb_lt]; lia).
  replace (Z.to_nat x.1.2 <? length (VStr <$> row))%nat with true
    by (symmetry; apply Nat.ltb_lt; rewrite length_fmap; lia).
  simpl. rewrite !list_fmap_insert. reflexivity.
Qed.

Lemma foldM_place_cell (r c : nat) (cs : list value) (xs : list sparse) :
  Z.of_nat c <= MAX_LENGTH ->
  Forall2 cell_is cs xs -> Forall (in_grid (Z.of_nat r) (Z.of_nat c)) xs ->
  forall g : list (list string), shaped r c g ->
  foldM place_cell (as_values g) cs = Ret (as_values (fold_left write xs g)).
Proof.
  intros Hmax Hcells. induction Hcells as [|cell x cs xs Hcell Hcells IH];
    intros Hin g Hs; [reflexivity|].
  inversion Hin as [|? ? Hx Hxs]; subst.
  simpl. rewrite (place_cell_write r c g cell x Hs Hmax Hcell Hx). simpl.
  apply IH; [exact Hxs|]. apply shaped_write, Hs.
Qed.

Lemma array_join_strings (sep : string) (row : list string) :
  array_join sep (VStr <$> row) = Ret (String.concat sep row).
Proof.
  induction row as [|s row IH]; [reflexivity|].
  simpl. destruct row as [|s' row]; [reflexivity|].
  rewrite fmap_cons in IH |- *. rewrite IH. reflexivity.
Qed.

Lemma foldM_cons {A B : Type} (f : A -> B -> res A) (a : A) (x : B) (l : list B) :
  foldM f a (x :: l) = f a x ≫= fun a' => foldM f a' l.
Proof. reflexivity. Qed.

Lemma render_row_strings (text : string) (row : list string) :
  render_row text (VStr <$> row) = Ret (text +:+ String.concat " | " row +:+ LF).
Proof. unfold render_row. rewrite array_join_strings. reflexivity. Qed.

Lemma render_rows (g : list (list string)) : forall text : string,
  foldM render_row text (as_values g) = Ret (text +:+ render_grid g).
Proof.
  induction g as [|row g IH]; intros text.
  - simpl. rewrite append_empty_r. reflexivity.
  - unfold as_values. rewrite fmap_cons. fold (as_values g).
    rewrite foldM_cons, render_row_strings. simpl mbind.
    rewrite IH. simpl render_grid. rewrite !append_assoc. reflexivity.
Qed.

(** C2: for a table whose cells lie inside its [rowCount] x [columnCount]
    grid, the extractor builds the dense grid in which every position holds
    the content of the last cell written there, the empty string where no
    cell was written, and renders each row joined by [" | "], one row to a
    line.  For the 2 x 2 table with cells (0,0,"A") and (1,1,"B") the grid
    renders as the two lines ["A | "] and [" | B"]; at the end of the
    extracted text the final [trim] leaves ["A | 
 | B"]. *)
Theorem table_reconstruction :
  forall (table cv : value) (cs : list value) (R C : Z) (cells : list sparse)
         (text : string) (i : Z),
    get table "cells" = Ret cv -> or_else cv (VArr []) = VArr cs ->
    get table "rowCount" = Ret (VNum R) ->
    get table "columnCount" = Ret (VNum C) ->
    0 <= R <= MAX_LENGTH -> 0 <= C <= MAX_LENGTH ->
    Forall2 cell_is cs cells -> Forall (in_grid R C) cells ->
    table_grid table = Ret (as_values (dense_grid R C cells))
    /\ table_step (text, i) table
       = Ret (text +:+ table_header i +:+ render_grid (dense_grid R C cells) +:+ LF,
              i + 1).
Proof.
  intros table cv cs R C cells text i Hcells Hcv HR HC HRb HCb Hcs Hin.
  assert (Hgrid : table_grid table = Ret (as_values (dense_grid R C cells))).
  { unfold table_grid. rewrite Hcells, HR, HC. simpl. rewrite Hcv.
    assert (HR0 : or_else (VNum R) (VNum 0) = VNum R).
    { unfold or_else. simpl. destruct (R =? 0) eqn:E; [|reflexivity].
      apply Z.eqb_eq in E. subst. reflexivity. }
    assert (HC0 : or_else (VNum C) (VNum 0) = VNum C).
    { unfold or_else. simpl. destruct (C =? 0) eqn:E; [|reflexivity].
      apply Z.eqb_eq in E. subst. reflexivity. }
    rewrite HR0, HC0, new_grid_valid by assumption. simpl.
    rewrite (foldM_place_cell (Z.to_nat R) (Z.to_nat C) cs cells).
    - rewrite fold_write_dense by (assumption || lia). reflexivity.
    - rewrite Z2Nat.id by lia. lia.
    - exact Hcs.
    - rewrite !Z2Nat.id by lia. exact Hin.
    - apply shaped_replicate. }
  split; [exact Hgrid|].
  unfold table_step. rewrite Hgrid. simpl.
  rewrite render_rows. simpl. rewrite !append_assoc. reflexivity.
Qed.

Lemma table_reconstruction_witness :
  table_grid two_by_two = Ret [[VStr "A"; VStr ""]; [VStr ""; VStr "B"]]
  /\ table_step ("", 0) two_by_two
     = Ret ("テーブル 1:" +:+ LF +:+ "A | " +:+ LF +:+ " | B" +:+ LF +:+ LF, 1)
  /\ fst (extractTextFromAnalysisResult
            (document_of [("tables", VArr [two_by_two])]) [])
     = Ret ("===== テーブル =====" +:+ LF +:+ LF +:+ "テーブル 1:" +:+ LF
            +:+ "A | " +:+ LF +:+ " | B").
Proof.
  destruct (table_reconstruction two_by_two
              (VArr [sparse_cell 0 0 "A"; sparse_cell 1 1 "B"])
              [sparse_cell 0 0 "A"; sparse_cell 1 1 "B"] 2 2
              [(0, 0, "A"); (1, 1, "B")] "" 0) as [H1 H2].
  - reflexivity.
  - reflexivity.
  - reflexivity.
  - reflexivity.
  - unfold MAX_LENGTH; lia.
  - unfold MAX_LENGTH; lia.
  - constructor; [|constructor; [|constructor]].
    + split; [reflexivity|]. split; [reflexivity|].
      exists (VStr "A"). split; reflexivity.
    + split; [reflexivity|]. split; [reflexivity|].
      exists (VStr "B"). split; reflexivity.
  - constructor; [|constructor; [|constructor]]; split; simpl; lia.
  - split; [exact H1|]. split; [exact H2|]. vm_compute. reflexivity.
Defined.


(** ** Cells outside the grid *)

Lemma bind_Ret {A B : Type} (m : res A) (f : A -> res B) (b : B) :
  m ≫= f = Ret b -> exists a, m = Ret a /\ f a = Ret b.
Proof. destruct m as [a| |]; simpl; try discriminate. intros H. exists a. auto. Qed.

Lemma foldM_app {A B : Type} (f : A -> B -> res A) (l1 l2 : list B) : forall a,
  foldM f a (l1 ++ l2) = foldM f a l1 ≫= fun a' => foldM f a' l2.
Proof.
  induction l1 as [|x l1 IH]; intros a; [reflexivity|].
  simpl. destruct (f a x); simpl; [apply IH|reflexivity|reflexivity].
Qed.

Lemma foldM_invariant {A B : Type} (f : A -> B -> res A) (P : A -> Prop) :
  (forall a x a', P a -> f a x = Ret a' -> P a') ->
  forall l a b, P a -> foldM f a l = Ret b -> P b.
Proof.
  intros Hstep l. induction l as [|x l IH]; intros a b Ha H; simpl in H.
  - inversion H; subst; exact Ha.
  - apply bind_Ret in H as (a' & Hf & Hrest). eauto.
Qed.

(** A fold that returns has run the step of each of its elements. *)
Lemma foldM_step {A B : Type} (f : A -> B -> res A) (P : A -> Prop) :
  (forall a x a', P a -> f a x = Ret a' -> P a') ->
  forall l a b j x, P a -> foldM f a l = Ret b -> l !! j = Some x ->
  exists a1 a2, P a1 /\ f a1 x = Ret a2 /\ P a2
                /\ foldM f a2 (drop (S j) l) = Ret b.
Proof.
  intros Hstep l. induction l as [|y l IH]; intros a b j x Ha H Hj.
  - discriminate.
  - simpl in H. apply bind_Ret in H as (a' & Hf & Hrest).
    destruct j as [|j]; simpl in Hj.
    + inversion Hj; subst. exists a, a'.
      split; [exact Ha|]. split; [exact Hf|]. split; [eapply Hstep; eauto|].
      exact Hrest.
    + apply (IH a' b j x); eauto.
Qed.

Lemma store_length (row : list value) (ci x : value) (row' : list value) :
  store row ci x = Ret row' -> (length row <= length row')%nat.
Proof.
  unfold store. destruct ci as [| |b|c|s|l|props]; try discriminate;
    try (intros H; inversion H; subst; lia).
  - destruct ((0 <=? c) && (c <? MAX_LENGTH)); [|intros H; inversion H; subst; lia].
    destruct (Z.to_nat c <? length row)%nat; intros H; inversion H; subst.
    + rewrite length_insert. lia.
    + rewrite length_app. lia.
  - destruct (has_own props "toString"); [discriminate|].
    intros H; inversion H; subst; lia.
Qed.

Lemma place_cell_inv (g : list (list value)) (cell : value) (g' : list (list value)) :
  place_cell g cell = Ret g' ->
  exists (ri ci cv : value) (r : nat) (row : list value),
    get cell "rowIndex" = Ret ri /\ get cell "columnIndex" = Ret ci
    /\ get cell "content" = Ret cv /\ row_at g ri = Ret r
    /\ store (default [] (g !! r)) ci (or_else cv (VStr "")) = Ret row
    /\ g' = <[r := row]> g.
Proof.
  unfold place_cell. intros H.
  apply bind_Ret in H as (ri & Hri & H).
  apply bind_Ret in H as (ci & Hci & H).
  apply bind_Ret in H as (r & Hr & H).
  apply bind_Ret in H as (cv & Hcv & H).
  apply bind_Ret in H as (row & Hrow & H).
  inversion H; subst. exists ri, ci, cv, r, row. auto 10.
Qed.


Lemma place_cell_length (g : list (list value)) (cell : value) (g' : list (list value)) :
  place_cell g cell = Ret g' -> length g' = length g.
Proof.
  intros H. apply place_cell_inv in H as (ri & ci & cv & r & row & _ & _ & _ & _ & _ & ->).
  apply length_insert.
Qed.

Lemma new_filled_length (z : Z) (x : value) (l : list value) :
  new_filled (VNum z) x = Ret l -> 0 <= z /\ length l = Z.to_nat z.
Proof.
  unfold new_filled.
  destruct ((0 <=? z) && (z <=? MAX_LENGTH)) eqn:E; [|discriminate].
  apply andb_true_iff in E as [E1 _]. apply Z.leb_le in E1.
  intros H; inversion H; subst. rewrite length_replicate. auto.
Qed.

Lemma mapM_length {A B : Type} (f : A -> res B) (l : list A) : forall l',
  mapM f l = Ret l' -> length l' = length l.
Proof.
  induction l as [|x l IH]; intros l' H; simpl in H.
  - inversion H; reflexivity.
  - apply bind_Ret in H as (y & _ & H). apply bind_Ret in H as (ys & Hys & H).
    inversion H; subst. simpl. f_equal. apply IH, Hys.
Qed.

Lemma new_grid_length (R : Z) (cc : value) (g : list (list value)) :
  new_grid (VNum R) cc = Ret g -> 0 <= R /\ length g = Z.to_nat R.
Proof.
  unfold new_grid. intros H. apply bind_Ret in H as (rows & Hrows & H).
  apply new_filled_length in Hrows as [HR Hlen].
  apply mapM_length in H. split; [exact HR|congruence].
Qed.

Lemma table_grid_inv (table : value) (g : list (list value)) :
  table_grid table = Ret g ->
  exists (cs rc cc : value) (g0 : list (list value)) (cells : list value),
    get table "cells" = Ret cs /\ get table "rowCount" = Ret rc
    /\ get table "columnCount" = Ret cc
    /\ new_grid (or_else rc (VNum 0)) (or_else cc (VNum 0)) = Ret g0
    /\ iterate (or_else cs (VArr [])) = Ret cells
    /\ foldM place_cell g0 cells = Ret g.
Proof.
  unfold table_grid. intros H.
  apply bind_Ret in H as (cs & Hcs & H).
  apply bind_Ret in H as (rc & Hrc & H).
  apply bind_Ret in H as (cc & Hcc & H).
  apply bind_Ret in H as (g0 & Hg0 & H).
  apply bind_Ret in H as (cells & Hcells & H).
  exists cs, rc, cc, g0, cells. auto 10.
Qed.


Lemma table_step_inv (acc acc' : string * Z) (table : value) :
  table_step acc table = Ret acc' -> exists g, table_grid table = Ret g.
Proof.
  unfold table_step. destruct acc as [text i]. intros H.
  apply bind_Ret in H as (g & Hg & _). exists g. exact Hg.
Qed.




Lemma bind_ret_l {A B : Type} (a : A) (f : A -> res B) : Ret a ≫= f = f a.
Proof. reflexivity. Qed.











(** ** Endpoint normalisation *)

Lemma of_bytes_bytes (l : list ascii) : bytes (of_bytes l) = l.
Proof. induction l as [|a l IH]; simpl; congruence. Qed.

Lemma bytes_append (a b : string) : bytes (a +:+ b) = bytes a ++ bytes b.
Proof.
  induction a as [|x a IH]; [reflexivity|].
  rewrite append_cons. simpl. rewrite IH. reflexivity.
Qed.

Lemma of_bytes_app (l1 l2 : list ascii) :
  of_bytes (l1 ++ l2) = of_bytes l1 +:+ of_bytes l2.
Proof.
  induction l1 as [|x l1 IH]; [reflexivity|].
  simpl. rewrite IH. reflexivity.
Qed.

Lemma prefix_cons (a b : ascii) (s t : string) :
  String.prefix (String a s) (String b t)
  = if ascii_dec a b then String.prefix s t else false.
Proof. reflexivity. Qed.

Lemma endsWith_slash (s : string) :
  endsWith s "/" = true <-> exists s', s = s' +:+ "/".
Proof.
  unfold endsWith.
  change (of_bytes (rev (bytes "/"))) with (String "/"%char EmptyString).
  split.
  - intros H. destruct (rev (bytes s)) as [|a l] eqn:E; [discriminate|].
    change (of_bytes (a :: l)) with (String a (of_bytes l)) in H.
    rewrite prefix_cons in H.
    destruct (ascii_dec "/" a) as [<-|Hne]; [|discriminate].
    exists (of_bytes (rev l)).
    rewrite <- (bytes_of_bytes s) at 1. rewrite <- (rev_involutive (bytes s)), E.
    simpl rev. rewrite of_bytes_app. reflexivity.
  - intros [s' ->]. rewrite bytes_append.
    change (bytes "/") with ["/"%char]. rewrite rev_app_distr.
    change (rev ["/"%char] ++ rev (bytes s')) with ("/"%char :: rev (bytes s')).
    change (of_bytes ("/"%char :: rev (bytes s')))
      with (String "/"%char (of_bytes (rev (bytes s')))).
    rewrite prefix_cons.
    destruct (ascii_dec "/" "/"); [|contradiction].
    destruct (of_bytes (rev (bytes s'))); reflexivity.
Qed.

Lemma drop_last_slash (s : string) : drop_last (s +:+ "/") = s.
Proof.
  unfold drop_last. rewrite bytes_append. simpl bytes.
  rewrite removelast_last. apply bytes_of_bytes.
Qed.

Lemma normalize_parsed (parse_url : string -> option URL) (endpoint : string)
      (u : URL) (tr : list event) :
  endpoint <> "" -> parse_url endpoint = Some u ->
  normalizeAzureEndpoint parse_url endpoint tr
  = (Ret (if endsWith endpoint "/" then drop_last endpoint else endpoint),
     tr ++ (if includes (hostname u) "cognitiveservices.azure.com"
            then [] else [EvWarn domain_warning])).
Proof.
  intros Hne Hu. unfold normalizeAzureEndpoint.
  destruct endpoint as [|a endpoint]; [contradiction|].
  change (negb (truthy (VStr (String a endpoint)))) with false. cbv iota.
  unfold try_catchM, new_URL. rewrite Hu.
  unfold mbind, M_bind, mret, M_ret, console_warn, emit.
  destruct (includes (hostname u) "cognitiveservices.azure.com"); simpl.
  - rewrite app_nil_r. reflexivity.
  - reflexivity.
Qed.

Lemma normalize_unparsed (parse_url : string -> option URL) (endpoint : string)
      (tr : list event) :
  endpoint <> "" -> parse_url endpoint = None ->
  normalizeAzureEndpoint parse_url endpoint tr
  = (Throw (Error endpoint_invalid_message), tr).
Proof.
  intros Hne Hu. unfold normalizeAzureEndpoint.
  destruct endpoint as [|a endpoint]; [contradiction|].
  change (negb (truthy (VStr (String a endpoint)))) with false. cbv iota.
  unfold try_catchM, new_URL. rewrite Hu. reflexivity.
Qed.

Lemma normalize_empty (parse_url : string -> option URL) (tr : list event) :
  normalizeAzureEndpoint parse_url "" tr = (Throw (Error endpoint_missing_message), tr).
Proof. reflexivity. Qed.

(** C6: [normalizeAzureEndpoint] fails exactly when the endpoint is empty or
    does not parse as a URL, with one of the two invalid-endpoint errors and
    without any other effect; otherwise it returns the endpoint without its
    last character when that is ["/"] and unchanged when it is not, whatever
    the host is: a host outside the expected domain only adds a warning to
    the trace. *)
Theorem normalizeAzureEndpoint_contract :
  forall (parse_url : string -> option URL) (endpoint : string) (tr : list event),
    ((exists e, fst (normalizeAzureEndpoint parse_url endpoint tr) = Throw e)
     <-> endpoint = "" \/ parse_url endpoint = None)
    /\ (forall e, fst (normalizeAzureEndpoint parse_url endpoint tr) = Throw e ->
                  InvalidEndpoint e
                  /\ snd (normalizeAzureEndpoint parse_url endpoint tr) = tr)
    /\ (forall u, endpoint <> "" -> parse_url endpoint = Some u ->
          (exists out,
             fst (normalizeAzureEndpoint parse_url endpoint tr) = Ret out
             /\ (forall s, endpoint = s +:+ "/" -> out = s)
             /\ ((forall s, endpoint <> s +:+ "/") -> out = endpoint))
          /\ snd (normalizeAzureEndpoint parse_url endpoint tr)
             = tr ++ (if includes (hostname u) "cognitiveservices.azure.com"
                      then [] else [EvWarn domain_warning]))
    /\ (forall u, parse_url example_endpoint = Some u ->
          fst (normalizeAzureEndpoint parse_url example_endpoint tr)
          = Ret "https://x.cognitiveservices.azure.com").
Proof.
  intros parse_url endpoint tr.
  assert (Hcases : endpoint = "" \/ (endpoint <> "" /\ parse_url endpoint = None)
                   \/ (endpoint <> "" /\ exists u, parse_url endpoint = Some u)).
  { destruct endpoint as [|a s]; [left; reflexivity|right].
    destruct (parse_url (String a s)) as [u|]; [right|left];
      (split; [discriminate|]); eauto. }
  split; [|split; [|split]].
  - split.
    + intros [e He].
      destruct Hcases as [->|[[Hne Hnone]|[Hne [u Hu]]]]; auto.
      rewrite (normalize_parsed _ _ u tr Hne Hu) in He. discriminate.
    + intros H.
      destruct Hcases as [->|[[Hne Hnone]|[Hne [u Hu]]]].
      * eexists. rewrite normalize_empty. reflexivity.
      * eexists. rewrite normalize_unparsed by assumption. reflexivity.
      * destruct H as [->|H]; [contradiction|congruence].
  - intros e He.
    destruct Hcases as [->|[[Hne Hnone]|[Hne [u Hu]]]].
    + rewrite normalize_empty in *. simpl in *. inversion He; subst.
      split; [left; reflexivity|reflexivity].
    + rewrite normalize_unparsed in * by assumption. simpl in *. inversion He; subst.
      split; [right; reflexivity|reflexivity].
    + rewrite (normalize_parsed _ _ u tr Hne Hu) in He. discriminate.
  - intros u Hne Hu. rewrite (normalize_parsed _ _ u tr Hne Hu). simpl.
    split; [|reflexivity].
    eexists. split; [reflexivity|]. split.
    + intros s Hs.
      replace (endsWith endpoint "/") with true
        by (symmetry; apply endsWith_slash; eauto).
      subst endpoint. apply drop_last_slash.
    + intros Hno. destruct (endsWith endpoint "/") eqn:E; [|reflexivity].
      apply endsWith_slash in E as [s Hs]. exfalso. exact (Hno s Hs).
  - intros u Hu.
    rewrite (normalize_parsed _ _ u tr) by (discriminate || exact Hu). reflexivity.
Qed.

Lemma normalizeAzureEndpoint_contract_witness :
  fst (normalizeAzureEndpoint https_only example_endpoint [])
  = Ret "https://x.cognitiveservices.azure.com"
  /\ snd (normalizeAzureEndpoint https_only example_endpoint []) = [].
Proof.
  destruct (normalizeAzureEndpoint_contract https_only example_endpoint [])
    as (_ & _ & H3 & H4).
  split.
  - apply (H4 (mkURL "x.cognitiveservices.azure.com")). reflexivity.
  - destruct (H3 (mkURL "x.cognitiveservices.azure.com")) as [_ Htr].
    + discriminate.
    + reflexivity.
    + exact Htr.
Defined.

(** ** The route: validation before the network *)

Lemma fetch_count_app (tr1 tr2 : list event) :
  fetch_count (tr1 ++ tr2) = (fetch_count tr1 + fetch_count tr2)%nat.
Proof. unfold fetch_count. rewrite List.filter_app, length_app. reflexivity. Qed.

(** C5: when the file type is not supported, or when it is and the API key
    is not valid, [analyzeDocument] returns the failure with the matching
    message and adds nothing to the trace but the log of that error: no
    request reaches the transport. *)
Theorem validation_precedes_network :
  forall (parse_url : string -> option URL) (transport : nat -> Request -> fetched)
         (runtime_message : exn -> string)
         (fileBase64 fileName fileType apiKey endpoint modelId : string)
         (tr : list event),
    (validateFileType fileType = false ->
     analyzeDocument parse_url transport runtime_message
       fileBase64 fileName fileType apiKey endpoint modelId tr
     = (Ret (Failure unsupported_type_message),
        tr ++ [EvError route_error_label (Some (Error unsupported_type_message))])
     /\ fetch_count
          (snd (analyzeDocument parse_url transport runtime_message
                  fileBase64 fileName fileType apiKey endpoint modelId tr))
        = fetch_count tr)
    /\ (validateFileType fileType = true -> validateApiKey apiKey = false ->
        analyzeDocument parse_url transport runtime_message
          fileBase64 fileName fileType apiKey endpoint modelId tr
        = (Ret (Failure invalid_key_message),
           tr ++ [EvError route_error_label (Some (Error invalid_key_message))])
        /\ fetch_count
             (snd (analyzeDocument parse_url transport runtime_message
                     fileBase64 fileName fileType apiKey endpoint modelId tr))
           = fetch_count tr).
Proof.
  intros parse_url transport runtime_message
         fileBase64 fileName fileType apiKey endpoint modelId tr.
  split.
  - intros Hft.
    assert (Hrun : analyzeDocument parse_url transport runtime_message
                     fileBase64 fileName fileType apiKey endpoint modelId tr
                   = (Ret (Failure unsupported_type_message),
                      tr ++ [EvError route_error_label
                               (Some (Error unsupported_type_message))])).
    { unfold analyzeDocument, try_catchM. rewrite Hft. reflexivity. }
    split; [exact Hrun|]. rewrite Hrun. simpl.
    unfold fetch_count. rewrite List.filter_app, length_app. simpl. lia.
  - intros Hft Hkey.
    assert (Hrun : analyzeDocument parse_url transport runtime_message
                     fileBase64 fileName fileType apiKey endpoint modelId tr
                   = (Ret (Failure invalid_key_message),
                      tr ++ [EvError route_error_label
                               (Some (Error invalid_key_message))])).
    { unfold analyzeDocument, try_catchM. rewrite Hft, Hkey. reflexivity. }
    split; [exact Hrun|]. rewrite Hrun. simpl.
    unfold fetch_count. rewrite List.filter_app, length_app. simpl. lia.
Qed.

Lemma validation_precedes_network_witness :
  analyzeDocument https_only (scripted 1) no_runtime_message
    "QUJD" "form.gif" "image/gif" example_key example_endpoint "" []
  = (Ret (Failure unsupported_type_message),
     [EvError route_error_label (Some (Error unsupported_type_message))])
  /\ analyzeDocument https_only (scripted 1) no_runtime_message
       "QUJD" "form.png" "image/png" "not-a-key" example_endpoint "" []
     = (Ret (Failure invalid_key_message),
        [EvError route_error_label (Some (Error invalid_key_message))]).
Proof.
  split.
  - apply (proj1 (validation_precedes_network https_only (scripted 1) no_runtime_message
                    "QUJD" "form.gif" "image/gif" example_key example_endpoint "" [])).
    reflexivity.
  - apply (proj2 (validation_precedes_network https_only (scripted 1) no_runtime_message
                    "QUJD" "form.png" "image/png" "not-a-key" example_endpoint "" [])).
    + reflexivity.
    + reflexivity.
Defined.

(** ** The route: the polling protocol *)

Lemma run_bind {A B : Type} (m : M A) (f : A -> M B) (tr : list event) :
  (m ≫= f) tr
  = match m tr with
    | (Ret a, tr') => f a tr'
    | (Throw e, tr') => (Throw e, tr')
    | (Unmodelled, tr') => (Unmodelled, tr')
    end.
Proof. reflexivity. Qed.

Lemma run_ret {A : Type} (a : A) (tr : list event) :
  @mret M M_ret A a tr = (Ret a, tr).
Proof. reflexivity. Qed.

Lemma poll_events_S (location apiKey : string) (k : nat) :
  poll_events location apiKey (S k)
  = [EvDelay 1000; EvFetch (poll_request location apiKey)]
    ++ poll_events location apiKey k.
Proof. reflexivity. Qed.

Lemma fetch_count_snoc_delay (tr : list event) (ms : Z) :
  fetch_count (tr ++ [EvDelay ms]) = fetch_count tr.
Proof. rewrite fetch_count_app. unfold fetch_count at 2. simpl. lia. Qed.

Lemma fetch_count_snoc_fetch (tr : list event) (req : Request) :
  fetch_count (tr ++ [EvFetch req]) = S (fetch_count tr).
Proof. rewrite fetch_count_app. unfold fetch_count at 2. simpl. lia. Qed.

Lemma timer_and_transport_app (tr1 tr2 : list event) :
  timer_and_transport (tr1 ++ tr2) = timer_and_transport tr1 ++ timer_and_transport tr2.
Proof. apply List.filter_app. Qed.

Lemma calls_app (f : callee) (tr1 tr2 : list event) :
  calls f (tr1 ++ tr2) = (calls f tr1 + calls f tr2)%nat.
Proof. unfold calls. rewrite List.filter_app, length_app. reflexivity. Qed.

Lemma timer_and_transport_poll_events (location apiKey : string) (k : nat) :
  timer_and_transport (poll_events location apiKey k) = poll_events location apiKey k.
Proof.
  induction k as [|k IH]; [reflexivity|].
  rewrite poll_events_S, timer_and_transport_app, IH. reflexivity.
Qed.

Lemma calls_poll_events (f : callee) (location apiKey : string) (k : nat) :
  calls f (poll_events location apiKey k) = 0%nat.
Proof.
  induction k as [|k IH]; [reflexivity|].
  rewrite poll_events_S, calls_app, IH. destruct f; reflexivity.
Qed.

Lemma fetch_count_poll_events (location apiKey : string) (k : nat) :
  fetch_count (poll_events location apiKey k) = k.
Proof.
  induction k as [|k IH]; [reflexivity|].
  rewrite poll_events_S, fetch_count_app, IH. reflexivity.
Qed.

Section Protocol.

Variable parse_url : string -> option URL.
Variable transport : nat -> Request -> fetched.
Variable runtime_message : exn -> string.

Lemma raise_translated_run {A : Type} (r : Response) (tr : list event) :
  raise_translated (A := A) r tr
  = (Throw (Error (translation r (error_body r))), tr).
Proof.
  unfold raise_translated. rewrite run_bind. unfold lift.
  rewrite extractAzureErrorInfo_translation. reflexivity.
Qed.

(** One turn of the loop. *)
Lemma poll_S (n : nat) (location apiKey : string) (tr : list event) :
  poll transport (S n) location apiKey tr
  = match attempt_outcome
            (transport (fetch_count tr) (poll_request location apiKey)) with
    | Stop r =>
        (r, tr ++ [EvDelay 1000; EvFetch (poll_request location apiKey)])
    | Continue =>
        poll transport n location apiKey
          (tr ++ [EvDelay 1000; EvFetch (poll_request location apiKey)])
    end.
Proof.
  change (poll transport (S n) location apiKey)
    with (delay 1000;;
          statusResponse ← fetch transport (poll_request location apiKey);
          if negb (ok statusResponse) then raise_translated statusResponse
          else
            statusResult ← response_json statusResponse;
            st ← lift (get statusResult "status");
            if strict_eq_str st "succeeded" then mret statusResult
            else if strict_eq_str st "failed" then
              errors ← lift (get statusResult "errors");
              throw (Error ("分析に失敗しました: " +:+ stringify_text errors))
            else poll transport n location apiKey).
  rewrite run_bind. unfold delay, emit.
  rewrite run_bind. unfold fetch. rewrite fetch_count_snoc_delay.
  replace ((tr ++ [EvDelay 1000]) ++ [EvFetch (poll_request location apiKey)])
    with (tr ++ [EvDelay 1000; EvFetch (poll_request location apiKey)])
    by (rewrite <- app_assoc; reflexivity).
  unfold attempt_outcome.
  destruct (transport (fetch_count tr) (poll_request location apiKey)) as [r|];
    [|reflexivity].
  destruct (negb (ok r)); [apply raise_translated_run|].
  rewrite run_bind. unfold response_json.
  destruct (json_body r) as [body|]; [|reflexivity].
  unfold mret, M_ret. rewrite run_bind. unfold lift.
  destruct (get body "status") as [st| |]; [|reflexivity|reflexivity].
  destruct (strict_eq_str st "succeeded"); [reflexivity|].
  destruct (strict_eq_str st "failed"); [|reflexivity].
  rewrite run_bind. destruct (get body "errors"); reflexivity.
Qed.

(** Whatever the transport answers, the loop makes at most [n] attempts,
    each a delay followed by a GET. *)
Lemma poll_trace (location apiKey : string) (n : nat) : forall tr : list event,
  exists k : nat,
    (k <= n)%nat
    /\ snd (poll transport n location apiKey tr)
       = tr ++ poll_events location apiKey k.
Proof.
  induction n as [|n IH]; intros tr.
  - exists 0%nat. split; [lia|]. simpl. rewrite app_nil_r. reflexivity.
  - rewrite poll_S.
    destruct (attempt_outcome _).
    + destruct (IH (tr ++ [EvDelay 1000; EvFetch (poll_request location apiKey)]))
        as (k & Hk & Htr).
      exists (S k). split; [lia|]. rewrite Htr, poll_events_S, <- app_assoc.
      reflexivity.
    + exists 1%nat. split; [lia|]. reflexivity.
Qed.

(** Attempts that all go on: the loop ends after [n] of them, empty-handed. *)
Lemma poll_exhausted (location apiKey : string) (n : nat) : forall tr : list event,
  (forall j, (fetch_count tr <= j < fetch_count tr + n)%nat ->
             attempt_outcome (transport j (poll_request location apiKey)) = Continue) ->
  poll transport n location apiKey tr
  = (Ret VNull, tr ++ poll_events location apiKey n).
Proof.
  induction n as [|n IH]; intros tr Hall.
  - simpl. rewrite app_nil_r. reflexivity.
  - rewrite poll_S, (Hall (fetch_count tr)) by lia.
    rewrite IH.
    + rewrite poll_events_S, <- app_assoc. reflexivity.
    + intros j Hj. apply Hall.
      rewrite fetch_count_app in Hj. unfold fetch_count at 2 4 in Hj. simpl in Hj. lia.
Qed.

(** [m] attempts that go on, then one that stops: the loop ends there. *)
Lemma poll_stops (location apiKey : string) (r : res value) (m : nat) :
  forall (n : nat) (tr : list event),
    (m < n)%nat ->
    (forall j, (fetch_count tr <= j < fetch_count tr + m)%nat ->
               attempt_outcome (transport j (poll_request location apiKey)) = Continue) ->
    attempt_outcome (transport (fetch_count tr + m)%nat (poll_request location apiKey))
    = Stop r ->
    poll transport n location apiKey tr
    = (r, tr ++ poll_events location apiKey (S m)).
Proof.
  induction m as [|m IH]; intros n tr Hlt Hall Hstop.
  - destruct n as [|n]; [lia|]. rewrite poll_S.
    rewrite Nat.add_0_r in Hstop. rewrite Hstop. reflexivity.
  - destruct n as [|n]; [lia|]. rewrite poll_S, (Hall (fetch_count tr)) by lia.
    rewrite (IH n).
    + rewrite (poll_events_S _ _ (S m)), <- app_assoc. reflexivity.
    + lia.
    + intros j Hj. apply Hall.
      rewrite fetch_count_app in Hj. unfold fetch_count at 2 4 in Hj. simpl in Hj. lia.
    + rewrite fetch_count_app. unfold fetch_count at 2. simpl.
      replace (fetch_count tr + 1 + m)%nat with (fetch_count tr + S m)%nat by lia.
      exact Hstop.
Qed.

Lemma report_run (e : exn) (tr : list event) :
  report runtime_message e tr
  = (Ret (Failure (message_of runtime_message e)),
     tr ++ [EvError route_error_label (Some e)]).
Proof. reflexivity. Qed.

Lemma normalize_trace (endpoint : string) (tr : list event) :
  exists w, snd (normalizeAzureEndpoint parse_url endpoint tr) = tr ++ w
            /\ (w = [] \/ w = [EvWarn domain_warning]).
Proof.
  destruct endpoint as [|a s] eqn:E.
  - exists []. rewrite normalize_empty, app_nil_r. auto.
  - destruct (parse_url (String a s)) as [u|] eqn:Hu.
    + rewrite (normalize_parsed _ _ u tr) by (discriminate || exact Hu). simpl.
      destruct (includes (hostname u) "cognitiveservices.azure.com"); eauto.
    + rewrite normalize_unparsed by (discriminate || exact Hu).
      exists []. rewrite app_nil_r. auto.
Qed.

End Protocol.

Lemma extractText_run (v : value) (tr : list event) :
  extractTextFromAnalysisResult v tr
  = match text_body v with
    | Ret s => (Ret s, tr ++ [EvCall TextExtraction])
    | Throw e =>
        (Ret fallback_text,
         tr ++ [EvCall TextExtraction; EvError text_error_label (Some e)])
    | Unmodelled => (Unmodelled, tr ++ [EvCall TextExtraction])
    end.
Proof.
  unfold extractTextFromAnalysisResult. rewrite run_bind. unfold emit at 1.
  unfold try_catchM, lift.
  destruct (text_body v); try reflexivity.
  unfold console_error, emit. rewrite run_bind, <- app_assoc. reflexivity.
Qed.

Lemma extractStructured_run (v : value) (tr : list event) :
  extractStructuredData v tr
  = match structured_body v with
    | Ret d => (Ret d, tr ++ [EvCall StructuredExtraction])
    | Throw e =>
        (Ret VNull,
         tr ++ [EvCall StructuredExtraction; EvError structured_error_label None])
    | Unmodelled => (Unmodelled, tr ++ [EvCall StructuredExtraction])
    end.
Proof.
  unfold extractStructuredData. rewrite run_bind. unfold emit at 1.
  unfold try_catchM, lift.
  destruct (structured_body v); try reflexivity.
  unfold console_error, emit. rewrite run_bind, <- app_assoc. reflexivity.
Qed.

Lemma conclude_falsy (v : value) (tr : list event) :
  truthy v = false -> conclude v tr = (Throw (Error timeout_message), tr).
Proof. intros H. unfold conclude. rewrite run_bind, H. reflexivity. Qed.

(** After a success the two extractors run, each once, and nothing is
    thrown. *)
Lemma conclude_truthy (v : value) (tr : list event) :
  truthy v = true ->
  exists (out : res analysis) (evs : list event),
    conclude v tr = (out, tr ++ evs)
    /\ quiet evs
    /\ calls TextExtraction evs = 1%nat
    /\ (forall e, out <> Throw e)
    /\ (modelled (text_body v) -> exists c d, out = Ret (Success c d)).
Proof.
  intros H. unfold conclude. rewrite run_bind, H.
  change ((if negb true then throw (Error timeout_message) else mret ()) tr)
    with (Ret tt, tr).
  cbv iota. rewrite run_bind, extractText_run.
  pose proof (structured_body_modelled v) as Hs.
  destruct (text_body v) as [s|e|].
  - rewrite run_bind, extractStructured_run.
    destruct (structured_body v) as [d|e|]; [| |exfalso; apply Hs; reflexivity].
    + exists (Ret (Success s d)), [EvCall TextExtraction; EvCall StructuredExtraction].
      rewrite <- app_assoc. repeat split; try reflexivity; try discriminate; eauto.
    + exists (Ret (Success s VNull)),
        [EvCall TextExtraction; EvCall StructuredExtraction;
         EvError structured_error_label None].
      rewrite <- app_assoc. repeat split; try reflexivity; try discriminate; eauto.
  - rewrite run_bind, extractStructured_run.
    destruct (structured_body v) as [d|e'|]; [| |exfalso; apply Hs; reflexivity].
    + exists (Ret (Success fallback_text d)),
        [EvCall TextExtraction; EvError text_error_label (Some e);
         EvCall StructuredExtraction].
      rewrite <- app_assoc. repeat split; try reflexivity; try discriminate; eauto.
    + exists (Ret (Success fallback_text VNull)),
        [EvCall TextExtraction; EvError text_error_label (Some e);
         EvCall StructuredExtraction; EvError structured_error_label None].
      rewrite <- app_assoc. repeat split; try reflexivity; try discriminate; eauto.
  - exists Unmodelled, [EvCall TextExtraction].
    repeat split; try reflexivity; try discriminate.
    intros Hm. exfalso. apply Hm. reflexivity.
Qed.

Section Route.

Variable parse_url : string -> option URL.
Variable transport : nat -> Request -> fetched.
Variable runtime_message : exn -> string.

(** After a submission that went through, the run is the polling loop
    followed by the conclusion, under the [catch] of the function. *)
Lemma analyze_submitted
      (fileBase64 fileName fileType apiKey endpoint modelId location : string) :
  submitted parse_url transport fileBase64 fileType apiKey endpoint modelId location ->
  exists (tr0 : list event) (req : Request),
    quiet tr0 /\ fetch_count tr0 = 0%nat /\ (forall f, calls f tr0 = 0%nat)
    /\ req_method req = POST
    /\ analyzeDocument parse_url transport runtime_message
         fileBase64 fileName fileType apiKey endpoint modelId []
       = try_catchM
           (analysisResult ← poll transport maxAttempts location apiKey;
            conclude analysisResult)
           (report runtime_message)
           (tr0 ++ [EvFetch req]).
Proof.
  intros (Hft & Hkey & base & r & b & Hbase & Hsubmit & Hok & Hjson & Hloc & Hne).
  destruct (normalize_trace parse_url endpoint []) as (w & Hw & Hw').
  simpl in Hw.
  exists w, (submit_request (analyze_url base (effective_model modelId)) apiKey fileBase64).
  assert (Hq : quiet w) by (destruct Hw' as [->| ->]; reflexivity).
  assert (Hc : fetch_count w = 0%nat) by (destruct Hw' as [->| ->]; reflexivity).
  assert (Hcalls : forall f, calls f w = 0%nat)
    by (intros f; destruct Hw' as [->| ->]; destruct f; reflexivity).
  split; [exact Hq|]. split; [exact Hc|]. split; [exact Hcalls|].
  split; [reflexivity|].
  unfold analyzeDocument, try_catchM.
  rewrite Hft, Hkey. cbn [negb].
  rewrite run_bind, run_ret. cbv iota.
  rewrite run_bind, run_ret. cbv iota.
  cbv zeta. rewrite run_bind.
  destruct (normalizeAzureEndpoint parse_url endpoint []) as [out tr0] eqn:Hn.
  simpl in Hbase, Hw. subst out tr0.
  rewrite run_bind. unfold fetch at 1. rewrite Hc, Hsubmit.
  rewrite Hok. cbn [negb].
  rewrite run_bind. unfold response_json. rewrite Hjson, run_ret.
  cbv iota. rewrite Hloc.
  destruct location as [|a s]; [contradiction|].
  reflexivity.
Qed.

(** The loop and the conclusion: at most [maxAttempts] attempts, then
    events that are neither delays nor requests, among them at most one
    entry into the text extractor. *)
Lemma poll_conclude_shape (location apiKey : string) (tr : list event) :
  exists (k : nat) (evs : list event),
    (k <= maxAttempts)%nat
    /\ snd ((analysisResult ← poll transport maxAttempts location apiKey;
             conclude analysisResult) tr)
       = tr ++ poll_events location apiKey k ++ evs
    /\ quiet evs /\ (calls TextExtraction evs <= 1)%nat.
Proof.
  destruct (poll_trace transport location apiKey maxAttempts tr) as (k & Hk & Htr).
  rewrite run_bind.
  destruct (poll transport maxAttempts location apiKey tr) as [out tr'] eqn:Hp.
  simpl in Htr. subst tr'.
  destruct out as [v|e|].
  - destruct (truthy v) eqn:Hv.
    + destruct (conclude_truthy v (tr ++ poll_events location apiKey k) Hv)
        as (out & evs & Hrun & Hq & Hc & _).
      exists k, evs. rewrite Hrun. simpl. rewrite <- app_assoc.
      repeat split; auto. lia.
    + rewrite conclude_falsy by exact Hv.
      exists k, []. simpl. rewrite app_nil_r. repeat split; auto.
  - exists k, []. simpl. rewrite app_nil_r. repeat split; auto.
  - exists k, []. simpl. rewrite app_nil_r. repeat split; auto.
Qed.

Lemma catch_report_shape (m : M analysis) (tr : list event) :
  exists evs : list event,
    snd (try_catchM m (report runtime_message) tr) = snd (m tr) ++ evs
    /\ quiet evs /\ calls TextExtraction evs = 0%nat.
Proof.
  unfold try_catchM. destruct (m tr) as [[a|e|] tr'].
  - exists []. simpl. rewrite app_nil_r. repeat split.
  - exists [EvError route_error_label (Some e)]. rewrite report_run. repeat split.
  - exists []. simpl. rewrite app_nil_r. repeat split.
Qed.

(** Every run: the requests and delays are at most one POST followed by at
    most [maxAttempts] attempts, each a delay and then a GET; the text
    extractor is entered at most once. *)
Lemma analyze_shape
      (fileBase64 fileName fileType apiKey endpoint modelId : string)
      (tr : list event) :
  exists (pre : list event) (location : string) (k : nat),
    (k <= maxAttempts)%nat
    /\ (pre = [] \/ exists req, pre = [EvFetch req] /\ req_method req = POST)
    /\ timer_and_transport
         (snd (analyzeDocument parse_url transport runtime_message
                 fileBase64 fileName fileType apiKey endpoint modelId tr))
       = timer_and_transport tr ++ pre ++ poll_events location apiKey k
    /\ (calls TextExtraction
          (snd (analyzeDocument parse_url transport runtime_message
                  fileBase64 fileName fileType apiKey endpoint modelId tr))
        <= calls TextExtraction tr + 1)%nat.
Proof.
  unfold analyzeDocument.
  match goal with
  | |- context [try_catchM ?m _ _] => set (body := m)
  end.
  destruct (catch_report_shape body tr) as (evs & Hrun & Hq & Hc).
  rewrite Hrun. clear Hrun.
  assert (Hbody : exists (pre : list event) (location : string) (k : nat)
                         (rest : list event),
             (k <= maxAttempts)%nat
             /\ (pre = [] \/ exists req, pre = [EvFetch req] /\ req_method req = POST)
             /\ (exists w, snd (body tr)
                           = tr ++ w ++ pre ++ poll_events location apiKey k ++ rest
                           /\ quiet w /\ calls TextExtraction w = 0%nat)
             /\ quiet rest /\ (calls TextExtraction rest <= 1)%nat).
  { subst body.
    destruct (validateFileType fileType).
    2:{ exists [], "", 0%nat, []. split; [lia|]. split; [auto|]. split; [|split; [reflexivity|unfold calls; simpl; lia]].
        exists []. simpl. rewrite app_nil_r. repeat split. }
    cbn [negb]. rewrite run_bind, run_ret. cbv iota.
    destruct (validateApiKey apiKey).
    2:{ exists [], "", 0%nat, []. split; [lia|]. split; [auto|]. split; [|split; [reflexivity|unfold calls; simpl; lia]].
        exists []. simpl. rewrite app_nil_r. repeat split. }
    cbn [negb]. rewrite run_bind, run_ret. cbv iota. cbv zeta.
    rewrite run_bind.
    destruct (normalize_trace parse_url endpoint tr) as (w & Hw & Hw').
    assert (Hqw : quiet w) by (destruct Hw' as [->| ->]; reflexivity).
    assert (Hcw : calls TextExtraction w = 0%nat) by (destruct Hw' as [->| ->]; reflexivity).
    destruct (normalizeAzureEndpoint parse_url endpoint tr) as [out tr0].
    simpl in Hw. subst tr0.
    destruct out as [base|e|].
    2,3: (exists [], "", 0%nat, []; split; [lia|]; split; [auto|];
          split; [|split; [reflexivity|unfold calls; simpl; lia]];
          exists w; simpl; rewrite app_nil_r; repeat split; auto).
    rewrite run_bind. unfold fetch at 1.
    set (req := submit_request (analyze_url base (effective_model modelId)) apiKey fileBase64).
    assert (Hpre : [EvFetch req] = [] \/ exists r, [EvFetch req] = [EvFetch r] /\ req_method r = POST)
      by (right; exists req; split; reflexivity).
    assert (Hstop : forall (o : res analysis),
               exists (pre : list event) (location : string) (k : nat) (rest : list event),
                 (k <= maxAttempts)%nat
                 /\ (pre = [] \/ exists r, pre = [EvFetch r] /\ req_method r = POST)
                 /\ (exists w0, snd (o, (tr ++ w) ++ [EvFetch req])
                                = tr ++ w0 ++ pre ++ poll_events location apiKey k ++ rest
                                /\ quiet w0 /\ calls TextExtraction w0 = 0%nat)
                 /\ quiet rest /\ (calls TextExtraction rest <= 1)%nat).
    { intros o. exists [EvFetch req], "", 0%nat, []. split; [lia|]. split; [exact Hpre|].
      split; [|split; [reflexivity|unfold calls; simpl; lia]].
      exists w. simpl. rewrite <- app_assoc. repeat split; auto. }
    destruct (transport (fetch_count (tr ++ w)) req) as [r|]; [|apply Hstop].
    destruct (negb (ok r)); [rewrite raise_translated_run; apply Hstop|].
    rewrite run_bind. unfold response_json.
    destruct (json_body r) as [b|]; [|apply Hstop].
    rewrite run_ret. cbv iota.
    destruct (operationLocation r) as [location|]; [|apply Hstop].
    destruct (negb (truthy (VStr location))); [apply Hstop|].
    destruct (poll_conclude_shape location apiKey ((tr ++ w) ++ [EvFetch req]))
      as (k & rest & Hk & Hsnd & Hqr & Hcr).
    exists [EvFetch req], location, k, rest. split; [exact Hk|]. split; [exact Hpre|].
    split; [|split; assumption].
    exists w. rewrite Hsnd. rewrite <- !app_assoc. repeat split; auto. }
  destruct Hbody as (pre & location & k & rest & Hk & Hpre & (w & Hsnd & Hqw & Hcw) & Hqr & Hcr).
  exists pre, location, k. split; [exact Hk|]. split; [exact Hpre|].
  rewrite Hsnd. split.
  - rewrite !timer_and_transport_app.
    unfold quiet in Hq, Hqw, Hqr. rewrite Hq, Hqw, Hqr, !app_nil_r.
    rewrite timer_and_transport_poll_events.
    destruct Hpre as [->|(req & -> & _)]; reflexivity.
  - rewrite !calls_app, Hc, Hcw, calls_poll_events.
    assert (calls TextExtraction pre = 0%nat)
      by (destruct Hpre as [->|(req & -> & _)]; reflexivity).
    lia.
Qed.

End Route.

Lemma non_terminal_continues (r : Response) :
  non_terminal r -> attempt_outcome (Responded r) = Continue.
Proof.
  intros (Hok & body & st & Hjson & Hst & Hs & Hf).
  unfold attempt_outcome. rewrite Hok, Hjson, Hst, Hs, Hf. reflexivity.
Qed.

Lemma succeeded_stops (r : Response) (body : value) :
  succeeded r body ->
  attempt_outcome (Responded r) = Stop (Ret body) /\ truthy body = true.
Proof.
  intros (Hok & Hjson & Hst). split.
  - unfold attempt_outcome. rewrite Hok, Hjson, Hst. reflexivity.
  - destruct body; try discriminate; reflexivity.
Qed.

(** C1: every run makes at most 10 poll attempts, each a fixed delay
    followed by one GET, after at most one POST.  When the submission went
    through and the first poll answer with status "succeeded" is the [k]-th
    ([k <= 10]), all earlier ones being non-terminal, the run makes exactly
    [k] attempts and then enters the text extractor exactly once.  When the
    10 poll answers are all non-terminal, the run makes 10 attempts, fails
    with the timeout message and enters no extractor. *)
Theorem polling_protocol :
  (forall (parse_url : string -> option URL) (transport : nat -> Request -> fetched)
          (runtime_message : exn -> string)
          (fileBase64 fileName fileType apiKey endpoint modelId : string)
          (tr : list event),
     exists (pre : list event) (location : string) (k : nat),
       (k <= maxAttempts)%nat
       /\ (pre = [] \/ exists req, pre = [EvFetch req] /\ req_method req = POST)
       /\ timer_and_transport
            (snd (analyzeDocument parse_url transport runtime_message
                    fileBase64 fileName fileType apiKey endpoint modelId tr))
          = timer_and_transport tr ++ pre ++ poll_events location apiKey k
       /\ (calls TextExtraction
             (snd (analyzeDocument parse_url transport runtime_message
                     fileBase64 fileName fileType apiKey endpoint modelId tr))
           <= calls TextExtraction tr + 1)%nat)
  /\ (forall (parse_url : string -> option URL) (transport : nat -> Request -> fetched)
             (runtime_message : exn -> string)
             (fileBase64 fileName fileType apiKey endpoint modelId location : string)
             (k : nat) (body : value),
        submitted parse_url transport fileBase64 fileType apiKey endpoint modelId location ->
        (1 <= k <= maxAttempts)%nat ->
        (forall j, (1 <= j < k)%nat ->
           exists r, transport j (poll_request location apiKey) = Responded r
                     /\ non_terminal r) ->
        (exists r, transport k (poll_request location apiKey) = Responded r
                   /\ succeeded r body) ->
        exists (tr0 : list event) (req : Request) (evs : list event),
          snd (analyzeDocument parse_url transport runtime_message
                 fileBase64 fileName fileType apiKey endpoint modelId [])
          = tr0 ++ [EvFetch req] ++ poll_events location apiKey k ++ evs
          /\ req_method req = POST
          /\ quiet tr0 /\ calls TextExtraction tr0 = 0%nat
          /\ quiet evs /\ calls TextExtraction evs = 1%nat
          /\ (modelled (text_body body) ->
              exists content structured,
                fst (analyzeDocument parse_url transport runtime_message
                       fileBase64 fileName fileType apiKey endpoint modelId [])
                = Ret (Success content structured)))
  /\ (forall (parse_url : string -> option URL) (transport : nat -> Request -> fetched)
             (runtime_message : exn -> string)
             (fileBase64 fileName fileType apiKey endpoint modelId location : string),
        submitted parse_url transport fileBase64 fileType apiKey endpoint modelId location ->
        (forall j, (1 <= j <= maxAttempts)%nat ->
           exists r, transport j (poll_request location apiKey) = Responded r
                     /\ non_terminal r) ->
        exists (tr0 : list event) (req : Request),
          analyzeDocument parse_url transport runtime_message
            fileBase64 fileName fileType apiKey endpoint modelId []
          = (Ret (Failure timeout_message),
             tr0 ++ [EvFetch req] ++ poll_events location apiKey maxAttempts
                 ++ [EvError route_error_label (Some (Error timeout_message))])
          /\ req_method req = POST
          /\ quiet tr0
          /\ calls TextExtraction tr0 = 0%nat
          /\ calls StructuredExtraction tr0 = 0%nat).
Proof.
  split; [|split].
  - intros. apply analyze_shape.
  - intros parse_url transport runtime_message
           fileBase64 fileName fileType apiKey endpoint modelId location k body
           Hsub Hk Hrun Hdone.
    destruct (analyze_submitted parse_url transport runtime_message
                fileBase64 fileName fileType apiKey endpoint modelId location Hsub)
      as (tr0 & req & Hq0 & Hc0 & Hcalls0 & Hpost & Heq).
    rewrite Heq. clear Heq.
    destruct Hdone as (r & Hr & Hsucc).
    apply succeeded_stops in Hsucc as [Hstop Htruthy].
    assert (Hcount : fetch_count (tr0 ++ [EvFetch req]) = 1%nat)
      by (rewrite fetch_count_snoc_fetch, Hc0; reflexivity).
    assert (Hpoll : poll transport maxAttempts location apiKey (tr0 ++ [EvFetch req])
                    = (Ret body, (tr0 ++ [EvFetch req])
                                 ++ poll_events location apiKey (S (k - 1)))).
    { apply poll_stops.
      - lia.
      - intros j Hj. rewrite Hcount in Hj.
        destruct (Hrun j) as (rj & Hrj & Hnt); [lia|].
        rewrite Hrj. apply non_terminal_continues, Hnt.
      - rewrite Hcount. replace (1 + (k - 1))%nat with k by lia.
        rewrite Hr. exact Hstop. }
    replace (S (k - 1)) with k in Hpoll by lia.
    destruct (conclude_truthy body
                ((tr0 ++ [EvFetch req]) ++ poll_events location apiKey k) Htruthy)
      as (out & evs & Hconc & Hqe & Hce & Hnothrow & Hsuccess).
    exists tr0, req, evs.
    unfold try_catchM. rewrite run_bind, Hpoll, Hconc.
    assert (Htrace : snd (match out with
                          | Ret a => (Ret a, ((tr0 ++ [EvFetch req])
                                              ++ poll_events location apiKey k) ++ evs)
                          | Throw e => report runtime_message e
                                         (((tr0 ++ [EvFetch req])
                                           ++ poll_events location apiKey k) ++ evs)
                          | Unmodelled => (Unmodelled, ((tr0 ++ [EvFetch req])
                                              ++ poll_events location apiKey k) ++ evs)
                          end)
                     = tr0 ++ [EvFetch req] ++ poll_events location apiKey k ++ evs).
    { destruct out as [a|e|]; simpl; rewrite <- ?app_assoc; try reflexivity.
      exfalso. exact (Hnothrow e eq_refl). }
    split; [exact Htrace|]. split; [exact Hpost|]. split; [exact Hq0|].
    split; [apply Hcalls0|]. split; [exact Hqe|]. split; [exact Hce|].
    intros Hm. destruct (Hsuccess Hm) as (c & d & ->). exists c, d. reflexivity.
  - intros parse_url transport runtime_message
           fileBase64 fileName fileType apiKey endpoint modelId location Hsub Hrun.
    destruct (analyze_submitted parse_url transport runtime_message
                fileBase64 fileName fileType apiKey endpoint modelId location Hsub)
      as (tr0 & req & Hq0 & Hc0 & Hcalls0 & Hpost & Heq).
    rewrite Heq. clear Heq.
    assert (Hcount : fetch_count (tr0 ++ [EvFetch req]) = 1%nat)
      by (rewrite fetch_count_snoc_fetch, Hc0; reflexivity).
    assert (Hpoll : poll transport maxAttempts location apiKey (tr0 ++ [EvFetch req])
                    = (Ret VNull, (tr0 ++ [EvFetch req])
                                 ++ poll_events location apiKey maxAttempts)).
    { apply poll_exhausted. intros j Hj. rewrite Hcount in Hj.
      destruct (Hrun j) as (rj & Hrj & Hnt); [lia|].
      rewrite Hrj. apply non_terminal_continues, Hnt. }
    exists tr0, req.
    unfold try_catchM. rewrite run_bind, Hpoll.
    rewrite conclude_falsy by reflexivity. rewrite report_run.
    split; [|repeat split; auto].
    rewrite <- !app_assoc. reflexivity.
Qed.

Lemma example_submitted (k : nat) :
  submitted https_only (scripted k) "QUJD" "application/pdf" example_key
    example_endpoint "" "https://operations.example/1".
Proof.
  split; [reflexivity|]. split; [reflexivity|].
  exists "https://x.cognitiveservices.azure.com", accepted, (VObj []).
  repeat split; try reflexivity. discriminate.
Qed.

Lemma still_running_non_terminal : non_terminal still_running.
Proof.
  split; [reflexivity|].
  exists (VObj [("status", VStr "running")]), (VStr "running").
  repeat split; reflexivity.
Qed.

Lemma scripted_running (k j : nat) (req : Request) :
  (1 <= j)%nat -> j <> k -> scripted k j req = Responded still_running.
Proof.
  intros Hj Hne. unfold scripted. destruct j as [|j]; [lia|].
  replace (S j =? k)%nat with false by (symmetry; apply Nat.eqb_neq; exact Hne).
  reflexivity.
Qed.

Lemma polling_protocol_witness :
  (exists (tr0 : list event) (req : Request) (evs : list event),
     snd (analyzeDocument https_only (scripted 10) no_runtime_message
            "QUJD" "form.pdf" "application/pdf" example_key example_endpoint "" [])
     = tr0 ++ [EvFetch req]
           ++ poll_events "https://operations.example/1" example_key 10 ++ evs
     /\ req_method req = POST
     /\ quiet tr0 /\ calls TextExtraction tr0 = 0%nat
     /\ quiet evs /\ calls TextExtraction evs = 1%nat
     /\ (modelled (text_body (VObj [("status", VStr "succeeded"); ("analyzeResult", VObj [])])) ->
         exists content structured,
           fst (analyzeDocument https_only (scripted 10) no_runtime_message
                  "QUJD" "form.pdf" "application/pdf" example_key example_endpoint "" [])
           = Ret (Success content structured)))
  /\ (exists (tr0 : list event) (req : Request),
        analyzeDocument https_only (scripted 11) no_runtime_message
          "QUJD" "form.pdf" "application/pdf" example_key example_endpoint "" []
        = (Ret (Failure timeout_message),
           tr0 ++ [EvFetch req]
               ++ poll_events "https://operations.example/1" example_key maxAttempts
               ++ [EvError route_error_label (Some (Error timeout_message))])
        /\ req_method req = POST
        /\ quiet tr0
        /\ calls TextExtraction tr0 = 0%nat
        /\ calls StructuredExtraction tr0 = 0%nat).
Proof.
  split.
  - apply (proj1 (proj2 polling_protocol) https_only (scripted 10) no_runtime_message
             "QUJD" "form.pdf" "application/pdf" example_key example_endpoint ""
             "https://operations.example/1" 10%nat
             (VObj [("status", VStr "succeeded"); ("analyzeResult", VObj [])])).
    + apply example_submitted.
    + unfold maxAttempts. lia.
    + intros j Hj. exists still_running. split.
      * apply scripted_running; lia.
      * apply still_running_non_terminal.
    + exists finished. split; [reflexivity|]. repeat split; reflexivity.
  - apply (proj2 (proj2 polling_protocol) https_only (scripted 11) no_runtime_message
             "QUJD" "form.pdf" "application/pdf" example_key example_endpoint ""
             "https://operations.example/1").
    + apply example_submitted.
    + intros j Hj. exists still_running. split.
      * apply scripted_running; unfold maxAttempts in Hj; lia.
      * apply still_running_non_terminal.
Defined.

(** * Further properties *)

(** ** The route: how an analysis fails *)

Section Failures.

Variable parse_url : string -> option URL.
Variable transport : nat -> Request -> fetched.
Variable runtime_message : exn -> string.

Lemma validated_log (fileType apiKey endpoint base : string) (w : list event) :
  validated parse_url fileType apiKey endpoint base w ->
  quiet w /\ fetch_count w = 0%nat /\ (forall f, calls f w = 0%nat).
Proof.
  intros (_ & _ & Hn).
  destruct (normalize_trace parse_url endpoint []) as (w' & Hw & Hw').
  rewrite Hn in Hw. simpl in Hw. subst w'.
  destruct Hw' as [->| ->]; repeat split; try reflexivity; intros f; destruct f; reflexivity.
Qed.

(** After the validation the run is the submission and what follows it,
    under the [catch] of the function. *)
Lemma analyze_validated
      (fileBase64 fileName fileType apiKey endpoint modelId base : string)
      (w : list event) :
  validated parse_url fileType apiKey endpoint base w ->
  analyzeDocument parse_url transport runtime_message
    fileBase64 fileName fileType apiKey endpoint modelId []
  = try_catchM
      (response ← fetch transport
                    (submit_request (analyze_url base (effective_model modelId))
                       apiKey fileBase64);
       if negb (ok response) then raise_translated response
       else
         response_json response;;
         match operationLocation response with
         | None => throw (Error missing_location_message)
         | Some location =>
             if negb (truthy (VStr location)) then
               throw (Error missing_location_message)
             else
               analysisResult ← poll transport maxAttempts location apiKey;
               conclude analysisResult
         end)
      (report runtime_message) w.
Proof.
  intros (Hft & Hkey & Hn).
  unfold analyzeDocument, try_catchM.
  rewrite Hft, Hkey. cbn [negb].
  rewrite run_bind, run_ret. cbv iota.
  rewrite run_bind, run_ret. cbv iota.
  cbv zeta. rewrite run_bind, Hn. reflexivity.
Qed.

End Failures.

Section FailurePaths.

Variable parse_url : string -> option URL.
Variable transport : nat -> Request -> fetched.
Variable runtime_message : exn -> string.

Lemma fetch_submit_run (w : list event) (req : Request) :
  fetch_count w = 0%nat ->
  fetch transport req w
  = (match transport 0%nat req with
     | Responded r => Ret r
     | Rejected => Throw NetworkError
     end, w ++ [EvFetch req]).
Proof.
  intros Hw. unfold fetch. rewrite Hw. destruct (transport 0%nat req); reflexivity.
Qed.

(** After an accepted submission the run is the loop and the conclusion. *)
Lemma analyze_polling
      (fileBase64 fileName fileType apiKey endpoint modelId base location : string)
      (w : list event) (r : Response) :
  validated parse_url fileType apiKey endpoint base w ->
  transport 0%nat
    (submit_request (analyze_url base (effective_model modelId)) apiKey fileBase64)
  = Responded r ->
  accepted_with r location ->
  analyzeDocument parse_url transport runtime_message
    fileBase64 fileName fileType apiKey endpoint modelId []
  = try_catchM
      (analysisResult ← poll transport maxAttempts location apiKey;
       conclude analysisResult)
      (report runtime_message)
      (w ++ [EvFetch (submit_request (analyze_url base (effective_model modelId))
                        apiKey fileBase64)]).
Proof.
  intros Hv Hsub (Hok & (b & Hjson) & Hloc & Hne).
  rewrite (analyze_validated parse_url transport runtime_message
             fileBase64 fileName fileType apiKey endpoint modelId base w Hv).
  destruct (validated_log parse_url _ _ _ _ _ Hv) as (_ & Hc & _).
  unfold try_catchM. rewrite run_bind, fetch_submit_run by exact Hc.
  rewrite Hsub, Hok. cbn [negb].
  rewrite run_bind. unfold response_json. rewrite Hjson, run_ret. cbv iota.
  rewrite Hloc. destruct location as [|a s]; [contradiction|]. reflexivity.
Qed.

(** The loop ends at the first attempt that throws, and the function
    reports that error. *)
Lemma analyze_stops_on_error
      (fileBase64 fileName fileType apiKey endpoint modelId base location : string)
      (w : list event) (r : Response) (k : nat) (e : exn) :
  validated parse_url fileType apiKey endpoint base w ->
  transport 0%nat
    (submit_request (analyze_url base (effective_model modelId)) apiKey fileBase64)
  = Responded r ->
  accepted_with r location ->
  (1 <= k <= maxAttempts)%nat ->
  running_before transport location apiKey k ->
  attempt_outcome (transport k (poll_request location apiKey)) = Stop (Throw e) ->
  analyzeDocument parse_url transport runtime_message
    fileBase64 fileName fileType apiKey endpoint modelId []
  = (Ret (Failure (message_of runtime_message e)),
     w ++ [EvFetch (submit_request (analyze_url base (effective_model modelId))
                      apiKey fileBase64)]
       ++ poll_events location apiKey k
       ++ [EvError route_error_label (Some e)]).
Proof.
  intros Hv Hsub Hacc Hk Hrun Hstop.
  rewrite (analyze_polling fileBase64 fileName fileType apiKey endpoint modelId
             base location w r Hv Hsub Hacc).
  destruct (validated_log parse_url _ _ _ _ _ Hv) as (_ & Hc & _).
  set (req := submit_request (analyze_url base (effective_model modelId)) apiKey fileBase64).
  assert (Hcount : fetch_count (w ++ [EvFetch req]) = 1%nat)
    by (rewrite fetch_count_snoc_fetch, Hc; reflexivity).
  assert (Hpoll : poll transport maxAttempts location apiKey (w ++ [EvFetch req])
                  = (Throw e, (w ++ [EvFetch req])
                               ++ poll_events location apiKey (S (k - 1)))).
  { apply poll_stops.
    - lia.
    - intros j Hj. rewrite Hcount in Hj.
      destruct (Hrun j) as (rj & Hrj & Hnt); [lia|].
      rewrite Hrj. apply non_terminal_continues, Hnt.
    - rewrite Hcount. replace (1 + (k - 1))%nat with k by lia. exact Hstop. }
  replace (S (k - 1)) with k in Hpoll by lia.
  unfold try_catchM. rewrite run_bind, Hpoll, report_run.
  rewrite <- !app_assoc. reflexivity.
Qed.

End FailurePaths.

(** X1: a submission that the service refuses (any status outside 200..299)
    makes [analyzeDocument] return a failure whose message is what
    [extractAzureErrorInfo] makes of the answer; the run sends that one
    request, never waits or polls, and logs the error once. *)
Theorem submission_refused
        (parse_url : string -> option URL) (transport : nat -> Request -> fetched)
        (runtime_message : exn -> string)
        (fileBase64 fileName fileType apiKey endpoint modelId base : string)
        (w : list event) (r : Response) :
  validated parse_url fileType apiKey endpoint base w ->
  transport 0%nat
    (submit_request (analyze_url base (effective_model modelId)) apiKey fileBase64)
  = Responded r ->
  ok r = false ->
  exists message : string,
    extractAzureErrorInfo r (error_body r) = Ret message
    /\ analyzeDocument parse_url transport runtime_message
         fileBase64 fileName fileType apiKey endpoint modelId []
       = (Ret (Failure message),
          w ++ [EvFetch (submit_request (analyze_url base (effective_model modelId))
                           apiKey fileBase64);
                EvError route_error_label (Some (Error message))]).
Proof.
  intros Hv Hsub Hok.
  exists (translation r (error_body r)).
  split; [apply extractAzureErrorInfo_translation|].
  rewrite (analyze_validated parse_url transport runtime_message
             fileBase64 fileName fileType apiKey endpoint modelId base w Hv).
  destruct (validated_log parse_url _ _ _ _ _ Hv) as (_ & Hc & _).
  unfold try_catchM. rewrite run_bind, (fetch_submit_run transport) by exact Hc.
  rewrite Hsub, Hok. cbn [negb].
  rewrite raise_translated_run, report_run, <- app_assoc. reflexivity.
Qed.

Lemma submission_refused_witness :
  exists message : string,
    extractAzureErrorInfo unauthorized (error_body unauthorized) = Ret message
    /\ analyzeDocument https_only (always unauthorized) no_runtime_message
         "QUJD" "form.pdf" "application/pdf" example_key example_endpoint "" []
       = (Ret (Failure message),
          [] ++ [EvFetch example_submit;
                 EvError route_error_label (Some (Error message))]).
Proof.
  apply (submission_refused https_only (always unauthorized) no_runtime_message
           "QUJD" "form.pdf" "application/pdf" example_key example_endpoint ""
           "https://x.cognitiveservices.azure.com" [] unauthorized).
  - repeat split; reflexivity.
  - reflexivity.
  - reflexivity.
Defined.

(** X2: an accepted submission whose answer has no [Operation-Location]
    header, or an empty one, fails with the fixed message about the
    missing header; nothing is polled. *)
Theorem missing_operation_location
        (parse_url : string -> option URL) (transport : nat -> Request -> fetched)
        (runtime_message : exn -> string)
        (fileBase64 fileName fileType apiKey endpoint modelId base : string)
        (w : list event) (r : Response) (b : value) :
  validated parse_url fileType apiKey endpoint base w ->
  transport 0%nat
    (submit_request (analyze_url base (effective_model modelId)) apiKey fileBase64)
  = Responded r ->
  ok r = true ->
  json_body r = Some b ->
  operationLocation r = None \/ operationLocation r = Some "" ->
  analyzeDocument parse_url transport runtime_message
    fileBase64 fileName fileType apiKey endpoint modelId []
  = (Ret (Failure missing_location_message),
     w ++ [EvFetch (submit_request (analyze_url base (effective_model modelId))
                      apiKey fileBase64);
           EvError route_error_label (Some (Error missing_location_message))]).
Proof.
  intros Hv Hsub Hok Hjson Hloc.
  rewrite (analyze_validated parse_url transport runtime_message
             fileBase64 fileName fileType apiKey endpoint modelId base w Hv).
  destruct (validated_log parse_url _ _ _ _ _ Hv) as (_ & Hc & _).
  unfold try_catchM. rewrite run_bind, (fetch_submit_run transport) by exact Hc.
  rewrite Hsub, Hok. cbn [negb].
  rewrite run_bind. unfold response_json. rewrite Hjson, run_ret. cbv iota.
  destruct Hloc as [-> | ->];
    [|change (negb (truthy (VStr ""))) with true];
    unfold throw, lift; cbv beta iota;
    rewrite report_run, <- app_assoc; reflexivity.
Qed.

Lemma missing_operation_location_witness :
  analyzeDocument https_only (always no_handle) no_runtime_message
    "QUJD" "form.pdf" "application/pdf" example_key example_endpoint "" []
  = (Ret (Failure missing_location_message),
     [] ++ [EvFetch example_submit;
            EvError route_error_label (Some (Error missing_location_message))]).
Proof.
  apply (missing_operation_location https_only (always no_handle) no_runtime_message
           "QUJD" "form.pdf" "application/pdf" example_key example_endpoint ""
           "https://x.cognitiveservices.azure.com" [] no_handle (VObj [])).
  - repeat split; reflexivity.
  - reflexivity.
  - reflexivity.
  - reflexivity.
  - left. reflexivity.
Defined.

(** X3: the body of an accepted submission is parsed although its value is
    never used: when it is not JSON the run fails with the runtime's
    syntax error and polls nothing, even if the answer carries an
    [Operation-Location] handle. *)
Theorem unreadable_submission_body
        (parse_url : string -> option URL) (transport : nat -> Request -> fetched)
        (runtime_message : exn -> string)
        (fileBase64 fileName fileType apiKey endpoint modelId base : string)
        (w : list event) (r : Response) :
  validated parse_url fileType apiKey endpoint base w ->
  transport 0%nat
    (submit_request (analyze_url base (effective_model modelId)) apiKey fileBase64)
  = Responded r ->
  ok r = true ->
  json_body r = None ->
  analyzeDocument parse_url transport runtime_message
    fileBase64 fileName fileType apiKey endpoint modelId []
  = (Ret (Failure (runtime_message SyntaxError)),
     w ++ [EvFetch (submit_request (analyze_url base (effective_model modelId))
                      apiKey fileBase64);
           EvError route_error_label (Some SyntaxError)]).
Proof.
  intros Hv Hsub Hok Hjson.
  rewrite (analyze_validated parse_url transport runtime_message
             fileBase64 fileName fileType apiKey endpoint modelId base w Hv).
  destruct (validated_log parse_url _ _ _ _ _ Hv) as (_ & Hc & _).
  unfold try_catchM. rewrite run_bind, (fetch_submit_run transport) by exact Hc.
  rewrite Hsub, Hok. cbn [negb].
  rewrite run_bind. unfold response_json. rewrite Hjson.
  unfold throw, lift. cbv beta iota. rewrite report_run, <- app_assoc. reflexivity.
Qed.

Lemma unreadable_submission_body_witness :
  analyzeDocument https_only (always not_json) no_runtime_message
    "QUJD" "form.pdf" "application/pdf" example_key example_endpoint "" []
  = (Ret (Failure (no_runtime_message SyntaxError)),
     [] ++ [EvFetch example_submit;
            EvError route_error_label (Some SyntaxError)]).
Proof.
  apply (unreadable_submission_body https_only (always not_json) no_runtime_message
           "QUJD" "form.pdf" "application/pdf" example_key example_endpoint ""
           "https://x.cognitiveservices.azure.com" [] not_json).
  - repeat split; reflexivity.
  - reflexivity.
  - reflexivity.
  - reflexivity.
Defined.

(** X4: when poll [k] reports the status ["failed"], all earlier answers
    being non-terminal, the run stops after exactly [k] attempts and
    returns a failure whose message is the fixed prefix followed by the
    JSON text of the answer's [errors] field; no extractor is entered. *)
Theorem analysis_reported_failed
        (parse_url : string -> option URL) (transport : nat -> Request -> fetched)
        (runtime_message : exn -> string)
        (fileBase64 fileName fileType apiKey endpoint modelId base location : string)
        (w : list event) (r rk : Response) (k : nat) (body errors : value) :
  validated parse_url fileType apiKey endpoint base w ->
  transport 0%nat
    (submit_request (analyze_url base (effective_model modelId)) apiKey fileBase64)
  = Responded r ->
  accepted_with r location ->
  (1 <= k <= maxAttempts)%nat ->
  running_before transport location apiKey k ->
  transport k (poll_request location apiKey) = Responded rk ->
  ok rk = true ->
  json_body rk = Some body ->
  get body "status" = Ret (VStr "failed") ->
  get body "errors" = Ret errors ->
  analyzeDocument parse_url transport runtime_message
    fileBase64 fileName fileType apiKey endpoint modelId []
  = (Ret (Failure ("分析に失敗しました: " +:+ stringify_text errors)),
     w ++ [EvFetch (submit_request (analyze_url base (effective_model modelId))
                      apiKey fileBase64)]
       ++ poll_events location apiKey k
       ++ [EvError route_error_label
             (Some (Error ("分析に失敗しました: " +:+ stringify_text errors)))]).
Proof.
  intros Hv Hsub Hacc Hk Hrun Hrk Hok Hjson Hst Herr.
  apply (analyze_stops_on_error parse_url transport runtime_message
           fileBase64 fileName fileType apiKey endpoint modelId base location
           w r k (Error ("分析に失敗しました: " +:+ stringify_text errors))
           Hv Hsub Hacc Hk Hrun).
  unfold attempt_outcome. rewrite Hrk, Hok, Hjson, Hst. cbn [negb].
  change (strict_eq_str (VStr "failed") "succeeded") with false.
  change (strict_eq_str (VStr "failed") "failed") with true.
  cbv iota. rewrite Herr. reflexivity.
Qed.

Lemma analysis_reported_failed_witness :
  analyzeDocument https_only (scripted_with failed_answer 3) no_runtime_message
    "QUJD" "form.pdf" "application/pdf" example_key example_endpoint "" []
  = (Ret (Failure ("分析に失敗しました: "
                   +:+ stringify_text (VArr [VStr "InvalidContent"]))),
     [] ++ [EvFetch example_submit]
        ++ poll_events "https://operations.example/1" example_key 3
        ++ [EvError route_error_label
              (Some (Error ("分析に失敗しました: "
                            +:+ stringify_text (VArr [VStr "InvalidContent"]))))]).
Proof.
  apply (analysis_reported_failed https_only (scripted_with failed_answer 3)
           no_runtime_message
           "QUJD" "form.pdf" "application/pdf" example_key example_endpoint ""
           "https://x.cognitiveservices.azure.com" "https://operations.example/1"
           [] accepted failed_answer 3%nat
           (VObj [("status", VStr "failed");
                  ("errors", VArr [VStr "InvalidContent"])])
           (VArr [VStr "InvalidContent"])).
  - repeat split; reflexivity.
  - reflexivity.
  - repeat split; try reflexivity; [eexists; reflexivity | discriminate].
  - unfold maxAttempts. lia.
  - intros j Hj. exists still_running. split.
    + unfold scripted_with. destruct j as [|j]; [lia|].
      replace (S j =? 3)%nat with false by (symmetry; apply Nat.eqb_neq; lia).
      reflexivity.
    + split; [reflexivity|].
      exists (VObj [("status", VStr "running")]), (VStr "running").
      repeat split; reflexivity.
  - reflexivity.
  - reflexivity.
  - reflexivity.
  - reflexivity.
  - reflexivity.
Defined.

(** X5: when poll [k] is answered with a status outside 200..299, all
    earlier answers being non-terminal, the run stops after exactly [k]
    attempts, without retrying, and returns a failure whose message is
    what [extractAzureErrorInfo] makes of that answer. *)
Theorem poll_refused
        (parse_url : string -> option URL) (transport : nat -> Request -> fetched)
        (runtime_message : exn -> string)
        (fileBase64 fileName fileType apiKey endpoint modelId base location : string)
        (w : list event) (r rk : Response) (k : nat) :
  validated parse_url fileType apiKey endpoint base w ->
  transport 0%nat
    (submit_request (analyze_url base (effective_model modelId)) apiKey fileBase64)
  = Responded r ->
  accepted_with r location ->
  (1 <= k <= maxAttempts)%nat ->
  running_before transport location apiKey k ->
  transport k (poll_request location apiKey) = Responded rk ->
  ok rk = false ->
  exists message : string,
    extractAzureErrorInfo rk (error_body rk) = Ret message
    /\ analyzeDocument parse_url transport runtime_message
         fileBase64 fileName fileType apiKey endpoint modelId []
       = (Ret (Failure message),
          w ++ [EvFetch (submit_request (analyze_url base (effective_model modelId))
                           apiKey fileBase64)]
            ++ poll_events location apiKey k
            ++ [EvError route_error_label (Some (Error message))]).
Proof.
  intros Hv Hsub Hacc Hk Hrun Hrk Hok.
  exists (translation rk (error_body rk)).
  split; [apply extractAzureErrorInfo_translation|].
  apply (analyze_stops_on_error parse_url transport runtime_message
           fileBase64 fileName fileType apiKey endpoint modelId base location
           w r k (Error (translation rk (error_body rk)))
           Hv Hsub Hacc Hk Hrun).
  unfold attempt_outcome. rewrite Hrk, Hok. reflexivity.
Qed.

Lemma poll_refused_witness :
  exists message : string,
    extractAzureErrorInfo unavailable (error_body unavailable) = Ret message
    /\ analyzeDocument https_only (scripted_with unavailable 2) no_runtime_message
         "QUJD" "form.pdf" "application/pdf" example_key example_endpoint "" []
       = (Ret (Failure message),
          [] ++ [EvFetch example_submit]
             ++ poll_events "https://operations.example/1" example_key 2
             ++ [EvError route_error_label (Some (Error message))]).
Proof.
  apply (poll_refused https_only (scripted_with unavailable 2) no_runtime_message
           "QUJD" "form.pdf" "application/pdf" example_key example_endpoint ""
           "https://x.cognitiveservices.azure.com" "https://operations.example/1"
           [] accepted unavailable 2%nat).
  - repeat split; reflexivity.
  - reflexivity.
  - repeat split; try reflexivity; [eexists; reflexivity | discriminate].
  - unfold maxAttempts. lia.
  - intros j Hj. exists still_running. split.
    + unfold scripted_with. destruct j as [|j]; [lia|].
      replace (S j =? 2)%nat with false by (symmetry; apply Nat.eqb_neq; lia).
      reflexivity.
    + split; [reflexivity|].
      exists (VObj [("status", VStr "running")]), (VStr "running").
      repeat split; reflexivity.
  - reflexivity.
  - reflexivity.
Defined.

(** ** The route: every failure is a returned value *)

Lemma run_bind_Ret {A B : Type} (m : M A) (f : A -> M B) (tr tr' : list event) (b : B) :
  (m ≫= f) tr = (Ret b, tr') ->
  exists a tr1, m tr = (Ret a, tr1) /\ f a tr1 = (Ret b, tr').
Proof.
  rewrite run_bind. destruct (m tr) as [[a|e|] tr1]; intros H; try discriminate.
  exists a, tr1. split; [reflexivity|exact H].
Qed.

Lemma conclude_Ret (v : value) (tr tr' : list event) (a : analysis) :
  conclude v tr = (Ret a, tr') -> exists c d, a = Success c d.
Proof.
  unfold conclude. intros H.
  apply run_bind_Ret in H as (u & tr1 & _ & H).
  apply run_bind_Ret in H as (c & tr2 & _ & H).
  apply run_bind_Ret in H as (d & tr3 & _ & H).
  rewrite run_ret in H. injection H as <- _. eauto.
Qed.

Section Outcome.

Variable parse_url : string -> option URL.
Variable transport : nat -> Request -> fetched.
Variable runtime_message : exn -> string.

Lemma analyze_outcome
      (fileBase64 fileName fileType apiKey endpoint modelId : string)
      (tr : list event) :
  exists (out : res analysis) (tr' : list event),
    analyzeDocument parse_url transport runtime_message
      fileBase64 fileName fileType apiKey endpoint modelId tr = (out, tr')
    /\ (out = Unmodelled
        \/ (exists c d, out = Ret (Success c d))
        \/ (exists e tr1, out = Ret (Failure (message_of runtime_message e))
                          /\ tr' = tr1 ++ [EvError route_error_label (Some e)])).
Proof.
  unfold analyzeDocument, try_catchM.
  match goal with |- context [match ?m tr with _ => _ end] => destruct (m tr) as [[a|e|] tr1] eqn:Hbody end.
  - exists (Ret a), tr1. split; [reflexivity|]. right. left.
    apply run_bind_Ret in Hbody as (u1 & t1 & _ & Hbody).
    apply run_bind_Ret in Hbody as (u2 & t2 & _ & Hbody).
    cbv zeta in Hbody.
    apply run_bind_Ret in Hbody as (base & t3 & _ & Hbody).
    apply run_bind_Ret in Hbody as (response & t4 & _ & Hbody).
    destruct (negb (ok response)).
    + rewrite raise_translated_run in Hbody. discriminate.
    + apply run_bind_Ret in Hbody as (b & t5 & _ & Hbody).
      destruct (operationLocation response) as [location|]; [|discriminate].
      destruct (negb (truthy (VStr location))); [discriminate|].
      apply run_bind_Ret in Hbody as (v & t6 & _ & Hbody).
      apply conclude_Ret in Hbody as (c & d & ->). eauto.
  - exists (Ret (Failure (message_of runtime_message e))),
      (tr1 ++ [EvError route_error_label (Some e)]).
    split; [apply report_run|]. right. right. eauto.
  - exists Unmodelled, tr1. split; [reflexivity|]. left. reflexivity.
Qed.

End Outcome.

(** ** The handler of the route *)

Lemma get_field (body : value) (k : string) :
  body <> VNull -> body <> VUndef -> get body k = Ret (field body k).
Proof. intros Hn Hu. unfold field. destruct body; try reflexivity; contradiction. Qed.

Lemma as_text_run (v : value) (tr : list event) :
  as_text v tr = (match v with VStr s => Ret s | _ => Unmodelled end, tr).
Proof. destruct v; reflexivity. Qed.

Section HandlerRuns.

Variable parse_url : string -> option URL.
Variable transport : nat -> Request -> fetched.
Variable runtime_message : exn -> string.

(** The handler after the destructuring of a body that has fields. *)
Lemma POST_fields (body : value) (tr : list event) :
  body <> VNull -> body <> VUndef ->
  POST_handler parse_url transport runtime_message (Some body) tr
  = try_catchM
      (match incomplete body with
       | Some message => mret (error_response 400 message)
       | None =>
           base64 ← as_text (field body "fileBase64");
           name ← as_text (field body "fileName");
           type ← as_text (field body "fileType");
           key ← as_text (field body "azureApiKey");
           endpoint ← as_text (field body "azureEndpoint");
           model ← as_text (or_else (field body "modelId") (VStr default_model));
           analysisResult ←
             analyzeDocument parse_url transport runtime_message
               base64 name type key endpoint model;
           match analysisResult with
           | Failure error => mret (error_response 500 error)
           | Success extractedText _ =>
               mret (mkHttpResponse 200
                       (VObj [("content", VStr extractedText);
                              ("formattedContent",
                               if truthy (field body "gemmaModelPath")
                                  && truthy (VStr extractedText)
                               then VStr (formatTextWithGemma extractedText)
                               else VNull)]))
           end
       end)
      (fun error =>
         console_error handler_error_label (Some error);;
         message ← lift (humanizeErrorMessage runtime_message (Instance error));
         mret (error_response 500 message))
      tr.
Proof.
  intros Hn Hu. unfold POST_handler, try_catchM.
  rewrite run_bind, run_ret. cbv iota.
  do 7 (rewrite run_bind; unfold lift at 1; rewrite get_field by assumption; cbv iota).
  unfold incomplete.
  destruct (negb (truthy (field body "fileBase64")) || negb (truthy (field body "fileName"))
            || negb (truthy (field body "fileType"))); [reflexivity|].
  destruct (negb (truthy (field body "azureApiKey"))
            || negb (truthy (field body "azureEndpoint"))); reflexivity.
Qed.

(** What the handler answers once the request is complete. *)
Lemma POST_complete (body : value) (tr : list event) :
  body <> VNull -> body <> VUndef -> incomplete body = None ->
  exists (out : res HttpResponse) (tr' : list event),
    POST_handler parse_url transport runtime_message (Some body) tr = (out, tr')
    /\ (out = Unmodelled
        \/ (exists resp, out = Ret resp /\ is_content_response resp)
        \/ (exists resp, out = Ret resp /\ is_error_response resp 500)).
Proof.
  intros Hn Hu Hc. rewrite POST_fields by assumption. rewrite Hc.
  unfold try_catchM.
  rewrite run_bind, as_text_run.
  destruct (field body "fileBase64") as [| | | |base64| |];
    try (eexists _, _; split; [reflexivity|left; reflexivity]).
  rewrite run_bind, as_text_run.
  destruct (field body "fileName") as [| | | |name| |];
    try (eexists _, _; split; [reflexivity|left; reflexivity]).
  rewrite run_bind, as_text_run.
  destruct (field body "fileType") as [| | | |type| |];
    try (eexists _, _; split; [reflexivity|left; reflexivity]).
  rewrite run_bind, as_text_run.
  destruct (field body "azureApiKey") as [| | | |key| |];
    try (eexists _, _; split; [reflexivity|left; reflexivity]).
  rewrite run_bind, as_text_run.
  destruct (field body "azureEndpoint") as [| | | |endpoint| |];
    try (eexists _, _; split; [reflexivity|left; reflexivity]).
  rewrite run_bind, as_text_run.
  destruct (or_else (field body "modelId") (VStr default_model)) as [| | | |model| |];
    try (eexists _, _; split; [reflexivity|left; reflexivity]).
  rewrite run_bind.
  destruct (analyze_outcome parse_url transport runtime_message
              base64 name type key endpoint model tr)
    as (out & tr' & -> & [->|[(c & d & ->)|(e & tr1 & -> & _)]]).
  - eexists _, _; split; [reflexivity|left; reflexivity].
  - eexists _, _; split; [reflexivity|]. right. left.
    eexists. split; [reflexivity|].
    eexists _, _. split; [reflexivity|].
    destruct (truthy (field body "gemmaModelPath") && truthy (VStr c)); auto.
  - eexists _, _; split; [reflexivity|]. right. right.
    eexists. split; [reflexivity|]. eexists. reflexivity.
Qed.

End HandlerRuns.

(** X7: a request body that lacks [fileBase64], [fileName] or [fileType]
    is answered with status 400 and the message about the file, one that
    has them but lacks [azureApiKey] or [azureEndpoint] with status 400
    and the message about the credentials; in both cases nothing is sent,
    awaited or logged.  No other request is answered with status 400. *)
Theorem POST_bad_request
        (parse_url : string -> option URL) (transport : nat -> Request -> fetched)
        (runtime_message : exn -> string) (body : value) (tr : list event) :
  body <> VNull -> body <> VUndef ->
  (forall message, incomplete body = Some message ->
     POST_handler parse_url transport runtime_message (Some body) tr
     = (Ret (error_response 400 message), tr))
  /\ (incomplete body = None ->
      forall resp,
        fst (POST_handler parse_url transport runtime_message (Some body) tr) = Ret resp ->
        http_status resp <> 400).
Proof.
  intros Hn Hu. split.
  - intros message Hm. rewrite POST_fields by assumption. rewrite Hm. reflexivity.
  - intros Hc resp Hresp.
    destruct (POST_complete parse_url transport runtime_message body tr Hn Hu Hc)
      as (out & tr' & Hrun & Hout).
    rewrite Hrun in Hresp. simpl in Hresp. subst out.
    destruct Hout as [H|[(r & H & (c & f & -> & _))|(r & H & (m & ->))]];
      try discriminate; injection H as ->; simpl; lia.
Qed.

Lemma POST_bad_request_witness :
  (forall message,
     incomplete (VObj [("fileBase64", VStr "QUJD"); ("fileName", VStr "form.pdf")])
     = Some message ->
     POST_handler https_only (always unauthorized) no_runtime_message
       (Some (VObj [("fileBase64", VStr "QUJD"); ("fileName", VStr "form.pdf")])) []
     = (Ret (error_response 400 message), []))
  /\ (incomplete (VObj [("fileBase64", VStr "QUJD"); ("fileName", VStr "form.pdf")])
      = None ->
      forall resp,
        fst (POST_handler https_only (always unauthorized) no_runtime_message
               (Some (VObj [("fileBase64", VStr "QUJD"); ("fileName", VStr "form.pdf")])) [])
        = Ret resp ->
        http_status resp <> 400).
Proof.
  apply (POST_bad_request https_only (always unauthorized) no_runtime_message
           (VObj [("fileBase64", VStr "QUJD"); ("fileName", VStr "form.pdf")]) []);
    discriminate.
Defined.

Lemma upload_complete (fileBase64 fileName fileType apiKey endpoint : string)
      (modelId gemmaModelPath : value) :
  fileBase64 <> "" -> fileName <> "" -> fileType <> "" ->
  apiKey <> "" -> endpoint <> "" ->
  incomplete (upload fileBase64 fileName fileType apiKey endpoint modelId gemmaModelPath)
  = None.
Proof.
  intros H1 H2 H3 H4 H5. unfold incomplete, upload, field. simpl.
  apply String.eqb_neq in H1, H2, H3, H4, H5.
  rewrite H1, H2, H3, H4, H5. reflexivity.
Qed.

Lemma POST_upload
      (parse_url : string -> option URL) (transport : nat -> Request -> fetched)
      (runtime_message : exn -> string)
      (fileBase64 fileName fileType apiKey endpoint model : string)
      (modelId gemmaModelPath : value) (tr : list event) :
  fileBase64 <> "" -> fileName <> "" -> fileType <> "" ->
  apiKey <> "" -> endpoint <> "" ->
  or_else modelId (VStr default_model) = VStr model ->
  POST_handler parse_url transport runtime_message
    (Some (upload fileBase64 fileName fileType apiKey endpoint modelId gemmaModelPath)) tr
  = try_catchM
      (analysisResult ←
         analyzeDocument parse_url transport runtime_message
           fileBase64 fileName fileType apiKey endpoint model;
       match analysisResult with
       | Failure error => mret (error_response 500 error)
       | Success extractedText _ =>
           mret (mkHttpResponse 200
                   (VObj [("content", VStr extractedText);
                          ("formattedContent",
                           if truthy gemmaModelPath && truthy (VStr extractedText)
                           then VStr (formatTextWithGemma extractedText)
                           else VNull)]))
       end)
      (fun error =>
         console_error handler_error_label (Some error);;
         message ← lift (humanizeErrorMessage runtime_message (Instance error));
         mret (error_response 500 message))
      tr.
Proof.
  intros H1 H2 H3 H4 H5 Hm.
  rewrite POST_fields by discriminate.
  rewrite upload_complete by assumption.
  unfold try_catchM.
  change (field (upload fileBase64 fileName fileType apiKey endpoint modelId gemmaModelPath)
            "fileBase64") with (VStr fileBase64).
  change (field (upload fileBase64 fileName fileType apiKey endpoint modelId gemmaModelPath)
            "fileName") with (VStr fileName).
  change (field (upload fileBase64 fileName fileType apiKey endpoint modelId gemmaModelPath)
            "fileType") with (VStr fileType).
  change (field (upload fileBase64 fileName fileType apiKey endpoint modelId gemmaModelPath)
            "azureApiKey") with (VStr apiKey).
  change (field (upload fileBase64 fileName fileType apiKey endpoint modelId gemmaModelPath)
            "azureEndpoint") with (VStr endpoint).
  change (field (upload fileBase64 fileName fileType apiKey endpoint modelId gemmaModelPath)
            "modelId") with modelId.
  change (field (upload fileBase64 fileName fileType apiKey endpoint modelId gemmaModelPath)
            "gemmaModelPath") with gemmaModelPath.
  rewrite Hm.
  do 6 (rewrite run_bind, as_text_run; cbv iota).
  reflexivity.
Qed.

(** X9: for a request with all five required fields, the handler answers
    with what [analyzeDocument] returns for those fields and for the
    model of the request (the layout model when the request names none),
    and adds no event of its own: a failure becomes status 500 with the
    failure's message; a success becomes status 200 with the content,
    the structured data is dropped, and [formattedContent] is the
    formatted content when a model path was given and the content is not
    empty, [null] otherwise. *)
Theorem POST_relays_analysis
        (parse_url : string -> option URL) (transport : nat -> Request -> fetched)
        (runtime_message : exn -> string)
        (fileBase64 fileName fileType apiKey endpoint model : string)
        (modelId gemmaModelPath : value) (tr tr' : list event) (a : analysis) :
  fileBase64 <> "" -> fileName <> "" -> fileType <> "" ->
  apiKey <> "" -> endpoint <> "" ->
  or_else modelId (VStr default_model) = VStr model ->
  analyzeDocument parse_url transport runtime_message
    fileBase64 fileName fileType apiKey endpoint model tr = (Ret a, tr') ->
  POST_handler parse_url transport runtime_message
    (Some (upload fileBase64 fileName fileType apiKey endpoint modelId gemmaModelPath)) tr
  = (Ret match a with
         | Failure error => error_response 500 error
         | Success content _ =>
             mkHttpResponse 200
               (VObj [("content", VStr content);
                      ("formattedContent",
                       if truthy gemmaModelPath && negb (String.eqb content "")
                       then VStr (formatTextWithGemma content)
                       else VNull)])
         end,
     tr').
Proof.
  intros H1 H2 H3 H4 H5 Hm Ha.
  rewrite (POST_upload parse_url transport runtime_message
             fileBase64 fileName fileType apiKey endpoint model modelId gemmaModelPath tr)
    by assumption.
  unfold try_catchM. rewrite run_bind, Ha. destruct a; reflexivity.
Qed.

Lemma POST_relays_analysis_witness :
  POST_handler https_only (scripted 2) no_runtime_message
    (Some (upload "QUJD" "form.pdf" "application/pdf" example_key example_endpoint
             VUndef (VStr "/models/gemma"))) []
  = (Ret match Success "" (VObj [("pages", VArr []); ("tables", VArr []);
                                 ("keyValuePairs", VArr [])]) with
         | Failure error => error_response 500 error
         | Success content _ =>
             mkHttpResponse 200
               (VObj [("content", VStr content);
                      ("formattedContent",
                       if truthy (VStr "/models/gemma") && negb (String.eqb content "")
                       then VStr (formatTextWithGemma content)
                       else VNull)])
         end,
     [EvFetch example_submit]
       ++ poll_events "https://operations.example/1" example_key 2
       ++ [EvCall TextExtraction; EvCall StructuredExtraction]).
Proof.
  apply (POST_relays_analysis https_only (scripted 2) no_runtime_message
           "QUJD" "form.pdf" "application/pdf" example_key example_endpoint
           "prebuilt-layout" VUndef (VStr "/models/gemma") []);
    try discriminate; reflexivity.
Defined.

(** X10: a complete request whose file type is not supported, or whose
    API key is malformed, is answered with status 500 (not 400) and the
    message of the validation; nothing is sent to the service, and the
    error is logged once, by [analyzeDocument]. *)
Theorem POST_validation_failure
        (parse_url : string -> option URL) (transport : nat -> Request -> fetched)
        (runtime_message : exn -> string)
        (fileBase64 fileName fileType apiKey endpoint model : string)
        (modelId gemmaModelPath : value) (tr : list event) :
  fileBase64 <> "" -> fileName <> "" -> fileType <> "" ->
  apiKey <> "" -> endpoint <> "" ->
  or_else modelId (VStr default_model) = VStr model ->
  validateFileType fileType = false \/ validateApiKey apiKey = false ->
  POST_handler parse_url transport runtime_message
    (Some (upload fileBase64 fileName fileType apiKey endpoint modelId gemmaModelPath)) tr
  = (Ret (error_response 500
            (if validateFileType fileType then invalid_key_message
             else unsupported_type_message)),
     tr ++ [EvError route_error_label
              (Some (Error (if validateFileType fileType then invalid_key_message
                            else unsupported_type_message)))]).
Proof.
  intros H1 H2 H3 H4 H5 Hm Hbad.
  rewrite (POST_upload parse_url transport runtime_message
             fileBase64 fileName fileType apiKey endpoint model modelId gemmaModelPath tr)
    by assumption.
  unfold try_catchM. rewrite run_bind.
  unfold analyzeDocument, try_catchM. rewrite run_bind.
  destruct (validateFileType fileType) eqn:Hft.
  - destruct Hbad as [Hbad|Hbad]; [discriminate|]. rewrite Hbad.
    cbn [negb]. rewrite run_ret. cbv iota. rewrite run_bind.
    unfold throw, lift. cbv beta iota. rewrite report_run. reflexivity.
  - cbn [negb]. unfold throw, lift. cbv beta iota. rewrite report_run. reflexivity.
Qed.

Lemma POST_validation_failure_witness :
  POST_handler https_only (always unauthorized) no_runtime_message
    (Some (upload "QUJD" "notes.txt" "text/plain" example_key example_endpoint
             VUndef VUndef)) []
  = (Ret (error_response 500
            (if validateFileType "text/plain" then invalid_key_message
             else unsupported_type_message)),
     [] ++ [EvError route_error_label
              (Some (Error (if validateFileType "text/plain" then invalid_key_message
                            else unsupported_type_message)))]).
Proof.
  apply (POST_validation_failure https_only (always unauthorized) no_runtime_message
           "QUJD" "notes.txt" "text/plain" example_key example_endpoint
           "prebuilt-layout" VUndef VUndef []);
    try discriminate; try reflexivity.
  left. reflexivity.
Defined.

(** ** The text extractor on a whole document *)

Lemma foldM_line_step (ls : list value) (lines : list string) :
  Forall2 line_is ls lines ->
  forall text, foldM line_step text ls = Ret (text +:+ render_lines lines).
Proof.
  induction 1 as [|line s ls lines (cv & Hc & Hs) _ IH]; intros text.
  - simpl. rewrite append_empty_r. reflexivity.
  - rewrite foldM_cons. unfold line_step at 2. rewrite Hc. simpl.
    unfold interpolate. rewrite Hs. simpl. rewrite IH, !append_assoc. reflexivity.
Qed.

Lemma page_step_render (text : string) (page : value) (p : page_text) :
  page_is page p -> page_step text page = Ret (text +:+ render_page p).
Proof.
  intros (Hn & lv & ls & Hl & Hlv & Hls).
  unfold page_step. rewrite Hn. simpl. rewrite Hl. simpl. rewrite Hlv. simpl.
  rewrite (foldM_line_step ls p.2 Hls). simpl.
  unfold render_page. rewrite !append_assoc. reflexivity.
Qed.

Lemma foldM_page_step (ps : list value) (pages : list page_text) :
  Forall2 page_is ps pages ->
  forall text, foldM page_step text ps = Ret (text +:+ render_pages pages).
Proof.
  induction 1 as [|page p ps pages Hp _ IH]; intros text.
  - simpl. rewrite append_empty_r. reflexivity.
  - rewrite foldM_cons, (page_step_render text page p Hp). simpl.
    rewrite IH, append_assoc. reflexivity.
Qed.

Lemma or_else_count (z : Z) : or_else (VNum z) (VNum 0) = VNum z.
Proof.
  unfold or_else. simpl. destruct (z =? 0) eqn:E; [|reflexivity].
  apply Z.eqb_eq in E. subst. reflexivity.
Qed.

Lemma table_step_render (text : string) (i : Z) (table : value) (t : table_cells) :
  table_is table t ->
  table_step (text, i) table
  = Ret (text +:+ table_header i +:+ render_grid (dense_grid t.1.1 t.1.2 t.2) +:+ LF,
         i + 1).
Proof.
  destruct t as [[R C] cells]. simpl.
  intros (HR & HC & HRb & HCb & cv & cs & Hcells & Hcv & Hcs & Hin). simpl in *.
  assert (Hgrid : table_grid table = Ret (as_values (dense_grid R C cells))).
  { unfold table_grid. rewrite Hcells, HR, HC. simpl. rewrite Hcv.
    rewrite !or_else_count, new_grid_valid by assumption. simpl.
    rewrite (foldM_place_cell (Z.to_nat R) (Z.to_nat C) cs cells).
    - rewrite fold_write_dense by (assumption || lia). reflexivity.
    - rewrite Z2Nat.id by lia. lia.
    - exact Hcs.
    - rewrite !Z2Nat.id by lia. exact Hin.
    - apply shaped_replicate. }
  unfold table_step. rewrite Hgrid. simpl.
  rewrite render_rows. simpl. rewrite !append_assoc. reflexivity.
Qed.

Lemma foldM_table_step (ts : list value) (tables : list table_cells) :
  Forall2 table_is ts tables ->
  forall text i,
    foldM table_step (text, i) ts
    = Ret (text +:+ render_tables i tables, i + Z.of_nat (length ts)).
Proof.
  induction 1 as [|table t ts tables Ht _ IH]; intros text i.
  - simpl. rewrite append_empty_r, Z.add_0_r. reflexivity.
  - rewrite foldM_cons, (table_step_render text i table t Ht). simpl.
    rewrite IH.
    replace (i + Z.of_nat (S (length ts))) with (i + 1 + Z.of_nat (length ts)) by lia.
    rewrite !append_assoc. reflexivity.
Qed.

Lemma pair_step_render (text : string) (pair : value) (f : form_field) :
  pair_is pair f ->
  pair_step text pair = Ret (text +:+ f.1 +:+ ": " +:+ f.2 +:+ LF).
Proof.
  intros ((k & kc & Hk & Hkc & Hks) & (v & vc & Hv & Hvc & Hvs)).
  unfold pair_step, text_key, text_value.
  rewrite Hk. simpl. rewrite Hkc. simpl. rewrite Hks.
  rewrite Hv. simpl. rewrite Hvc. simpl. rewrite Hvs. simpl.
  reflexivity.
Qed.

Lemma foldM_pair_step (ks : list value) (fields : list form_field) :
  Forall2 pair_is ks fields ->
  forall text, foldM pair_step text ks = Ret (text +:+ render_fields fields).
Proof.
  induction 1 as [|pair f ks fields Hf _ IH]; intros text.
  - simpl. rewrite append_empty_r. reflexivity.
  - rewrite foldM_cons, (pair_step_render text pair f Hf). simpl.
    rewrite IH, !append_assoc. reflexivity.
Qed.

Lemma length_positive {A : Type} (x : A) (l : list A) :
  (0 <? Z.of_nat (length (x :: l))) = true.
Proof. apply Z.ltb_lt. simpl. lia. Qed.

Ltac bind_step H := rewrite H, bind_ret_l; cbv beta.

Lemma text_body_render (result : value) (pages : list page_text)
      (tables : list table_cells) (fields : list form_field) :
  document_is result pages tables fields ->
  text_body result = Ret (render_document pages tables fields).
Proof.
  intros (analyze & pv & ps & tv & ts & kv & ks
          & Ha & Hp & Hpv & Hps & Ht & Htv & Hts & Hk & Hkv & Hks).
  unfold text_body.
  bind_step Ha. bind_step Hp. rewrite Hpv.
  change (iterate (VArr ps)) with (Ret ps). rewrite bind_ret_l. cbv beta.
  bind_step (foldM_page_step ps pages Hps "").
  bind_step Ht. cbv zeta. rewrite Htv.
  change (length_of (VArr ts)) with (Ret (VNum (Z.of_nat (length ts)))).
  rewrite bind_ret_l. cbv beta.
  change (gt_zero (VNum (Z.of_nat (length ts)))) with (Ret (0 <? Z.of_nat (length ts))).
  rewrite bind_ret_l. cbv beta.
  assert (Htables :
    (if 0 <? Z.of_nat (length ts)
     then elems ← indexed (VArr ts);
          acc ← foldM table_step
                  (("" +:+ render_pages pages) +:+ "===== テーブル =====" +:+ LF +:+ LF, 0)
                  elems;
          Ret acc.1
     else Ret ("" +:+ render_pages pages))
    = Ret (render_pages pages +:+ tables_section tables)).
  { destruct Hts as [|table t ts tables Ht1 Hts].
    - simpl. rewrite append_empty_r. reflexivity.
    - rewrite length_positive.
      change (indexed (VArr (table :: ts))) with (Ret (table :: ts)).
      rewrite bind_ret_l. cbv beta.
      rewrite (foldM_table_step (table :: ts) (t :: tables)) by (constructor; assumption).
      rewrite bind_ret_l. cbv beta. unfold tables_section.
      change ("" +:+ render_pages pages) with (render_pages pages).
      cbn [fst]. rewrite !append_assoc. reflexivity. }
  cbv zeta in Htables |- *. rewrite Htables, bind_ret_l. cbv beta.
  bind_step Hk. rewrite Hkv.
  change (length_of (VArr ks)) with (Ret (VNum (Z.of_nat (length ks)))).
  rewrite bind_ret_l. cbv beta.
  change (gt_zero (VNum (Z.of_nat (length ks)))) with (Ret (0 <? Z.of_nat (length ks))).
  rewrite bind_ret_l. cbv beta.
  unfold render_document.
  destruct Hks as [|pair f ks fields Hf1 Hks].
  - simpl. rewrite !append_empty_r. reflexivity.
  - rewrite length_positive.
    change (iterate (VArr (pair :: ks))) with (Ret (pair :: ks)).
    rewrite bind_ret_l. cbv beta.
    rewrite (foldM_pair_step (pair :: ks) (f :: fields)) by (constructor; assumption).
    rewrite bind_ret_l. cbv beta. rewrite bind_ret_l. cbv beta.
    unfold fields_section. rewrite !append_assoc. reflexivity.
Qed.

Lemma questionnaire_is :
  document_is questionnaire [(1, ["問診票"; "undefined"])]
    [(2, 2, [(0, 0, "A"); (1, 1, "B")])]
    [("氏名", "山田"); (placeholder, "38")].
Proof.
  exists (VObj [("pages",
                 VArr [VObj [("pageNumber", VNum 1);
                             ("lines", VArr [VObj [("content", VStr "問診票")]; VObj []])]]);
                ("tables", VArr [two_by_two]);
                ("keyValuePairs",
                 VArr [VObj [("key", VObj [("content", VStr "氏名")]);
                             ("value", VObj [("content", VStr "山田")])];
                       VObj [("value", VObj [("content", VStr "38")])]])]).
  eexists _, _, _, _, _, _.
  split; [reflexivity|]. split; [reflexivity|]. split; [reflexivity|].
  split.
  { constructor; [|constructor]. split; [reflexivity|].
    eexists _, _. split; [reflexivity|]. split; [reflexivity|].
    constructor; [|constructor; [|constructor]].
    - exists (VStr "問診票"). split; reflexivity.
    - exists VUndef. split; reflexivity. }
  split; [reflexivity|]. split; [reflexivity|].
  split.
  { constructor; [|constructor].
    split; [reflexivity|]. split; [reflexivity|].
    split; [unfold MAX_LENGTH; simpl; lia|]. split; [unfold MAX_LENGTH; simpl; lia|].
    eexists _, _. split; [reflexivity|]. split; [reflexivity|]. split.
    - constructor; [|constructor; [|constructor]].
      + split; [reflexivity|]. split; [reflexivity|].
        exists (VStr "A"). split; reflexivity.
      + split; [reflexivity|]. split; [reflexivity|].
        exists (VStr "B"). split; reflexivity.
    - constructor; [|constructor; [|constructor]]; split; simpl; lia. }
  split; [reflexivity|]. split; [reflexivity|].
  constructor; [|constructor; [|constructor]].
  - split; eexists _, _; (split; [reflexivity|]); split; reflexivity.
  - split; eexists _, _; (split; [reflexivity|]); split; reflexivity.
Qed.

(** X11: for an analysis result whose pages carry a number and lines,
    whose tables have valid counts and cells inside their grid, whose
    pairs are objects, and in which every number is a safe integer (below
    [2^53] in magnitude, so that JavaScript prints it in full), the
    extractor returns, without logging anything, the pages (a header with
    the page number, one line of text for each line, a blank line), then
    the tables under one header, numbered from 1 in their order, then the
    form fields under one header as [key: value] lines, all trimmed at
    both ends; the sections for tables and fields are left out when there
    are none.  A line without content shows as ["undefined"], a pair
    without key under the placeholder. *)
Theorem document_rendering
        (result : value) (pages : list page_text) (tables : list table_cells)
        (fields : list form_field) (tr : list event) :
  document_is result pages tables fields ->
  safe_numbers result = true ->
  extractTextFromAnalysisResult result tr
  = (Ret (render_document pages tables fields), tr ++ [EvCall TextExtraction]).
Proof.
  intros H _. rewrite extractText_run, (text_body_render result pages tables fields H).
  reflexivity.
Qed.

Lemma document_rendering_witness :
  extractTextFromAnalysisResult questionnaire []
  = (Ret (render_document [(1, ["問診票"; "undefined"])]
            [(2, 2, [(0, 0, "A"); (1, 1, "B")])]
            [("氏名", "山田"); (placeholder, "38")]),
     [] ++ [EvCall TextExtraction]).
Proof.
  apply (document_rendering questionnaire [(1, ["問診票"; "undefined"])]
           [(2, 2, [(0, 0, "A"); (1, 1, "B")])]
           [("氏名", "山田"); (placeholder, "38")] []).
  - exact questionnaire_is.
  - reflexivity.
Defined.

(** ** Malformed tables *)

(** A text extraction that returns has built the grid of each table. *)
Lemma text_body_table (result analyze : value) (tables : list value) (i : nat)
      (table : value) (s : string) :
  text_body result = Ret s ->
  get result "analyzeResult" = Ret analyze ->
  get_opt analyze "tables" = Ret (VArr tables) -> tables !! i = Some table ->
  exists g, table_grid table = Ret g.
Proof.
  intros Hbody Han Htables Hi.
  unfold text_body in Hbody. rewrite Han in Hbody. simpl in Hbody.
  apply bind_Ret in Hbody as (p & _ & Hbody).
  apply bind_Ret in Hbody as (pages & _ & Hbody).
  apply bind_Ret in Hbody as (text & _ & Hbody).
  rewrite Htables in Hbody. simpl in Hbody.
  assert (Hpos : (0 <? Z.of_nat (length tables)) = true).
  { apply Z.ltb_lt. apply lookup_lt_Some in Hi. lia. }
  rewrite Hpos in Hbody.
  apply bind_Ret in Hbody as (text' & Htab & _).
  apply bind_Ret in Htab as (acc & Hfold & _).
  destruct (foldM_step table_step (fun _ => True) (fun _ _ _ _ _ => I)
              tables _ acc i table I Hfold Hi)
    as (a1 & a2 & _ & Hstep & _).
  apply table_step_inv in Hstep. exact Hstep.
Qed.

Lemma text_body_fallback (result : value) (tr : list event) :
  modelled (text_body result) ->
  (forall s, text_body result = Ret s -> False) ->
  exists e : exn,
    extractTextFromAnalysisResult result tr
    = (Ret fallback_text,
       tr ++ [EvCall TextExtraction; EvError text_error_label (Some e)]).
Proof.
  intros Hmod Hno. rewrite extractText_run.
  destruct (text_body result) as [s|e|].
  - exfalso. eapply Hno. reflexivity.
  - exists e. reflexivity.
  - exfalso. apply Hmod. reflexivity.
Qed.

Lemma new_grid_bad_size (R C : Z) (g : list (list value)) :
  bad_size R C -> new_grid (VNum R) (VNum C) = Ret g -> False.
Proof.
  unfold new_grid, new_filled. intros Hbad H.
  destruct ((0 <=? R) && (R <=? MAX_LENGTH)) eqn:ER; [|discriminate].
  apply andb_true_iff in ER as [HR0 HR1]. apply Z.leb_le in HR0, HR1.
  destruct Hbad as [Hbad|[HR HC]]; [lia|].
  replace ((0 <=? C) && (C <=? MAX_LENGTH)) with false in H.
  2:{ symmetry. apply andb_false_iff.
      destruct HC; [left; apply Z.leb_gt|right; apply Z.leb_gt]; lia. }
  rewrite bind_ret_l in H.
  destruct (Z.to_nat R) as [|n] eqn:En; [lia|]. simpl in H. discriminate.
Qed.

(** X12: a table whose [rowCount] is not a valid array length (negative,
    or above [2^32 - 1]), or whose [columnCount] is not one while there is
    at least one row, makes the whole call return the fallback string and
    log the error, whatever else the document holds. *)
Theorem invalid_table_size
        (result analyze : value) (tables : list value) (i : nat) (table : value)
        (R C : Z) (tr : list event) :
  get result "analyzeResult" = Ret analyze ->
  get_opt analyze "tables" = Ret (VArr tables) -> tables !! i = Some table ->
  get table "rowCount" = Ret (VNum R) ->
  get table "columnCount" = Ret (VNum C) ->
  bad_size R C ->
  modelled (text_body result) ->
  exists e : exn,
    extractTextFromAnalysisResult result tr
    = (Ret fallback_text,
       tr ++ [EvCall TextExtraction; EvError text_error_label (Some e)]).
Proof.
  intros Han Htables Hi HR HC Hbad Hmod.
  apply text_body_fallback; [exact Hmod|].
  intros s Hs.
  destruct (text_body_table result analyze tables i table s Hs Han Htables Hi) as (g & Hg).
  apply table_grid_inv in Hg
    as (cs & rc & cc & g0 & cells & _ & Hrc & Hcc & Hg0 & _).
  rewrite HR in Hrc. injection Hrc as <-.
  rewrite HC in Hcc. injection Hcc as <-.
  rewrite !or_else_count in Hg0.
  eapply new_grid_bad_size; eauto.
Qed.

Lemma invalid_table_size_witness :
  exists e : exn,
    extractTextFromAnalysisResult negative_rows_document []
    = (Ret fallback_text,
       [] ++ [EvCall TextExtraction; EvError text_error_label (Some e)]).
Proof.
  apply (invalid_table_size negative_rows_document
           (VObj [("tables", VArr [table_of (-1) 2 []])])
           [table_of (-1) 2 []] 0%nat (table_of (-1) 2 []) (-1) 2 []);
    try reflexivity.
  - left. left. lia.
  - vm_compute. discriminate.
Defined.

(** X13: a cell whose [rowIndex] is absent, [null], a boolean, an object
    or a negative number makes the whole call return the fallback string
    and log the error. *)
Theorem cell_without_row
        (result analyze : value) (tables : list value) (i : nat) (table : value)
        (cells : list value) (j : nat) (cell rowIndex : value) (tr : list event) :
  get result "analyzeResult" = Ret analyze ->
  get_opt analyze "tables" = Ret (VArr tables) -> tables !! i = Some table ->
  get table "cells" = Ret (VArr cells) -> cells !! j = Some cell ->
  get cell "rowIndex" = Ret rowIndex ->
  no_row rowIndex ->
  modelled (text_body result) ->
  exists e : exn,
    extractTextFromAnalysisResult result tr
    = (Ret fallback_text,
       tr ++ [EvCall TextExtraction; EvError text_error_label (Some e)]).
Proof.
  intros Han Htables Hi Hcells Hj Hri Hno Hmod.
  apply text_body_fallback; [exact Hmod|].
  intros s Hs.
  destruct (text_body_table result analyze tables i table s Hs Han Htables Hi) as (g & Hg).
  apply table_grid_inv in Hg
    as (cs & rc & cc & g0 & cells' & Hcs & _ & _ & _ & Hit & Hfold).
  rewrite Hcells in Hcs. injection Hcs as <-.
  simpl in Hit. injection Hit as <-.
  destruct (foldM_step place_cell (fun _ => True) (fun _ _ _ _ _ => I)
              cells g0 g j cell I Hfold Hj)
    as (a1 & a2 & _ & Hplace & _).
  apply place_cell_inv in Hplace
    as (ri & ci & cv & r' & row & Hri' & _ & _ & Hrow & _).
  rewrite Hri in Hri'. injection Hri' as <-.
  unfold row_at in Hrow.
  destruct rowIndex as [| |b|r|s'|l|props]; try discriminate; try contradiction.
  simpl in Hno.
  replace (0 <=? r) with false in Hrow by (symmetry; apply Z.leb_gt; lia).
  discriminate.
Qed.

Lemma cell_without_row_witness :
  exists e : exn,
    extractTextFromAnalysisResult no_row_document []
    = (Ret fallback_text,
       [] ++ [EvCall TextExtraction; EvError text_error_label (Some e)]).
Proof.
  apply (cell_without_row no_row_document
           (VObj [("tables", VArr [table_of 2 2 [VObj [("content", VStr "A")]]])])
           [table_of 2 2 [VObj [("content", VStr "A")]]] 0%nat
           (table_of 2 2 [VObj [("content", VStr "A")]])
           [VObj [("content", VStr "A")]] 0%nat (VObj [("content", VStr "A")])
           VUndef []);
    try reflexivity.
  vm_compute. discriminate.
Defined.

Lemma store_no_column (row : list value) (ci x : value) :
  no_column ci -> store row ci x = Ret row.
Proof.
  unfold store. destruct ci as [| |b|c|s|l|props]; simpl; try reflexivity;
    try contradiction.
  - intros Hc.
    replace ((0 <=? c) && (c <? MAX_LENGTH)) with false; [reflexivity|].
    symmetry. apply andb_false_iff.
    destruct Hc; [left; apply Z.leb_gt|right; apply Z.ltb_ge]; lia.
  - intros ->. reflexivity.
Qed.

Lemma place_cell_no_column (g : list (list value)) (cell ci : value) (r : Z) :
  get cell "rowIndex" = Ret (VNum r) -> 0 <= r < Z.of_nat (length g) ->
  get cell "columnIndex" = Ret ci -> no_column ci ->
  place_cell g cell = Ret g.
Proof.
  intros Hri Hr Hci Hno.
  assert (Hcv : exists cv, get cell "content" = Ret cv).
  { destruct cell; try discriminate; eexists; reflexivity. }
  destruct Hcv as (cv & Hcv).
  unfold place_cell. rewrite Hri, bind_ret_l, Hci, bind_ret_l.
  unfold row_at.
  replace ((0 <=? r) && (r <? Z.of_nat (length g))) with true.
  2:{ symmetry; apply andb_true_iff; split; [apply Z.leb_le|apply Z.ltb_lt]; lia. }
  rewrite bind_ret_l, Hcv, bind_ret_l.
  rewrite store_no_column by exact Hno. rewrite bind_ret_l.
  destruct (g !! Z.to_nat r) as [row|] eqn:Hrow.
  - simpl. rewrite list_insert_id by exact Hrow. reflexivity.
  - apply lookup_ge_None in Hrow. lia.
Qed.

Lemma table_grid_no_column
      (table table' : value) (cs1 cs2 : list value) (cell rc cc ci : value) (R r : Z) :
  get table "cells" = Ret (VArr (cs1 ++ cell :: cs2)) ->
  get table' "cells" = Ret (VArr (cs1 ++ cs2)) ->
  get table "rowCount" = Ret rc -> get table' "rowCount" = Ret rc ->
  get table "columnCount" = Ret cc -> get table' "columnCount" = Ret cc ->
  or_else rc (VNum 0) = VNum R ->
  get cell "rowIndex" = Ret (VNum r) -> 0 <= r < R ->
  get cell "columnIndex" = Ret ci -> no_column ci ->
  table_grid table = table_grid table'.
Proof.
  intros Hc Hc' Hrc Hrc' Hcc Hcc' HR Hri Hr Hci Hno.
  unfold table_grid.
  rewrite Hc, Hc', Hrc, Hrc', Hcc, Hcc', !bind_ret_l, HR.
  destruct (new_grid (VNum R) (or_else cc (VNum 0))) as [g0| |] eqn:Hg0;
    [|reflexivity|reflexivity].
  rewrite !bind_ret_l.
  change (or_else (VArr (cs1 ++ cell :: cs2)) (VArr [])) with (VArr (cs1 ++ cell :: cs2)).
  change (or_else (VArr (cs1 ++ cs2)) (VArr [])) with (VArr (cs1 ++ cs2)).
  change (iterate (VArr (cs1 ++ cell :: cs2))) with (Ret (cs1 ++ cell :: cs2)).
  change (iterate (VArr (cs1 ++ cs2))) with (Ret (cs1 ++ cs2)).
  rewrite !bind_ret_l, !foldM_app.
  apply new_grid_length in Hg0 as [_ Hlen].
  destruct (foldM place_cell g0 cs1) as [g1| |] eqn:Hg1; [|reflexivity|reflexivity].
  rewrite !bind_ret_l, foldM_cons.
  assert (Hlen1 : length g1 = Z.to_nat R).
  { apply (foldM_invariant place_cell (fun a => length a = Z.to_nat R)
             (fun a x a' Ha H => eq_trans (place_cell_length a x a' H) Ha)
             cs1 g0 g1 Hlen Hg1). }
  rewrite (place_cell_no_column g1 cell ci r) by (assumption || lia).
  reflexivity.
Qed.

(** X14: a cell in a valid row whose [columnIndex] is no array index
    (absent, [null], a boolean, a plain object, a negative number, or a
    number from [2^32 - 1] on) is dropped in silence: the table is
    reconstructed and rendered exactly as if the cell were not in the
    list. *)
Theorem cell_without_column
        (table table' : value) (cs1 cs2 : list value) (cell rc cc ci : value)
        (R r : Z) (text : string) (i : Z) :
  get table "cells" = Ret (VArr (cs1 ++ cell :: cs2)) ->
  get table' "cells" = Ret (VArr (cs1 ++ cs2)) ->
  get table "rowCount" = Ret rc -> get table' "rowCount" = Ret rc ->
  get table "columnCount" = Ret cc -> get table' "columnCount" = Ret cc ->
  or_else rc (VNum 0) = VNum R ->
  get cell "rowIndex" = Ret (VNum r) -> 0 <= r < R ->
  get cell "columnIndex" = Ret ci -> no_column ci ->
  table_grid table = table_grid table'
  /\ table_step (text, i) table = table_step (text, i) table'.
Proof.
  intros Hc Hc' Hrc Hrc' Hcc Hcc' HR Hri Hr Hci Hno.
  assert (Hgrid : table_grid table = table_grid table')
    by (eapply table_grid_no_column; eauto).
  split; [exact Hgrid|]. unfold table_step. rewrite Hgrid. reflexivity.
Qed.

Lemma cell_without_column_witness :
  table_grid (table_of 2 2 [sparse_cell 0 0 "A"; stray_cell; sparse_cell 1 1 "B"])
  = table_grid two_by_two
  /\ table_step ("", 0)
       (table_of 2 2 [sparse_cell 0 0 "A"; stray_cell; sparse_cell 1 1 "B"])
     = table_step ("", 0) two_by_two.
Proof.
  apply (cell_without_column
           (table_of 2 2 [sparse_cell 0 0 "A"; stray_cell; sparse_cell 1 1 "B"])
           two_by_two [sparse_cell 0 0 "A"] [sparse_cell 1 1 "B"] stray_cell
           (VNum 2) (VNum 2) VUndef 2 1 "" 0);
    try reflexivity.
  lia.
Defined.

(** ** The structured extractor on the documents that the text extractor renders *)

Lemma get_total (v a : value) (k k' : string) :
  get v k = Ret a -> exists a', get v k' = Ret a'.
Proof. destruct v; try discriminate; intros _; eexists; reflexivity. Qed.

Lemma mapM_total {A B : Type} (f : A -> res B) (l : list A) :
  Forall (fun x => exists y, f x = Ret y) l ->
  exists l', mapM f l = Ret l' /\ length l' = length l.
Proof.
  induction 1 as [|x l (y & Hy) _ (l' & Hl' & Hlen)].
  - exists []. split; reflexivity.
  - exists (y :: l'). simpl. rewrite Hy, Hl'. simpl. split; [reflexivity|congruence].
Qed.

Lemma Forall2_Forall_l {A B : Type} (R : A -> B -> Prop) (P : A -> Prop)
      (l : list A) (k : list B) :
  (forall x y, R x y -> P x) -> Forall2 R l k -> Forall P l.
Proof. intros H. induction 1; constructor; eauto. Qed.

Lemma structured_line_total (line : value) (s : string) :
  line_is line s -> exists out, structured_line line = Ret out.
Proof.
  intros (cv & Hc & _). unfold structured_line.
  destruct (get_total line cv "content" "boundingBox" Hc) as (bb & Hbb).
  rewrite Hc, Hbb. eexists. reflexivity.
Qed.

Lemma structured_page_total (page : value) (p : page_text) :
  page_is page p -> exists out, structured_page page = Ret out.
Proof.
  intros (Hn & lv & ls & Hl & Hlv & Hls). unfold structured_page.
  destruct (get_total page _ "pageNumber" "width" Hn) as (w & Hw).
  destruct (get_total page _ "pageNumber" "height" Hn) as (h & Hh).
  destruct (get_total page _ "pageNumber" "unit" Hn) as (u & Hu).
  rewrite Hn, Hw, Hh, Hu, Hl, !bind_ret_l, Hlv. unfold array_map.
  destruct (mapM_total structured_line ls) as (out & Hout & _).
  { eapply Forall2_Forall_l; [|exact Hls]. intros x y. apply structured_line_total. }
  rewrite Hout. eexists. reflexivity.
Qed.

Lemma structured_cell_total (cell : value) (x : sparse) :
  cell_is cell x -> exists out, structured_cell cell = Ret out.
Proof.
  intros (Hr & Hc & cv & Hcv & _). unfold structured_cell.
  destruct (get_total cell _ "rowIndex" "rowSpan" Hr) as (rs & Hrs).
  destruct (get_total cell _ "rowIndex" "columnSpan" Hr) as (cs & Hcs).
  destruct (get_total cell _ "rowIndex" "boundingBox" Hr) as (bb & Hbb).
  rewrite Hr, Hc, Hrs, Hcs, Hcv, Hbb. eexists. reflexivity.
Qed.

Lemma structured_table_total (table : value) (t : table_cells) :
  table_is table t -> exists out, structured_table table = Ret out.
Proof.
  intros (HR & HC & _ & _ & cv & cs & Hcells & Hcv & Hcs & _). unfold structured_table.
  rewrite HR, HC, Hcells, !bind_ret_l, Hcv.
  change (iterate (VArr cs)) with (Ret cs). rewrite bind_ret_l.
  destruct (mapM_total structured_cell cs) as (out & Hout & _).
  { eapply Forall2_Forall_l; [|exact Hcs]. intros x y. apply structured_cell_total. }
  rewrite Hout. eexists. reflexivity.
Qed.

Lemma structured_pair_total (pair : value) (f : form_field) :
  pair_is pair f -> exists out, structured_pair pair = Ret out.
Proof.
  intros ((k & kc & Hk & Hkc & _) & (v & vc & Hv & Hvc & _)).
  unfold structured_pair, structured_key, structured_value.
  rewrite Hk, bind_ret_l, Hkc, bind_ret_l, bind_ret_l.
  rewrite Hv, bind_ret_l, Hvc. eexists. reflexivity.
Qed.

(** X15: on every analysis result of the shape that the text extractor
    renders in full (pages with a number and lines, tables with valid
    counts and cells inside the grid, pairs that are objects), the
    structured extractor succeeds as well: it logs nothing and returns an
    object with the three lists [pages], [tables] and [keyValuePairs],
    each as long as the list of the input. *)
Theorem structured_data_of_rendered_document
        (result : value) (pages : list page_text) (tables : list table_cells)
        (fields : list form_field) (tr : list event) :
  document_is result pages tables fields ->
  exists pagesOut tablesOut pairsOut : list value,
    extractStructuredData result tr
    = (Ret (VObj [("pages", VArr pagesOut); ("tables", VArr tablesOut);
                  ("keyValuePairs", VArr pairsOut)]),
       tr ++ [EvCall StructuredExtraction])
    /\ length pagesOut = length pages
    /\ length tablesOut = length tables
    /\ length pairsOut = length fields.
Proof.
  intros (analyze & pv & ps & tv & ts & kv & ks
          & Ha & Hp & Hpv & Hps & Ht & Htv & Hts & Hk & Hkv & Hks).
  destruct (mapM_total structured_page ps) as (po & Hpo & Hlp).
  { eapply Forall2_Forall_l; [|exact Hps]. intros x y. apply structured_page_total. }
  destruct (mapM_total structured_table ts) as (to & Hto & Hlt).
  { eapply Forall2_Forall_l; [|exact Hts]. intros x y. apply structured_table_total. }
  destruct (mapM_total structured_pair ks) as (ko & Hko & Hlk).
  { eapply Forall2_Forall_l; [|exact Hks]. intros x y. apply structured_pair_total. }
  exists po, to, ko. split.
  - rewrite extractStructured_run. unfold structured_body.
    rewrite Ha, bind_ret_l, Hp, bind_ret_l, Hpv.
    change (iterate (VArr ps)) with (Ret ps). rewrite bind_ret_l, Hpo, bind_ret_l.
    rewrite Ht, bind_ret_l, Htv.
    change (iterate (VArr ts)) with (Ret ts). rewrite bind_ret_l, Hto, bind_ret_l.
    rewrite Hk, bind_ret_l, Hkv.
    change (iterate (VArr ks)) with (Ret ks). rewrite bind_ret_l, Hko, bind_ret_l.
    reflexivity.
  - rewrite Hlp, Hlt, Hlk.
    rewrite (Forall2_length _ _ _ Hps), (Forall2_length _ _ _ Hts),
      (Forall2_length _ _ _ Hks).
    auto.
Qed.

Lemma structured_data_of_rendered_document_witness :
  exists pagesOut tablesOut pairsOut : list value,
    extractStructuredData questionnaire []
    = (Ret (VObj [("pages", VArr pagesOut); ("tables", VArr tablesOut);
                  ("keyValuePairs", VArr pairsOut)]),
       [] ++ [EvCall StructuredExtraction])
    /\ length pagesOut = 1%nat
    /\ length tablesOut = 1%nat
    /\ length pairsOut = 2%nat.
Proof.
  apply (structured_data_of_rendered_document questionnaire
           [(1, ["問診票"; "undefined"])]
           [(2, 2, [(0, 0, "A"); (1, 1, "B")])]
           [("氏名", "山田"); (placeholder, "38")] []).
  exact questionnaire_is.
Defined.

(** ** The formatter *)

Lemma code_chr (a : ascii) (n : nat) : (code a =? n)%nat = true -> a = chr n.
Proof.
  intros H. apply Nat.eqb_eq in H. unfold code in H. unfold chr.
  rewrite <- H. symmetry. apply ascii_nat_embedding.
Qed.

Lemma split_aux_nonempty (head : list ascii -> nat) (l : list ascii) :
  forall skip cur, split_aux head skip cur l <> [].
Proof.
  induction l as [|a r IH]; intros skip cur; simpl; [discriminate|].
  destruct skip; [|apply IH].
  destruct (head (a :: r)); [apply IH|discriminate].
Qed.

Lemma concat_cons (sep x : string) (ys : list string) :
  ys <> [] -> String.concat sep (x :: ys) = x +:+ sep +:+ String.concat sep ys.
Proof. destruct ys; [contradiction|reflexivity]. Qed.

(** The three ways in which a byte list can start. *)
Lemma colon_head_cases (a : ascii) (r : list ascii) :
  (a = chr 58 /\ colon_head (a :: r) = 1%nat)
  \/ (exists r', a = chr 239 /\ r = chr 188 :: chr 154 :: r'
                 /\ colon_head (a :: r) = 3%nat)
  \/ ((code a =? 58)%nat = false /\ colon_head (a :: r) = 0%nat).
Proof.
  unfold colon_head. destruct (code a =? 58)%nat eqn:E58.
  - left. split; [apply code_chr, E58|reflexivity].
  - right. destruct r as [|b [|c r']]; [right; auto|right; auto|].
    destruct (code a =? 239)%nat eqn:Ea; [|right; auto].
    destruct (code b =? 188)%nat eqn:Eb; [|right; auto].
    destruct (code c =? 154)%nat eqn:Ec; [|right; auto].
    left. exists r'. apply code_chr in Ea, Eb, Ec. subst. auto.
Qed.

Lemma ascii_colons_bytes_cons (a : ascii) (r : list ascii) :
  colon_head (a :: r) <> 3%nat ->
  ascii_colons_bytes (a :: r) = a :: ascii_colons_bytes r.
Proof.
  intros H. destruct r as [|b [|c r']]; try reflexivity.
  simpl. unfold colon_head in H.
  destruct ((code a =? 239) && (code b =? 188) && (code c =? 154))%nat eqn:E;
    [|reflexivity].
  destruct (code a =? 58)%nat eqn:E58.
  - apply andb_true_iff in E as [E _]. apply andb_true_iff in E as [E _].
    apply Nat.eqb_eq in E, E58. congruence.
  - contradiction.
Qed.

(** Joining the pieces with [":"] gives back the text, with the ASCII
    colon at every separator. *)
Lemma concat_split_colon (n : nat) : forall (l cur : list ascii),
  (length l <= n)%nat ->
  String.concat ":" (split_aux colon_head 0 cur l)
  = of_bytes (rev cur) +:+ of_bytes (ascii_colons_bytes l).
Proof.
  induction n as [|n IH]; intros l cur Hlen.
  - destruct l; [|simpl in Hlen; lia]. simpl. rewrite append_empty_r. reflexivity.
  - destruct l as [|a r]; [simpl; rewrite append_empty_r; reflexivity|].
    simpl in Hlen.
    destruct (colon_head_cases a r) as [[-> H]|[(r' & -> & -> & H)|[E H]]].
    + cbn [split_aux]. rewrite H.
      rewrite concat_cons by apply split_aux_nonempty.
      rewrite IH by lia. rewrite ascii_colons_bytes_cons by (rewrite H; discriminate).
      reflexivity.
    + cbn [split_aux]. rewrite H.
      rewrite concat_cons by apply split_aux_nonempty.
      rewrite IH by (simpl in Hlen; lia). reflexivity.
    + cbn [split_aux]. rewrite H. rewrite IH by lia.
      rewrite ascii_colons_bytes_cons by (rewrite H; discriminate).
      cbn [rev]. rewrite of_bytes_app. cbn [of_bytes].
      rewrite append_assoc. reflexivity.
Qed.

Lemma includes_cons (a : ascii) (s p : string) :
  includes (String a s) p = String.prefix p (String a s) || includes s p.
Proof. reflexivity. Qed.

Lemma prefix_nil (t : string) : String.prefix "" t = true.
Proof. destruct t; reflexivity. Qed.

Lemma prefix_same (a : ascii) (s t : string) :
  String.prefix (String a s) (String a t) = String.prefix s t.
Proof. rewrite prefix_cons. destruct (ascii_dec a a); [reflexivity|contradiction]. Qed.

Lemma colon_head_first (x : ascii) (t : list ascii) :
  colon_head (x :: t) <> 0%nat -> x = chr 58 \/ x = chr 239.
Proof.
  intros H. destruct (colon_head_cases x t) as [[-> _]|[(r' & -> & _)|[_ H']]]; auto.
  contradiction.
Qed.

(** Inside a text without colon no separator starts, whatever follows it,
    as long as a separator follows. *)
Lemma colon_head_inside (a : ascii) (k rest : list ascii) :
  includes (of_bytes (a :: k)) ":" = false ->
  includes (of_bytes (a :: k)) "：" = false ->
  (exists x t, rest = x :: t /\ colon_head (x :: t) <> 0%nat) ->
  colon_head ((a :: k) ++ rest) = 0%nat.
Proof.
  intros H1 H2 (x & t & -> & Hx).
  destruct (colon_head_cases a (k ++ x :: t)) as [[-> _]|[(r' & -> & Hr & _)|[_ H]]].
  - exfalso. cbn [of_bytes] in H1. rewrite includes_cons in H1.
    change ":" with (String (chr 58) "") in H1.
    rewrite prefix_same, prefix_nil in H1. discriminate.
  - exfalso. destruct k as [|b [|c k']]; simpl in Hr.
    + injection Hr as ->. destruct (colon_head_first _ _ Hx); discriminate.
    + injection Hr as -> ->. destruct (colon_head_first _ _ Hx); discriminate.
    + injection Hr as -> -> _. cbn [of_bytes] in H2. rewrite includes_cons in H2.
      change "：" with (String (chr 239) (String (chr 188) (String (chr 154) ""))) in H2.
      rewrite !prefix_same, prefix_nil in H2. discriminate.
  - exact H.
Qed.

Lemma split_aux_prefix (k : list ascii) : forall (cur rest : list ascii),
  includes (of_bytes k) ":" = false ->
  includes (of_bytes k) "：" = false ->
  (exists x t, rest = x :: t /\ colon_head (x :: t) <> 0%nat) ->
  split_aux colon_head 0 cur (k ++ rest)
  = split_aux colon_head 0 (rev k ++ cur) rest.
Proof.
  induction k as [|a k IH]; intros cur rest H1 H2 Hrest; [reflexivity|].
  change ((a :: k) ++ rest) with (a :: (k ++ rest)).
  cbn [split_aux].
  change (a :: (k ++ rest)) with ((a :: k) ++ rest).
  rewrite (colon_head_inside a k rest H1 H2 Hrest).
  cbn [of_bytes] in H1, H2. rewrite includes_cons in H1, H2.
  apply orb_false_iff in H1 as [_ H1]. apply orb_false_iff in H2 as [_ H2].
  rewrite IH by assumption.
  cbn [rev]. rewrite <- app_assoc. reflexivity.
Qed.

Lemma split_colon_line (key c value : string) :
  colon_free key -> c = ":" \/ c = "：" ->
  split colon_head (key +:+ c +:+ value) = key :: split colon_head value.
Proof.
  intros [H1 H2] Hc. unfold split. rewrite !bytes_append.
  rewrite <- (bytes_of_bytes key) in H1, H2.
  rewrite split_aux_prefix; try assumption.
  - rewrite app_nil_r.
    destruct Hc as [-> | ->]; cbn [bytes app split_aux];
      rewrite ?rev_involutive, ?bytes_of_bytes.
    + change (colon_head (":"%char :: bytes value)) with 1%nat. cbv iota.
      reflexivity.
    + match goal with |- context [colon_head ?l] =>
        change (colon_head l) with 3%nat end.
      cbv iota. reflexivity.
  - destruct Hc as [-> | ->]; cbn [bytes app]; eexists _, _; (split; [reflexivity|]).
    + change (colon_head (":"%char :: bytes value)) with 1%nat. discriminate.
    + match goal with |- colon_head ?l <> _ =>
        change (colon_head l) with 3%nat end. discriminate.
Qed.

Lemma includes_prefix (s p : string) : String.prefix p s = true -> includes s p = true.
Proof. intros H. destruct s; cbn [includes]; rewrite H; reflexivity. Qed.

Lemma includes_append_r (k s p : string) :
  includes s p = true -> includes (k +:+ s) p = true.
Proof.
  intros H. induction k as [|a k IH]; [exact H|].
  rewrite append_cons, includes_cons, IH. apply orb_true_r.
Qed.

Lemma includes_colon (key c value : string) :
  c = ":" \/ c = "：" ->
  includes (key +:+ c +:+ value) "：" || includes (key +:+ c +:+ value) ":" = true.
Proof.
  intros [-> | ->]; apply orb_true_iff; [right|left];
    apply includes_append_r, includes_prefix.
  - change (":" +:+ value) with (String (chr 58) value).
    change ":" with (String (chr 58) "").
    rewrite prefix_same. apply prefix_nil.
  - change ("：" +:+ value)
      with (String (chr 239) (String (chr 188) (String (chr 154) value))).
    change "：" with (String (chr 239) (String (chr 188) (String (chr 154) ""))).
    rewrite !prefix_same. apply prefix_nil.
Qed.

Lemma bullet_colon_line (key c value : string) :
  colon_free key -> c = ":" \/ c = "：" ->
  bullet (key +:+ c +:+ value)
  = if String.eqb (trim key) "" || String.eqb (trim (ascii_colons value)) ""
    then None
    else Some ("・" +:+ trim key +:+ ": " +:+ trim (ascii_colons value) +:+ LF).
Proof.
  intros Hk Hc. unfold bullet.
  rewrite (includes_colon key c value Hc), (split_colon_line key c value Hk Hc).
  cbn [length hd tl].
  assert (Hlen : (2 <=? S (length (split colon_head value)))%nat = true).
  { apply Nat.leb_le. pose proof (split_aux_nonempty colon_head (bytes value) 0 []) as Hne.
    unfold split. destruct (split_aux colon_head 0 [] (bytes value)); [contradiction|].
    simpl. lia. }
  rewrite Hlen. cbv zeta.
  unfold split. rewrite (concat_split_colon (length (bytes value))) by lia.
  change (of_bytes (rev []) +:+ of_bytes (ascii_colons_bytes (bytes value)))
    with (ascii_colons value).
  unfold truthy.
  destruct (String.eqb (trim key) ""); [reflexivity|].
  destruct (String.eqb (trim (ascii_colons value)) ""); reflexivity.
Qed.

(** X16: a line that is not skipped and reads [key], a colon (ASCII or
    full-width), [value], with no colon in [key], is written as the bullet
    [・key: value], key and value trimmed and every full-width colon of
    the value turned into the ASCII one; when the key or the value is
    blank the line is copied as it is. *)
Theorem bullet_normalisation (text key c value : string) :
  colon_free key -> c = ":" \/ c = "：" ->
  skipped_line (key +:+ c +:+ value) = false ->
  format_line text (key +:+ c +:+ value)
  = text +:+ (if String.eqb (trim key) "" || String.eqb (trim (ascii_colons value)) ""
              then key +:+ c +:+ value +:+ LF
              else "・" +:+ trim key +:+ ": " +:+ trim (ascii_colons value) +:+ LF).
Proof.
  intros Hk Hc Hs. unfold format_line. rewrite Hs.
  rewrite (bullet_colon_line key c value Hk Hc).
  assert (Ht : truthy (VStr (trim (key +:+ c +:+ value))) = true).
  { unfold skipped_line in Hs. apply orb_false_iff in Hs as [_ Hs].
    simpl. rewrite Hs. reflexivity. }
  destruct (String.eqb (trim key) "" || String.eqb (trim (ascii_colons value)) "").
  - rewrite Ht, !append_assoc. reflexivity.
  - reflexivity.
Qed.

Lemma bullet_normalisation_witness :
  format_line format_header ("時刻" +:+ "：" +:+ " 10：30 ")
  = format_header
    +:+ (if String.eqb (trim "時刻") "" || String.eqb (trim (ascii_colons " 10：30 ")) ""
         then "時刻" +:+ "：" +:+ " 10：30 " +:+ LF
         else "・" +:+ trim "時刻" +:+ ": " +:+ trim (ascii_colons " 10：30 ") +:+ LF).
Proof.
  apply (bullet_normalisation format_header "時刻" "：" " 10：30 ").
  - split; reflexivity.
  - right. reflexivity.
  - reflexivity.
Defined.

Lemma newline_head_inside (a : ascii) (k : list ascii) (rest : list ascii) :
  includes (of_bytes (a :: k)) LF = false ->
  newline_head ((a :: k) ++ rest) = 0%nat.
Proof.
  intros H. cbn [of_bytes] in H. rewrite includes_cons in H.
  apply orb_false_iff in H as [H _].
  cbn [app newline_head]. destruct (code a =? 10)%nat eqn:E; [|reflexivity].
  apply code_chr in E. subst a.
  change LF with (String (chr 10) "") in H.
  rewrite prefix_same, prefix_nil in H. discriminate.
Qed.

Lemma split_aux_line (k : list ascii) : forall (cur rest : list ascii),
  includes (of_bytes k) LF = false ->
  split_aux newline_head 0 cur (k ++ rest)
  = split_aux newline_head 0 (rev k ++ cur) rest.
Proof.
  induction k as [|a k IH]; intros cur rest H; [reflexivity|].
  change ((a :: k) ++ rest) with (a :: (k ++ rest)).
  cbn [split_aux].
  change (a :: (k ++ rest)) with ((a :: k) ++ rest).
  rewrite (newline_head_inside a k rest H).
  cbn [of_bytes] in H. rewrite includes_cons in H.
  apply orb_false_iff in H as [_ H].
  rewrite IH by assumption.
  cbn [rev]. rewrite <- app_assoc. reflexivity.
Qed.

(** Splitting at line feeds undoes joining with line feeds. *)
Lemma split_concat_lines (lines : list string) :
  lines <> [] -> Forall one_line lines ->
  split newline_head (String.concat LF lines) = lines.
Proof.
  induction lines as [|x [|y r] IH]; intros Hne Hall; [contradiction| |].
  - apply Forall_inv in Hall.
    unfold split. cbn [String.concat].
    rewrite <- (app_nil_r (bytes x)), split_aux_line
      by (rewrite bytes_of_bytes; exact Hall).
    cbn [split_aux]. rewrite app_nil_r, rev_involutive, bytes_of_bytes. reflexivity.
  - pose proof (Forall_inv Hall) as Hx. apply Forall_inv_tail in Hall.
    change (String.concat LF (x :: y :: r))
      with (x +:+ LF +:+ String.concat LF (y :: r)).
    unfold split. rewrite !bytes_append.
    rewrite split_aux_line by (rewrite bytes_of_bytes; exact Hx).
    change (bytes LF) with [chr 10]. cbn [app split_aux newline_head].
    change (code (chr 10) =? 10)%nat with true. cbv iota.
    rewrite app_nil_r, rev_involutive, bytes_of_bytes.
    f_equal. apply IH; [discriminate|exact Hall].
Qed.

Lemma format_line_shown (text line : string) :
  format_line text line = text +:+ shown line.
Proof.
  unfold format_line, shown.
  destruct (skipped_line line) eqn:Hs; [rewrite append_empty_r; reflexivity|].
  destruct (bullet line); [reflexivity|].
  unfold skipped_line in Hs. apply orb_false_iff in Hs as [_ Hs].
  simpl. rewrite Hs. reflexivity.
Qed.

Lemma fold_format_line (lines : list string) : forall text,
  fold_left format_line lines text = text +:+ shown_lines lines.
Proof.
  induction lines as [|line rest IH]; intros text.
  - simpl. rewrite append_empty_r. reflexivity.
  - simpl. rewrite IH, format_line_shown, append_assoc. reflexivity.
Qed.

(** X17: the formatter works line by line and drops no text: its result
    is the fixed header, then, for each line of the input in order, what
    that line shows as (nothing for a blank line or a section delimiter
    of the extractor, its bullet when it has one, the line itself
    otherwise), then the fixed footer. *)
Theorem formatting_is_linewise (lines : list string) :
  lines <> [] -> Forall one_line lines ->
  formatTextWithGemma (String.concat LF lines)
  = format_header +:+ shown_lines lines +:+ format_footer.
Proof.
  intros Hne Hall. unfold formatTextWithGemma. cbv zeta.
  rewrite (split_concat_lines lines Hne Hall), fold_format_line, append_assoc.
  reflexivity.
Qed.

Lemma formatting_is_linewise_witness :
  formatTextWithGemma
    (String.concat LF ["===== ページ 1 ====="; ""; "氏名: 山田"; "A | "])
  = format_header
    +:+ shown_lines ["===== ページ 1 ====="; ""; "氏名: 山田"; "A | "]
    +:+ format_footer.
Proof.
  apply (formatting_is_linewise ["===== ページ 1 ====="; ""; "氏名: 山田"; "A | "]).
  - discriminate.
  - repeat constructor.
Defined.

(** ** The route: a successful analysis *)

Lemma conclude_run (body : value) (tr : list event) :
  truthy body = true -> modelled (text_body body) ->
  conclude body tr
  = (Ret (Success (content_of body) (data_of body)), tr ++ extraction_events body).
Proof.
  intros Ht Hm. unfold conclude. rewrite run_bind, Ht.
  change ((if negb true then throw (Error timeout_message) else mret ()) tr)
    with (Ret tt, tr).
  cbv iota. rewrite run_bind, extractText_run.
  unfold content_of, data_of, extraction_events, text_log, data_log.
  pose proof (structured_body_modelled body) as Hs.
  destruct (text_body body) as [s|e|]; [| |exfalso; apply Hm; reflexivity].
  - rewrite run_bind, extractStructured_run.
    destruct (structured_body body) as [d|e'|]; [| |exfalso; apply Hs; reflexivity];
      rewrite <- app_assoc; reflexivity.
  - rewrite run_bind, extractStructured_run.
    destruct (structured_body body) as [d|e'|]; [| |exfalso; apply Hs; reflexivity];
      rewrite <- app_assoc; reflexivity.
Qed.

Lemma analysis_run
      (parse_url : string -> option URL) (transport : nat -> Request -> fetched)
      (runtime_message : exn -> string)
      (fileBase64 fileName fileType apiKey endpoint modelId base location : string)
      (w : list event) (r rk : Response) (k : nat) (body : value) :
  validated parse_url fileType apiKey endpoint base w ->
  transport 0%nat
    (submit_request (analyze_url base (effective_model modelId)) apiKey fileBase64)
  = Responded r ->
  accepted_with r location ->
  (1 <= k <= maxAttempts)%nat ->
  running_before transport location apiKey k ->
  transport k (poll_request location apiKey) = Responded rk ->
  succeeded rk body ->
  modelled (text_body body) ->
  analyzeDocument parse_url transport runtime_message
    fileBase64 fileName fileType apiKey endpoint modelId []
  = (Ret (Success (content_of body) (data_of body)),
     w ++ [EvFetch (submit_request (analyze_url base (effective_model modelId))
                      apiKey fileBase64)]
       ++ poll_events location apiKey k
       ++ extraction_events body).
Proof.
  intros Hv Hsub Hacc Hk Hrun Hrk Hsucc Hm.
  rewrite (analyze_polling parse_url transport runtime_message
             fileBase64 fileName fileType apiKey endpoint modelId
             base location w r Hv Hsub Hacc).
  destruct (validated_log parse_url _ _ _ _ _ Hv) as (_ & Hc & _).
  set (req := submit_request (analyze_url base (effective_model modelId)) apiKey fileBase64).
  assert (Hcount : fetch_count (w ++ [EvFetch req]) = 1%nat)
    by (rewrite fetch_count_snoc_fetch, Hc; reflexivity).
  destruct (succeeded_stops rk body Hsucc) as [Hstop Ht].
  assert (Hpoll : poll transport maxAttempts location apiKey (w ++ [EvFetch req])
                  = (Ret body, (w ++ [EvFetch req])
                                ++ poll_events location apiKey (S (k - 1)))).
  { apply poll_stops.
    - lia.
    - intros j Hj. rewrite Hcount in Hj.
      destruct (Hrun j) as (rj & Hrj & Hnt); [lia|].
      rewrite Hrj. apply non_terminal_continues, Hnt.
    - rewrite Hcount. replace (1 + (k - 1))%nat with k by lia.
      rewrite Hrk. exact Hstop. }
  replace (S (k - 1)) with k in Hpoll by lia.
  unfold try_catchM. rewrite run_bind, Hpoll, conclude_run by assumption.
  rewrite <- !app_assoc. reflexivity.
Qed.

(** X18: when poll [k] is the first to report ["succeeded"], the run
    returns a success whose content is what the text extractor makes of
    that answer and whose structured data is what the structured extractor
    makes of it; each extractor runs once, after the polling.  A failure of
    an extractor does not fail the analysis: the success then carries the
    fallback string as its content, or [null] as its structured data. *)
Theorem analysis_succeeds
        (parse_url : string -> option URL) (transport : nat -> Request -> fetched)
        (runtime_message : exn -> string)
        (fileBase64 fileName fileType apiKey endpoint modelId base location : string)
        (w : list event) (r rk : Response) (k : nat) (body : value) :
  validated parse_url fileType apiKey endpoint base w ->
  transport 0%nat
    (submit_request (analyze_url base (effective_model modelId)) apiKey fileBase64)
  = Responded r ->
  accepted_with r location ->
  (1 <= k <= maxAttempts)%nat ->
  running_before transport location apiKey k ->
  transport k (poll_request location apiKey) = Responded rk ->
  succeeded rk body ->
  modelled (text_body body) ->
  analyzeDocument parse_url transport runtime_message
    fileBase64 fileName fileType apiKey endpoint modelId []
  = (Ret (Success (content_of body) (data_of body)),
     w ++ [EvFetch (submit_request (analyze_url base (effective_model modelId))
                      apiKey fileBase64)]
       ++ poll_events location apiKey k
       ++ extraction_events body)
  /\ (forall e, text_body body = Throw e -> content_of body = fallback_text)
  /\ (forall e, structured_body body = Throw e -> data_of body = VNull).
Proof.
  intros Hv Hsub Hacc Hk Hrun Hrk Hsucc Hm.
  split; [eapply analysis_run; eauto|].
  split; intros e He.
  - unfold content_of. rewrite He. reflexivity.
  - unfold data_of. rewrite He. reflexivity.
Qed.

Lemma analysis_succeeds_witness :
  analyzeDocument https_only (scripted_with garbled_answer 2) no_runtime_message
    "QUJD" "form.pdf" "application/pdf" example_key example_endpoint "" []
  = (Ret (Success (content_of null_page_document) (data_of null_page_document)),
     [] ++ [EvFetch example_submit]
        ++ poll_events "https://operations.example/1" example_key 2
        ++ extraction_events null_page_document)
  /\ (forall e, text_body null_page_document = Throw e ->
                content_of null_page_document = fallback_text)
  /\ (forall e, structured_body null_page_document = Throw e ->
                data_of null_page_document = VNull).
Proof.
  apply (analysis_succeeds https_only (scripted_with garbled_answer 2)
           no_runtime_message
           "QUJD" "form.pdf" "application/pdf" example_key example_endpoint ""
           "https://x.cognitiveservices.azure.com" "https://operations.example/1"
           [] accepted garbled_answer 2%nat null_page_document).
  - repeat split; reflexivity.
  - reflexivity.
  - repeat split; try reflexivity; [eexists; reflexivity | discriminate].
  - unfold maxAttempts. lia.
  - intros j Hj. exists still_running. split.
    + unfold scripted_with. destruct j as [|j]; [lia|].
      replace (S j =? 2)%nat with false by (symmetry; apply Nat.eqb_neq; lia).
      reflexivity.
    + split; [reflexivity|].
      exists (VObj [("status", VStr "running")]), (VStr "running").
      repeat split; reflexivity.
  - reflexivity.
  - repeat split; reflexivity.
  - vm_compute. discriminate.
Defined.

Lemma validated_nonempty (parse_url : string -> option URL)
      (fileType apiKey endpoint base : string) (w : list event) :
  validated parse_url fileType apiKey endpoint base w ->
  fileType <> "" /\ apiKey <> "" /\ endpoint <> "".
Proof.
  intros (Hft & Hkey & Hn). repeat split; intros ->; discriminate.
Qed.

(** X19: the handler on its main path.  For a complete request that
    passes the validation, whose submission is accepted and whose poll [k]
    is the first to report ["succeeded"], the handler answers with status
    200; [content] is what the text extractor makes of that answer, and
    [formattedContent] is the formatter's rendering of that content when
    the request names a model path and the content is not empty, [null]
    otherwise.  The events of the run are those of the analysis. *)
Theorem POST_serves_document
        (parse_url : string -> option URL) (transport : nat -> Request -> fetched)
        (runtime_message : exn -> string)
        (fileBase64 fileName fileType apiKey endpoint model base location : string)
        (modelId gemmaModelPath : value)
        (w : list event) (r rk : Response) (k : nat) (body : value) :
  fileBase64 <> "" -> fileName <> "" ->
  or_else modelId (VStr default_model) = VStr model ->
  validated parse_url fileType apiKey endpoint base w ->
  transport 0%nat
    (submit_request (analyze_url base (effective_model model)) apiKey fileBase64)
  = Responded r ->
  accepted_with r location ->
  (1 <= k <= maxAttempts)%nat ->
  running_before transport location apiKey k ->
  transport k (poll_request location apiKey) = Responded rk ->
  succeeded rk body ->
  modelled (text_body body) ->
  POST_handler parse_url transport runtime_message
    (Some (upload fileBase64 fileName fileType apiKey endpoint modelId gemmaModelPath)) []
  = (Ret (mkHttpResponse 200
            (VObj [("content", VStr (content_of body));
                   ("formattedContent",
                    if truthy gemmaModelPath && negb (String.eqb (content_of body) "")
                    then VStr (formatTextWithGemma (content_of body))
                    else VNull)])),
     w ++ [EvFetch (submit_request (analyze_url base (effective_model model))
                      apiKey fileBase64)]
       ++ poll_events location apiKey k
       ++ extraction_events body).
Proof.
  intros H1 H2 Hm Hv Hsub Hacc Hk Hrun Hrk Hsucc Hmod.
  destruct (validated_nonempty parse_url _ _ _ _ _ Hv) as (H3 & H4 & H5).
  rewrite (POST_upload parse_url transport runtime_message
             fileBase64 fileName fileType apiKey endpoint model modelId gemmaModelPath [])
    by assumption.
  unfold try_catchM. rewrite run_bind.
  rewrite (analysis_run parse_url transport runtime_message
             fileBase64 fileName fileType apiKey endpoint model base location
             w r rk k body Hv Hsub Hacc Hk Hrun Hrk Hsucc Hmod).
  reflexivity.
Qed.

Lemma POST_serves_document_witness :
  POST_handler https_only (scripted_with (mkResponse 200 "OK" None (Some questionnaire)) 1)
    no_runtime_message
    (Some (upload "QUJD" "form.pdf" "application/pdf" example_key example_endpoint
             VUndef (VStr "/models/gemma"))) []
  = (Ret (mkHttpResponse 200
            (VObj [("content", VStr (content_of questionnaire));
                   ("formattedContent",
                    if truthy (VStr "/models/gemma")
                       && negb (String.eqb (content_of questionnaire) "")
                    then VStr (formatTextWithGemma (content_of questionnaire))
                    else VNull)])),
     [] ++ [EvFetch example_submit]
        ++ poll_events "https://operations.example/1" example_key 1
        ++ extraction_events questionnaire).
Proof.
  apply (POST_serves_document https_only
           (scripted_with (mkResponse 200 "OK" None (Some questionnaire)) 1)
           no_runtime_message
           "QUJD" "form.pdf" "application/pdf" example_key example_endpoint
           "prebuilt-layout" "https://x.cognitiveservices.azure.com"
           "https://operations.example/1" VUndef (VStr "/models/gemma")
           [] accepted (mkResponse 200 "OK" None (Some questionnaire)) 1%nat
           questionnaire).
  - discriminate.
  - discriminate.
  - reflexivity.
  - repeat split; reflexivity.
  - reflexivity.
  - repeat split; try reflexivity; [eexists; reflexivity | discriminate].
  - unfold maxAttempts. lia.
  - intros j Hj. lia.
  - reflexivity.
  - repeat split; reflexivity.
  - vm_compute. discriminate.
Defined.

(** ** The route: the service cannot be reached *)

(** X20: when the transport rejects the submission, the run returns a
    failure with the runtime's message for that error after this single
    request; when it rejects poll [k], all earlier answers being
    non-terminal, the run stops after exactly [k] attempts with the same
    failure.  Nothing is retried. *)
Theorem transport_rejection
        (parse_url : string -> option URL) (transport : nat -> Request -> fetched)
        (runtime_message : exn -> string)
        (fileBase64 fileName fileType apiKey endpoint modelId base : string)
        (w : list event) :
  validated parse_url fileType apiKey endpoint base w ->
  (transport 0%nat
     (submit_request (analyze_url base (effective_model modelId)) apiKey fileBase64)
   = Rejected ->
   analyzeDocument parse_url transport runtime_message
     fileBase64 fileName fileType apiKey endpoint modelId []
   = (Ret (Failure (runtime_message NetworkError)),
      w ++ [EvFetch (submit_request (analyze_url base (effective_model modelId))
                       apiKey fileBase64);
            EvError route_error_label (Some NetworkError)]))
  /\ (forall (r : Response) (location : string) (k : nat),
        transport 0%nat
          (submit_request (analyze_url base (effective_model modelId)) apiKey fileBase64)
        = Responded r ->
        accepted_with r location ->
        (1 <= k <= maxAttempts)%nat ->
        running_before transport location apiKey k ->
        transport k (poll_request location apiKey) = Rejected ->
        analyzeDocument parse_url transport runtime_message
          fileBase64 fileName fileType apiKey endpoint modelId []
        = (Ret (Failure (runtime_message NetworkError)),
           w ++ [EvFetch (submit_request (analyze_url base (effective_model modelId))
                            apiKey fileBase64)]
             ++ poll_events location apiKey k
             ++ [EvError route_error_label (Some NetworkError)])).
Proof.
  intros Hv. split.
  - intros Hsub.
    rewrite (analyze_validated parse_url transport runtime_message
               fileBase64 fileName fileType apiKey endpoint modelId base w Hv).
    destruct (validated_log parse_url _ _ _ _ _ Hv) as (_ & Hc & _).
    unfold try_catchM. rewrite run_bind, (fetch_submit_run transport) by exact Hc.
    rewrite Hsub, report_run, <- app_assoc. reflexivity.
  - intros r location k Hsub Hacc Hk Hrun Hrk.
    apply (analyze_stops_on_error parse_url transport runtime_message
             fileBase64 fileName fileType apiKey endpoint modelId base location
             w r k NetworkError Hv Hsub Hacc Hk Hrun).
    rewrite Hrk. reflexivity.
Qed.

Lemma transport_rejection_witness :
  analyzeDocument https_only unreachable no_runtime_message
    "QUJD" "form.pdf" "application/pdf" example_key example_endpoint "" []
  = (Ret (Failure (no_runtime_message NetworkError)),
     [] ++ [EvFetch example_submit; EvError route_error_label (Some NetworkError)])
  /\ analyzeDocument https_only (dropped_at 4) no_runtime_message
       "QUJD" "form.pdf" "application/pdf" example_key example_endpoint "" []
     = (Ret (Failure (no_runtime_message NetworkError)),
        [] ++ [EvFetch example_submit]
           ++ poll_events "https://operations.example/1" example_key 4
           ++ [EvError route_error_label (Some NetworkError)]).
Proof.
  split.
  - apply (proj1 (transport_rejection https_only unreachable no_runtime_message
                    "QUJD" "form.pdf" "application/pdf" example_key example_endpoint ""
                    "https://x.cognitiveservices.azure.com" []
                    (conj eq_refl (conj eq_refl eq_refl)))).
    reflexivity.
  - apply (proj2 (transport_rejection https_only (dropped_at 4) no_runtime_message
                    "QUJD" "form.pdf" "application/pdf" example_key example_endpoint ""
                    "https://x.cognitiveservices.azure.com" []
                    (conj eq_refl (conj eq_refl eq_refl)))
             accepted "https://operations.example/1" 4%nat).
    + reflexivity.
    + repeat split; try reflexivity; [eexists; reflexivity | discriminate].
    + unfold maxAttempts. lia.
    + intros j Hj. exists still_running. split.
      * unfold dropped_at. destruct j as [|j]; [lia|].
        replace (S j =? 4)%nat with false by (symmetry; apply Nat.eqb_neq; lia).
        reflexivity.
      * split; [reflexivity|].
        exists (VObj [("status", VStr "running")]), (VStr "running").
        repeat split; reflexivity.
    + reflexivity.
Defined.

(** ** azure-utils: humanizeErrorMessage *)

(** X21: on a caught value that is JSON data (what [JSON.parse] yields,
    or [undefined]) and not an [Error] instance, [humanizeErrorMessage]
    throws in one case only: the value is an object with a [message]
    property whose conversion to a string throws, and the error is then
    the one of that conversion.  On every other such value it returns a
    string.  Values that are no JSON data (a [BigInt], a function, a
    symbol, an object that holds itself) are outside this statement. *)
Theorem humanizeErrorMessage_throws_only_on_message
        (runtime_message : exn -> string) (v : value) :
  (forall e : exn,
     humanizeErrorMessage runtime_message (Plain v) = Throw e
     <-> exists props, v = VObj props /\ has_own props "message" = true
                       /\ to_string (lookup_prop props "message") = Throw e)
  /\ ((exists s, humanizeErrorMessage runtime_message (Plain v) = Ret s)
      \/ (exists e, humanizeErrorMessage runtime_message (Plain v) = Throw e)).
Proof.
  assert (Hcases :
    (exists props, v = VObj props /\ has_own props "message" = true
       /\ humanizeErrorMessage runtime_message (Plain v)
          = to_string (lookup_prop props "message"))
    \/ ((forall props, v = VObj props -> has_own props "message" = false)
        /\ exists s, humanizeErrorMessage runtime_message (Plain v) = Ret s)).
  { destruct v as [| |b|z|s|l|props]; simpl;
      try (right; split; [intros props [=]|eexists; reflexivity]).
    - right. split; [intros props [=]|]. destruct b; eexists; reflexivity.
    - right. split; [intros props [=]|]. destruct (z =? 0); eexists; reflexivity.
    - right. split; [intros props [=]|].
      destruct (String.eqb s ""); eexists; reflexivity.
    - destruct (has_own props "message") eqn:Hm.
      + left. exists props. auto.
      + right. split; [intros props' [= <-]; exact Hm|]. eexists; reflexivity. }
  split.
  - intros e. split.
    + intros He. destruct Hcases as [(props & -> & Hm & Hrun)|[_ (s & Hs)]].
      * exists props. rewrite <- Hrun. auto.
      * rewrite Hs in He. discriminate.
    + intros (props & -> & Hm & Hto).
      destruct Hcases as [(props' & [= <-] & _ & Hrun)|[Hno _]].
      * rewrite Hrun. exact Hto.
      * rewrite (Hno props eq_refl) in Hm. discriminate.
  - destruct Hcases as [(props & -> & Hm & Hrun)|[_ Hs]]; [|left; exact Hs].
    rewrite Hrun.
    pose proof (to_string_modelled (lookup_prop props "message")) as Hmod.
    destruct (to_string (lookup_prop props "message")) as [s|e|].
    + left. exists s. reflexivity.
    + right. exists e. reflexivity.
    + exfalso. apply Hmod. reflexivity.
Qed.

(** ** The route: an endpoint that is no URL *)

(** X22: with a supported file type and a well-formed key, an endpoint
    that is empty or that the URL parser refuses makes [analyzeDocument]
    return a failure with the normaliser's message (one for the missing,
    one for the invalid endpoint); nothing is sent to the service, and the
    error is logged once. *)
Theorem endpoint_rejected_before_network
        (parse_url : string -> option URL) (transport : nat -> Request -> fetched)
        (runtime_message : exn -> string)
        (fileBase64 fileName fileType apiKey endpoint modelId : string)
        (tr : list event) :
  validateFileType fileType = true ->
  validateApiKey apiKey = true ->
  endpoint = "" \/ parse_url endpoint = None ->
  analyzeDocument parse_url transport runtime_message
    fileBase64 fileName fileType apiKey endpoint modelId tr
  = (Ret (Failure (if String.eqb endpoint "" then endpoint_missing_message
                   else endpoint_invalid_message)),
     tr ++ [EvError route_error_label
              (Some (Error (if String.eqb endpoint "" then endpoint_missing_message
                            else endpoint_invalid_message)))]).
Proof.
  intros Hft Hkey Hbad.
  assert (Hn : normalizeAzureEndpoint parse_url endpoint tr
               = (Throw (Error (if String.eqb endpoint "" then endpoint_missing_message
                                else endpoint_invalid_message)), tr)).
  { destruct (String.eqb endpoint "") eqn:E.
    - apply String.eqb_eq in E. subst. apply normalize_empty.
    - apply String.eqb_neq in E. destruct Hbad as [->|Hu]; [contradiction|].
      apply normalize_unparsed; assumption. }
  unfold analyzeDocument, try_catchM.
  rewrite Hft, Hkey. cbn [negb].
  rewrite run_bind, run_ret. cbv iota.
  rewrite run_bind, run_ret. cbv iota.
  cbv zeta. rewrite run_bind, Hn, report_run. reflexivity.
Qed.

Lemma endpoint_rejected_before_network_witness :
  analyzeDocument https_only unreachable no_runtime_message
    "QUJD" "form.pdf" "application/pdf" example_key "x.cognitiveservices.azure.com" "" []
  = (Ret (Failure (if String.eqb "x.cognitiveservices.azure.com" ""
                   then endpoint_missing_message else endpoint_invalid_message)),
     [] ++ [EvError route_error_label
              (Some (Error (if String.eqb "x.cognitiveservices.azure.com" ""
                            then endpoint_missing_message
                            else endpoint_invalid_message)))]).
Proof.
  apply (endpoint_rejected_before_network https_only unreachable no_runtime_message
           "QUJD" "form.pdf" "application/pdf" example_key
           "x.cognitiveservices.azure.com" "" []).
  - reflexivity.
  - reflexivity.
  - right. reflexivity.
Defined.

(** ** The hook that calls the route *)

Lemma hook_bind {A B : Type} (m : Hook A) (f : A -> Hook B) (tr : list hook_event) :
  (m ≫= f) tr
  = match m tr with
    | (Done a, tr') => f a tr'
    | (Raise t, tr') => (Raise t, tr')
    | (Beyond, tr') => (Beyond, tr')
    end.
Proof. reflexivity. Qed.

Lemma hook_ret {A : Type} (a : A) (tr : list hook_event) :
  @mret Hook Hook_ret A a tr = (Done a, tr).
Proof. reflexivity. Qed.

Lemma call_run (e : hook_event) (tr : list hook_event) :
  call e tr = (Done tt, tr ++ [e]).
Proof. reflexivity. Qed.

Lemma api_json_run (r : Response) (tr : list hook_event) :
  api_json r tr
  = (match json_body r with
     | Some v => Done v
     | None => Raise (Raised SyntaxError)
     end, tr).
Proof. unfold api_json. destruct (json_body r); reflexivity. Qed.

Section HookRuns.

Variable read_as_data_url : File -> reading.
Variable api : Request -> fetched.
Variable processText : value -> value -> value.
Variable runtime_message : exn -> string.

(** The refusal always raises an [Error] instance and calls nothing. *)
Lemma refuse_run {A : Type} (response : Response) (tr : list hook_event) :
  exists e : exn, refuse (A := A) response tr = (Raise (Raised e), tr).
Proof.
  unfold refuse. rewrite hook_bind, api_json_run.
  destruct (json_body response) as [errorData|]; [|eexists; reflexivity].
  cbv iota. rewrite hook_bind. unfold of_res.
  pose proof (get_modelled errorData "error") as Hg.
  destruct (get errorData "error") as [e| |];
    [|eexists; reflexivity|exfalso; apply Hg; reflexivity].
  cbv beta iota. rewrite hook_bind.
  set (v := or_else e _).
  pose proof (to_string_modelled v) as Hs.
  destruct (to_string v) as [s| |];
    [eexists; reflexivity|eexists; reflexivity|exfalso; apply Hs; reflexivity].
Qed.

(** Publishing sets the result once, or raises an [Error] instance. *)
Lemma publish_run (apiResult gemmaModelPath : value) (tr : list hook_event) :
  (exists content formatted,
     truthy content = true
     /\ publish processText apiResult gemmaModelPath tr
        = (Done tt, tr ++ [SetResult (content_result content formatted)]))
  \/ (exists e : exn,
        publish processText apiResult gemmaModelPath tr = (Raise (Raised e), tr)).
Proof.
  unfold publish. rewrite hook_bind. unfold of_res.
  pose proof (get_modelled apiResult "content") as Hg.
  destruct (get apiResult "content") as [content|e|] eqn:Hc;
    [|right; eexists; reflexivity|exfalso; apply Hg; reflexivity].
  cbv beta iota.
  destruct (truthy content) eqn:Ht; [|right; eexists; reflexivity].
  left. rewrite hook_bind.
  destruct (get_total apiResult content "content" "formattedContent" Hc) as (f & Hf).
  rewrite Hf. cbv zeta. eexists _, _. split; [exact Ht|reflexivity].
Qed.

(** The [try] block: its calls and its end. *)
Lemma body_run (file : File) (azureApiKey azureEndpoint modelId : string)
      (gemmaModelPath : value) (tr : list hook_event) :
  exists (fetches : list hook_event),
    Forall (fun e => is_api_fetch e = true) fetches
    /\ (length fetches <= 1)%nat
    /\ ((exists content formatted,
           truthy content = true
           /\ (call (SetIsProcessing true);;
               call (SetResult VNull);;
               fileBase64 ← fileToBase64 read_as_data_url file;
               response ← api_fetch api (api_request fileBase64 file azureApiKey
                                           azureEndpoint modelId gemmaModelPath);
               (if negb (ok response) then refuse response else mret tt);;
               apiResult ← api_json response;
               publish processText apiResult gemmaModelPath) tr
              = (Done tt,
                 tr ++ [SetIsProcessing true; SetResult VNull] ++ fetches
                    ++ [SetResult (content_result content formatted)]))
        \/ (exists t : thrown,
              (call (SetIsProcessing true);;
               call (SetResult VNull);;
               fileBase64 ← fileToBase64 read_as_data_url file;
               response ← api_fetch api (api_request fileBase64 file azureApiKey
                                           azureEndpoint modelId gemmaModelPath);
               (if negb (ok response) then refuse response else mret tt);;
               apiResult ← api_json response;
               publish processText apiResult gemmaModelPath) tr
              = (Raise t, tr ++ [SetIsProcessing true; SetResult VNull] ++ fetches))).
Proof.
  rewrite hook_bind, call_run. cbv iota.
  rewrite hook_bind, call_run. cbv iota.
  rewrite <- app_assoc. cbn [app]. rewrite hook_bind.
  set (tr0 := tr ++ [SetIsProcessing true; SetResult VNull]).
  assert (Hfail : forall (t : thrown) (fs : list hook_event),
            Forall (fun e => is_api_fetch e = true) fs -> (length fs <= 1)%nat ->
            forall o, o = (Raise t, tr ++ [SetIsProcessing true; SetResult VNull] ++ fs) ->
            exists fetches,
              Forall (fun e => is_api_fetch e = true) fetches
              /\ (length fetches <= 1)%nat
              /\ ((exists content formatted,
                     truthy content = true
                     /\ o = (Done tt,
                             tr ++ [SetIsProcessing true; SetResult VNull] ++ fetches
                                ++ [SetResult (content_result content formatted)]))
                  \/ (exists t0 : thrown,
                        o = (Raise t0,
                             tr ++ [SetIsProcessing true; SetResult VNull] ++ fetches)))).
  { intros t fs Hfs Hlen o ->. exists fs. split; [exact Hfs|]. split; [exact Hlen|].
    right. exists t. reflexivity. }
  unfold fileToBase64.
  destruct (read_as_data_url file) as [result|].
  2:{ apply (Hfail ErrorEvent []); [constructor|simpl; lia|].
      unfold raise. subst tr0. rewrite app_nil_r. reflexivity. }
  destruct result as [| |b|z|s|l|props];
    try (apply (Hfail (Raised (Error read_failure_message)) []);
         [constructor|simpl; lia|];
         unfold raise; subst tr0; rewrite app_nil_r; reflexivity).
  cbv zeta. rewrite hook_ret. cbv iota.
  set (req := api_request (second (split comma_head s)) file azureApiKey azureEndpoint
                modelId gemmaModelPath).
  rewrite hook_bind. unfold api_fetch.
  destruct (api req) as [response|].
  2:{ apply (Hfail (Raised NetworkError) [ApiFetch req]);
        [repeat constructor|simpl; lia|].
      subst tr0. rewrite <- app_assoc. reflexivity. }
  cbv iota. rewrite hook_bind.
  assert (Htr : tr0 ++ [ApiFetch req]
                = tr ++ [SetIsProcessing true; SetResult VNull] ++ [ApiFetch req])
    by (subst tr0; rewrite <- app_assoc; reflexivity).
  destruct (negb (ok response)).
  { destruct (refuse_run (A := unit) response (tr0 ++ [ApiFetch req])) as (e & ->).
    apply (Hfail (Raised e) [ApiFetch req]); [repeat constructor|simpl; lia|].
    cbv iota. rewrite Htr. reflexivity. }
  rewrite hook_ret. cbv iota. rewrite hook_bind, api_json_run.
  destruct (json_body response) as [apiResult|].
  2:{ apply (Hfail (Raised SyntaxError) [ApiFetch req]);
        [repeat constructor|simpl; lia|].
      rewrite Htr. reflexivity. }
  cbv iota.
  destruct (publish_run apiResult gemmaModelPath (tr0 ++ [ApiFetch req]))
    as [(content & formatted & Ht & ->)|(e & ->)].
  - exists [ApiFetch req]. split; [repeat constructor|]. split; [simpl; lia|].
    left. exists content, formatted. split; [exact Ht|].
    rewrite Htr, <- !app_assoc. reflexivity.
  - apply (Hfail (Raised e) [ApiFetch req]); [repeat constructor|simpl; lia|].
    rewrite Htr. reflexivity.
Qed.

End HookRuns.

(** X23: every run of [processDocument] ends normally and calls the state
    setters in the same way: the processing flag is raised, the result is
    cleared, one result is published, and the flag is lowered last.  The
    result is either a content (truthy) with its formatted text, or an
    error with a message.  The route is called at most once. *)
Theorem processDocument_settles
        (read_as_data_url : File -> reading) (api : Request -> fetched)
        (processText : value -> value -> value) (runtime_message : exn -> string)
        (file : File) (azureApiKey azureEndpoint modelId : string)
        (gemmaModelPath : value) :
  exists (tr : list hook_event) (r : value),
    processDocument read_as_data_url api processText runtime_message
      file azureApiKey azureEndpoint modelId gemmaModelPath []
    = (Done tt, tr)
    /\ setters tr
       = [SetIsProcessing true; SetResult VNull; SetResult r; SetIsProcessing false]
    /\ (length (List.filter is_api_fetch tr) <= 1)%nat
    /\ ((exists content formatted,
           truthy content = true /\ r = content_result content formatted)
        \/ (exists message, r = error_result message)).
Proof.
  destruct (body_run read_as_data_url api processText file azureApiKey azureEndpoint
              modelId gemmaModelPath [])
    as (fetches & Hf & Hlen & Hbody).
  assert (Hfetches : fetches = [] \/ exists req, fetches = [ApiFetch req]).
  { destruct fetches as [|e [|e' l]]; [auto| |simpl in Hlen; lia].
    right. apply Forall_inv in Hf. destruct e; try discriminate. eauto. }
  unfold processDocument, try_catch_finally.
  destruct Hbody as [(content & formatted & Ht & ->)|(t & ->)].
  - exists ([] ++ [SetIsProcessing true; SetResult VNull] ++ fetches
               ++ [SetResult (content_result content formatted)]
               ++ [SetIsProcessing false]),
      (content_result content formatted).
    split; [rewrite call_run, <- !app_assoc; reflexivity|].
    destruct Hfetches as [->|(req & ->)];
      (split; [reflexivity|]); (split; [simpl; lia|]); left; eauto.
  - exists ([] ++ [SetIsProcessing true; SetResult VNull] ++ fetches
               ++ [HookError hook_error_label t;
                   SetResult (error_result (shown_error runtime_message t))]
               ++ [SetIsProcessing false]),
      (error_result (shown_error runtime_message t)).
    split.
    { unfold report_failure. rewrite hook_bind, !call_run. cbv iota.
      rewrite <- !app_assoc. reflexivity. }
    destruct Hfetches as [->|(req & ->)];
      (split; [reflexivity|]); (split; [simpl; lia|]); right; eauto.
Qed.

Ltac hook_start Hread Hapi :=
  unfold processDocument, try_catch_finally;
  rewrite hook_bind, call_run; cbv iota;
  rewrite hook_bind, call_run; cbv iota;
  rewrite hook_bind; unfold fileToBase64; rewrite Hread; cbv zeta;
  rewrite hook_ret; cbv iota;
  rewrite hook_bind; unfold api_fetch; rewrite Hapi; cbv iota;
  rewrite hook_bind.

(** X24: when the route answers with a status outside 200..299 and a JSON
    body, the hook publishes an error whose message is the body's [error]
    field as a string, or, when that field is missing or falsy, the text
    [APIエラー: ] followed by the status; it logs the error and lowers the
    processing flag. *)
Theorem route_error_is_shown
        (read_as_data_url : File -> reading) (api : Request -> fetched)
        (processText : value -> value -> value) (runtime_message : exn -> string)
        (file : File) (azureApiKey azureEndpoint modelId : string)
        (gemmaModelPath : value)
        (s : string) (r : Response) (errorData e : value) (message : string) :
  read_as_data_url file = Loaded (VStr s) ->
  api (api_request (second (split comma_head s)) file azureApiKey azureEndpoint
         modelId gemmaModelPath) = Responded r ->
  ok r = false ->
  json_body r = Some errorData ->
  get errorData "error" = Ret e ->
  to_string (or_else e (VStr (status_text r))) = Ret message ->
  processDocument read_as_data_url api processText runtime_message
    file azureApiKey azureEndpoint modelId gemmaModelPath []
  = (Done tt,
     [SetIsProcessing true; SetResult VNull;
      ApiFetch (api_request (second (split comma_head s)) file azureApiKey
                  azureEndpoint modelId gemmaModelPath);
      HookError hook_error_label (Raised (Error message));
      SetResult (error_result message);
      SetIsProcessing false]).
Proof.
  intros Hread Hapi Hok Hjson He Hmsg.
  hook_start Hread Hapi.
  rewrite Hok. cbn [negb]. unfold refuse.
  rewrite hook_bind, api_json_run, Hjson. cbv iota.
  rewrite hook_bind. unfold of_res at 1. rewrite He. cbv iota.
  rewrite hook_bind. unfold of_res at 1.
  change ("APIエラー: " +:+ string_of_Z (status r)) with (status_text r).
  rewrite Hmsg. reflexivity.
Qed.

Lemma route_error_is_shown_witness :
  processDocument (reads_as "data:application/pdf;base64,QUJD") (answers bad_request)
    no_formatter no_runtime_message
    example_file example_key "" "prebuilt-layout" VUndef []
  = (Done tt,
     [SetIsProcessing true; SetResult VNull;
      ApiFetch (api_request
                  (second (split comma_head "data:application/pdf;base64,QUJD"))
                  example_file example_key "" "prebuilt-layout" VUndef);
      HookError hook_error_label (Raised (Error missing_credentials_message));
      SetResult (error_result missing_credentials_message);
      SetIsProcessing false]).
Proof.
  apply (route_error_is_shown (reads_as "data:application/pdf;base64,QUJD")
           (answers bad_request) no_formatter no_runtime_message
           example_file example_key "" "prebuilt-layout" VUndef
           "data:application/pdf;base64,QUJD" bad_request
           (VObj [("error", VStr missing_credentials_message)])
           (VStr missing_credentials_message) missing_credentials_message);
    reflexivity.
Defined.

(** X25: when the route answers with status 200 but its [content] is
    missing, empty or otherwise falsy, the hook does not publish a content:
    it publishes the error that the extraction failed, logs it and lowers
    the processing flag. *)
Theorem empty_content_is_an_error
        (read_as_data_url : File -> reading) (api : Request -> fetched)
        (processText : value -> value -> value) (runtime_message : exn -> string)
        (file : File) (azureApiKey azureEndpoint modelId : string)
        (gemmaModelPath : value)
        (s : string) (r : Response) (apiResult content : value) :
  read_as_data_url file = Loaded (VStr s) ->
  api (api_request (second (split comma_head s)) file azureApiKey azureEndpoint
         modelId gemmaModelPath) = Responded r ->
  ok r = true ->
  json_body r = Some apiResult ->
  get apiResult "content" = Ret content ->
  truthy content = false ->
  processDocument read_as_data_url api processText runtime_message
    file azureApiKey azureEndpoint modelId gemmaModelPath []
  = (Done tt,
     [SetIsProcessing true; SetResult VNull;
      ApiFetch (api_request (second (split comma_head s)) file azureApiKey
                  azureEndpoint modelId gemmaModelPath);
      HookError hook_error_label (Raised (Error extraction_failed_message));
      SetResult (error_result extraction_failed_message);
      SetIsProcessing false]).
Proof.
  intros Hread Hapi Hok Hjson Hc Ht.
  hook_start Hread Hapi.
  rewrite Hok. cbn [negb]. rewrite hook_ret. cbv iota.
  rewrite hook_bind, api_json_run, Hjson. cbv iota.
  unfold publish. rewrite hook_bind. unfold of_res at 1. rewrite Hc. cbv iota.
  rewrite Ht. reflexivity.
Qed.

Lemma empty_content_is_an_error_witness :
  processDocument (reads_as "data:application/pdf;base64,QUJD") (answers empty_content)
    no_formatter no_runtime_message
    example_file example_key example_endpoint "prebuilt-layout" VUndef []
  = (Done tt,
     [SetIsProcessing true; SetResult VNull;
      ApiFetch (api_request
                  (second (split comma_head "data:application/pdf;base64,QUJD"))
                  example_file example_key example_endpoint "prebuilt-layout" VUndef);
      HookError hook_error_label (Raised (Error extraction_failed_message));
      SetResult (error_result extraction_failed_message);
      SetIsProcessing false]).
Proof.
  apply (empty_content_is_an_error (reads_as "data:application/pdf;base64,QUJD")
           (answers empty_content) no_formatter no_runtime_message
           example_file example_key example_endpoint "prebuilt-layout" VUndef
           "data:application/pdf;base64,QUJD" empty_content
           (VObj [("content", VStr ""); ("formattedContent", VNull)]) (VStr ""));
    reflexivity.
Defined.

(** X26: when the route answers with status 200 and a truthy [content],
    the hook publishes that content without logging anything; the
    formatted text is the one of the answer when it has one, otherwise
    what [processText] makes of the content when a model path was given,
    otherwise [undefined]. *)
Theorem content_is_published
        (read_as_data_url : File -> reading) (api : Request -> fetched)
        (processText : value -> value -> value) (runtime_message : exn -> string)
        (file : File) (azureApiKey azureEndpoint modelId : string)
        (gemmaModelPath : value)
        (s : string) (r : Response) (apiResult content formatted : value) :
  read_as_data_url file = Loaded (VStr s) ->
  api (api_request (second (split comma_head s)) file azureApiKey azureEndpoint
         modelId gemmaModelPath) = Responded r ->
  ok r = true ->
  json_body r = Some apiResult ->
  get apiResult "content" = Ret content ->
  truthy content = true ->
  get apiResult "formattedContent" = Ret formatted ->
  processDocument read_as_data_url api processText runtime_message
    file azureApiKey azureEndpoint modelId gemmaModelPath []
  = (Done tt,
     [SetIsProcessing true; SetResult VNull;
      ApiFetch (api_request (second (split comma_head s)) file azureApiKey
                  azureEndpoint modelId gemmaModelPath);
      SetResult
        (content_result content
           (if truthy formatted then formatted
            else if truthy gemmaModelPath
                 then or_else (processText content gemmaModelPath) VUndef
                 else VUndef));
      SetIsProcessing false]).
Proof.
  intros Hread Hapi Hok Hjson Hc Ht Hf.
  hook_start Hread Hapi.
  rewrite Hok. cbn [negb]. rewrite hook_ret. cbv iota.
  rewrite hook_bind, api_json_run, Hjson. cbv iota.
  unfold publish. rewrite hook_bind. unfold of_res at 1. rewrite Hc. cbv iota.
  rewrite Ht. rewrite hook_bind. unfold of_res at 1. rewrite Hf. cbv iota zeta.
  rewrite call_run. cbv iota. rewrite call_run.
  unfold or_else at 1.
  destruct (truthy formatted) eqn:Etf; cbn [negb andb].
  - rewrite Etf. reflexivity.
  - destruct (truthy gemmaModelPath); [reflexivity|]. rewrite Etf. reflexivity.
Qed.

Lemma content_is_published_witness :
  processDocument (reads_as "data:application/pdf;base64,QUJD") (answers served)
    no_formatter no_runtime_message
    example_file example_key example_endpoint "prebuilt-layout" (VStr "/models/gemma") []
  = (Done tt,
     [SetIsProcessing true; SetResult VNull;
      ApiFetch (api_request
                  (second (split comma_head "data:application/pdf;base64,QUJD"))
                  example_file example_key example_endpoint "prebuilt-layout"
                  (VStr "/models/gemma"));
      SetResult
        (content_result (VStr "氏名: 山田")
           (if truthy VNull then VNull
            else if truthy (VStr "/models/gemma")
                 then or_else (no_formatter (VStr "氏名: 山田") (VStr "/models/gemma"))
                        VUndef
                 else VUndef));
      SetIsProcessing false]).
Proof.
  apply (content_is_published (reads_as "data:application/pdf;base64,QUJD")
           (answers served) no_formatter no_runtime_message
           example_file example_key example_endpoint "prebuilt-layout"
           (VStr "/models/gemma")
           "data:application/pdf;base64,QUJD" served
           (VObj [("content", VStr "氏名: 山田"); ("formattedContent", VNull)])
           (VStr "氏名: 山田") VNull);
    reflexivity.
Defined.

Lemma comma_head_inside (a : ascii) (k : list ascii) (rest : list ascii) :
  includes (of_bytes (a :: k)) "," = false ->
  comma_head ((a :: k) ++ rest) = 0%nat.
Proof.
  intros H. cbn [of_bytes] in H. rewrite includes_cons in H.
  apply orb_false_iff in H as [H _].
  cbn [app comma_head]. destruct (code a =? 44)%nat eqn:E; [|reflexivity].
  apply code_chr in E. subst a.
  change "," with (String (chr 44) "") in H.
  rewrite prefix_same, prefix_nil in H. discriminate.
Qed.

Lemma split_aux_comma (k : list ascii) : forall (cur rest : list ascii),
  includes (of_bytes k) "," = false ->
  split_aux comma_head 0 cur (k ++ rest)
  = split_aux comma_head 0 (rev k ++ cur) rest.
Proof.
  induction k as [|a k IH]; intros cur rest H; [reflexivity|].
  change ((a :: k) ++ rest) with (a :: (k ++ rest)).
  cbn [split_aux].
  change (a :: (k ++ rest)) with ((a :: k) ++ rest).
  rewrite (comma_head_inside a k rest H).
  cbn [of_bytes] in H. rewrite includes_cons in H.
  apply orb_false_iff in H as [_ H].
  rewrite IH by assumption.
  cbn [rev]. rewrite <- app_assoc. reflexivity.
Qed.

Lemma split_comma_free (s : string) :
  comma_free s -> split comma_head s = [s].
Proof.
  intros H. unfold split.
  rewrite <- (app_nil_r (bytes s)), split_aux_comma
    by (rewrite bytes_of_bytes; exact H).
  cbn [split_aux]. rewrite app_nil_r, rev_involutive, bytes_of_bytes. reflexivity.
Qed.

Lemma split_comma_pair (prefix payload : string) :
  comma_free prefix -> comma_free payload ->
  split comma_head (prefix +:+ "," +:+ payload) = [prefix; payload].
Proof.
  intros Hp Hq. unfold split. rewrite !bytes_append.
  rewrite split_aux_comma by (rewrite bytes_of_bytes; exact Hp).
  change (bytes ",") with [chr 44]. cbn [app split_aux comma_head].
  change (code (chr 44) =? 44)%nat with true. cbv iota.
  rewrite app_nil_r, rev_involutive, bytes_of_bytes.
  f_equal. apply split_comma_free, Hq.
Qed.

(** X27: [fileToBase64] resolves with the payload of a data URL: for a
    read that ends with the text [prefix,payload], neither part holding a
    comma, the result is [payload]. *)
Theorem fileToBase64_payload
        (read_as_data_url : File -> reading) (file : File) (prefix payload : string)
        (tr : list hook_event) :
  read_as_data_url file = Loaded (VStr (prefix +:+ "," +:+ payload)) ->
  comma_free prefix -> comma_free payload ->
  fileToBase64 read_as_data_url file tr = (Done (VStr payload), tr).
Proof.
  intros Hread Hp Hq. unfold fileToBase64. rewrite Hread.
  cbv zeta. rewrite (split_comma_pair prefix payload Hp Hq). reflexivity.
Qed.

Lemma fileToBase64_payload_witness :
  fileToBase64 (reads_as "data:application/pdf;base64,QUJD") example_file []
  = (Done (VStr "QUJD"), []).
Proof.
  apply (fileToBase64_payload (reads_as "data:application/pdf;base64,QUJD")
           example_file "data:application/pdf;base64" "QUJD" []);
    reflexivity.
Defined.

(** ** The route: runs that return *)

Section Returns.

Variable parse_url : string -> option URL.
Variable transport : nat -> Request -> fetched.
Variable runtime_message : exn -> string.

(** One attempt never leaves the embedding, and what it hands over is a
    truthy body that the service sent. *)
Lemma attempt_outcome_sent (k : nat) (req : Request) :
  match attempt_outcome (transport k req) with
  | Continue => True
  | Stop out =>
      out <> Unmodelled
      /\ forall v, out = Ret v ->
           truthy v = true
           /\ exists r, transport k req = Responded r /\ json_body r = Some v
  end.
Proof.
  unfold attempt_outcome. destruct (transport k req) as [r|].
  2:{ split; [discriminate|]. intros v [=]. }
  destruct (negb (ok r)); [split; [discriminate|intros v [=]]|].
  destruct (json_body r) as [body|] eqn:Hjson; [|split; [discriminate|intros v [=]]].
  pose proof (get_modelled body "status") as Hst.
  destruct (get body "status") as [st|e|] eqn:Hget;
    [|split; [discriminate|intros v [=]]|exfalso; apply Hst; reflexivity].
  destruct (strict_eq_str st "succeeded") eqn:Hs.
  - split; [discriminate|]. intros v [= <-]. split; [|eauto].
    destruct body; try reflexivity; simpl in Hget; try discriminate;
      injection Hget as <-; discriminate.
  - destruct (strict_eq_str st "failed"); [|exact I].
    pose proof (get_modelled body "errors") as He.
    destruct (get body "errors") as [errors|e|];
      [| |exfalso; apply He; reflexivity];
      (split; [discriminate|intros v [=]]).
Qed.

Lemma poll_sent (location apiKey : string) (n : nat) : forall tr : list event,
  exists (out : res value) (tr' : list event),
    poll transport n location apiKey tr = (out, tr')
    /\ out <> Unmodelled
    /\ forall v, out = Ret v -> truthy v = true ->
         exists k r, transport k (poll_request location apiKey) = Responded r
                     /\ json_body r = Some v.
Proof.
  induction n as [|n IH]; intros tr.
  - exists (Ret VNull), tr. split; [reflexivity|]. split; [discriminate|].
    intros v [= <-] Ht. discriminate.
  - rewrite poll_S.
    pose proof (attempt_outcome_sent (fetch_count tr) (poll_request location apiKey)) as H.
    destruct (attempt_outcome (transport (fetch_count tr) (poll_request location apiKey)))
      as [|out].
    + apply IH.
    + destruct H as [Hm Hv]. eexists _, _. split; [reflexivity|]. split; [exact Hm|].
      intros v Hout _. destruct (Hv v Hout) as (_ & r & Hr & Hj). eauto.
Qed.

Lemma normalize_outcome (endpoint : string) (tr : list event) :
  fst (normalizeAzureEndpoint parse_url endpoint tr) <> Unmodelled.
Proof.
  destruct endpoint as [|a s] eqn:E.
  - rewrite normalize_empty. discriminate.
  - destruct (parse_url (String a s)) as [u|] eqn:Hu.
    + rewrite (normalize_parsed _ _ u tr) by (discriminate || exact Hu). discriminate.
    + rewrite normalize_unparsed by (discriminate || exact Hu). discriminate.
Qed.

(** On answers that the embedding covers, the function returns. *)
Lemma analyze_returns
      (fileBase64 fileName fileType apiKey endpoint modelId : string)
      (tr : list event) :
  answers_modelled transport ->
  exists (a : analysis) (tr' : list event),
    analyzeDocument parse_url transport runtime_message
      fileBase64 fileName fileType apiKey endpoint modelId tr = (Ret a, tr')
    /\ ((exists c d, a = Success c d)
        \/ (exists e evs, a = Failure (message_of runtime_message e)
                          /\ tr' = evs ++ [EvError route_error_label (Some e)])).
Proof.
  intros Hans.
  assert (Hfail : forall (e : exn) (tr1 : list event) (o : res analysis * list event),
            o = report runtime_message e tr1 ->
            exists a tr', o = (Ret a, tr')
              /\ ((exists c d, a = Success c d)
                  \/ (exists e0 evs, a = Failure (message_of runtime_message e0)
                        /\ tr' = evs ++ [EvError route_error_label (Some e0)]))).
  { intros e tr1 o ->. rewrite report_run. eexists _, _. split; [reflexivity|].
    right. eauto. }
  unfold analyzeDocument, try_catchM.
  rewrite run_bind.
  destruct (negb (validateFileType fileType)); [eapply Hfail; reflexivity|].
  rewrite run_ret. cbv iota. rewrite run_bind.
  destruct (negb (validateApiKey apiKey)); [eapply Hfail; reflexivity|].
  rewrite run_ret. cbv iota. cbv zeta. rewrite run_bind.
  pose proof (normalize_outcome endpoint tr) as Hn.
  destruct (normalizeAzureEndpoint parse_url endpoint tr) as [[base|e|] tr1];
    [|eapply Hfail; reflexivity|exfalso; apply Hn; reflexivity].
  cbv iota. rewrite run_bind. unfold fetch.
  set (req := submit_request (analyze_url base (effective_model modelId)) apiKey fileBase64).
  destruct (transport (fetch_count tr1) req) as [r|]; [|eapply Hfail; reflexivity].
  cbv iota.
  destruct (negb (ok r)).
  { rewrite raise_translated_run. eapply Hfail; reflexivity. }
  rewrite run_bind. unfold response_json.
  destruct (json_body r) as [b|]; [|eapply Hfail; reflexivity].
  rewrite run_ret. cbv iota.
  destruct (operationLocation r) as [location|]; [|eapply Hfail; reflexivity].
  destruct (negb (truthy (VStr location))); [eapply Hfail; reflexivity|].
  rewrite run_bind.
  destruct (poll_sent location apiKey maxAttempts (tr1 ++ [EvFetch req]))
    as (out & tr2 & -> & Hm & Hsent).
  destruct out as [v|e|]; [|eapply Hfail; reflexivity|exfalso; apply Hm; reflexivity].
  cbv iota.
  destruct (truthy v) eqn:Ht.
  - destruct (Hsent v eq_refl Ht) as (k & rk & Hrk & Hj).
    rewrite (conclude_run v tr2 Ht (Hans _ _ _ _ Hrk Hj)).
    eexists _, _. split; [reflexivity|]. left. eauto.
  - rewrite (conclude_falsy v tr2 Ht). eapply Hfail; reflexivity.
Qed.

End Returns.

(** X6: [analyzeDocument] never throws.  Whatever the inputs and the URL
    parser are, and whatever the service does, as long as the bodies it
    sends are ones that the embedding of the text extractor covers, the
    call returns: a success with the content and the structured data, or
    a failure with the message of the error that was raised inside, which
    is then the last thing logged. *)
Theorem analyzeDocument_never_throws
        (parse_url : string -> option URL) (transport : nat -> Request -> fetched)
        (runtime_message : exn -> string)
        (fileBase64 fileName fileType apiKey endpoint modelId : string)
        (tr : list event) :
  answers_modelled transport ->
  exists (a : analysis) (tr' : list event),
    analyzeDocument parse_url transport runtime_message
      fileBase64 fileName fileType apiKey endpoint modelId tr = (Ret a, tr')
    /\ ((exists content structured, a = Success content structured)
        \/ (exists e evs,
              a = Failure (message_of runtime_message e)
              /\ tr' = evs ++ [EvError route_error_label (Some e)])).
Proof.
  intros Hans.
  apply (analyze_returns parse_url transport runtime_message
           fileBase64 fileName fileType apiKey endpoint modelId tr Hans).
Qed.

Lemma analyzeDocument_never_throws_witness :
  exists (a : analysis) (tr' : list event),
    analyzeDocument https_only (scripted 11) no_runtime_message
      "QUJD" "form.pdf" "application/pdf" example_key example_endpoint "" []
    = (Ret a, tr')
    /\ ((exists content structured, a = Success content structured)
        \/ (exists e evs,
              a = Failure (message_of no_runtime_message e)
              /\ tr' = evs ++ [EvError route_error_label (Some e)])).
Proof.
  apply (analyzeDocument_never_throws https_only (scripted 11) no_runtime_message
           "QUJD" "form.pdf" "application/pdf" example_key example_endpoint "" []).
  intros n req r body Hr Hj. unfold scripted in Hr.
  destruct n as [|n].
  - injection Hr as <-. injection Hj as <-. vm_compute. discriminate.
  - destruct (S n =? 11)%nat; injection Hr as <-; injection Hj as <-;
      vm_compute; discriminate.
Defined.

Lemma textual_text (v : value) (tr : list event) :
  textual v -> truthy v = true -> exists s, v = VStr s /\ as_text v tr = (Ret s, tr).
Proof.
  intros [Hf|(s & ->)] Ht; [congruence|]. exists s. split; reflexivity.
Qed.

(** X8: the handler never throws.  For every request whose body cannot be
    read, is [null], or has its fields missing or given as strings, and
    whatever the service does (its bodies being ones that the embedding of
    the text extractor covers), the handler returns an answer: status 200
    with the two fields [content] and [formattedContent], the latter
    [null] or the formatted content, or status 400 or 500 with the single
    field [error]. *)
Theorem POST_never_throws
        (parse_url : string -> option URL) (transport : nat -> Request -> fetched)
        (runtime_message : exn -> string)
        (request_body : option value) (tr : list event) :
  (forall body, request_body = Some body -> request_in_text body) ->
  answers_modelled transport ->
  exists (resp : HttpResponse) (tr' : list event),
    POST_handler parse_url transport runtime_message request_body tr = (Ret resp, tr')
    /\ (is_content_response resp
        \/ is_error_response resp 400 \/ is_error_response resp 500).
Proof.
  intros Htext Hans.
  destruct request_body as [body|].
  2:{ eexists _, _. split; [reflexivity|]. right. right. eexists. reflexivity. }
  assert (Hcases : (body = VNull \/ body = VUndef)
                   \/ (body <> VNull /\ body <> VUndef))
    by (destruct body; auto; right; split; discriminate).
  destruct Hcases as [[-> | ->]|[Hn Hu]].
  - eexists _, _. split; [reflexivity|]. right. right. eexists. reflexivity.
  - eexists _, _. split; [reflexivity|]. right. right. eexists. reflexivity.
  - rewrite POST_fields by assumption.
    destruct (incomplete body) as [message|] eqn:Hi.
    + eexists _, _. split; [reflexivity|]. right. left. eexists. reflexivity.
    + specialize (Htext body eq_refl). unfold request_in_text, text_fields in Htext.
      inversion Htext as [|? ? H1 Ht1]; subst; clear Htext.
      inversion Ht1 as [|? ? H2 Ht2]; subst; clear Ht1.
      inversion Ht2 as [|? ? H3 Ht3]; subst; clear Ht2.
      inversion Ht3 as [|? ? H4 Ht4]; subst; clear Ht3.
      inversion Ht4 as [|? ? H5 Ht5]; subst; clear Ht4.
      inversion Ht5 as [|? ? H6 _]; subst; clear Ht5.
      unfold incomplete in Hi.
      destruct (truthy (field body "fileBase64")) eqn:T1; [|discriminate].
      destruct (truthy (field body "fileName")) eqn:T2; [|discriminate].
      destruct (truthy (field body "fileType")) eqn:T3; [|discriminate].
      destruct (truthy (field body "azureApiKey")) eqn:T4; [|discriminate].
      destruct (truthy (field body "azureEndpoint")) eqn:T5; [|discriminate].
      clear Hi.
      destruct (textual_text _ tr H1 T1) as (base64 & E1 & R1).
      destruct (textual_text _ tr H2 T2) as (name & E2 & R2).
      destruct (textual_text _ tr H3 T3) as (type & E3 & R3).
      destruct (textual_text _ tr H4 T4) as (key & E4 & R4).
      destruct (textual_text _ tr H5 T5) as (endpoint & E5 & R5).
      assert (Hmodel : exists model,
                as_text (or_else (field body "modelId") (VStr default_model)) tr
                = (Ret model, tr)).
      { unfold or_else. destruct (truthy (field body "modelId")) eqn:T6.
        - destruct (textual_text _ tr H6 T6) as (m & _ & R6). eauto.
        - eexists. reflexivity. }
      destruct Hmodel as (model & R6).
      unfold try_catchM.
      rewrite run_bind, R1. cbv iota. rewrite run_bind, R2. cbv iota.
      rewrite run_bind, R3. cbv iota. rewrite run_bind, R4. cbv iota.
      rewrite run_bind, R5. cbv iota. rewrite run_bind, R6. cbv iota.
      rewrite run_bind.
      destruct (analyze_returns parse_url transport runtime_message
                  base64 name type key endpoint model tr Hans)
        as (a & tr' & -> & [(c & d & ->)|(e & evs & -> & _)]).
      * eexists _, _. split; [reflexivity|]. left.
        eexists _, _. split; [reflexivity|].
        destruct (truthy (field body "gemmaModelPath") && truthy (VStr c)); auto.
      * eexists _, _. split; [reflexivity|]. right. right. eexists. reflexivity.
Qed.

Lemma POST_never_throws_witness :
  exists (resp : HttpResponse) (tr' : list event),
    POST_handler https_only (scripted 2) no_runtime_message
      (Some (upload "QUJD" "form.pdf" "application/pdf" example_key example_endpoint
               VUndef (VNum 1))) []
    = (Ret resp, tr')
    /\ (is_content_response resp
        \/ is_error_response resp 400 \/ is_error_response resp 500).
Proof.
  apply (POST_never_throws https_only (scripted 2) no_runtime_message
           (Some (upload "QUJD" "form.pdf" "application/pdf" example_key
                    example_endpoint VUndef (VNum 1))) []).
  - intros body [= <-]. unfold request_in_text, text_fields.
    repeat (apply Forall_cons; split;
            [first [right; eexists; reflexivity | left; reflexivity]|]).
    apply Forall_nil. exact I.
  - intros n req r body Hr Hj. unfold scripted in Hr.
    destruct n as [|n].
    + injection Hr as <-. injection Hj as <-. vm_compute. discriminate.
    + destruct (S n =? 2)%nat; injection Hr as <-; injection Hj as <-;
        vm_compute; discriminate.
Defined.
